(** * PortfolioPro backend (server.ts): a shallow embedding and its properties

    The development follows the Express server of the repository: the
    authentication middleware, the subdomain generator, the export stub
    and the request handlers for users, sites and projects.  The
    PostgreSQL pool is modelled as tables of rows threaded through a
    small state monad that also records every statement handed to
    [pool.query]. *)

From Stdlib Require Import Ascii String ZArith.
From stdpp Require Import base strings list gmap pretty sorting.

Open Scope string_scope.
Open Scope list_scope.
Open Scope nat_scope.

(** ** JavaScript values and strings *)

Module Js.

(** Values that travel in JSON bodies, query parameters and result rows.
    [VUndefined] is the JavaScript [undefined] (a destructured property
    that is absent); [VDate] is a [Date] or SQL timestamp in milliseconds;
    [VArr] is an array of strings, as the TEXT[] columns hold. *)
Inductive Value : Type :=
  | VUndefined
  | VNull
  | VBool (b : bool)
  | VNum (z : Z)
  | VStr (s : string)
  | VDate (t : Z)
  | VArr (l : list string).

#[global] Instance Value_eq_dec : EqDecision Value.
Proof. solve_decision. Defined.

(** [!v] in JavaScript: the falsy values are undefined, null, false, 0 and
    the empty string; arrays and dates are truthy. *)
Definition falsy (v : Value) : bool :=
  match v with
  | VUndefined | VNull => true
  | VBool b => negb b
  | VNum z => (z =? 0)%Z
  | VStr s => bool_decide (s = "")
  | VDate _ | VArr _ => false
  end.

(** [value !== undefined]. *)
Definition is_defined (v : Value) : bool :=
  match v with VUndefined => false | _ => true end.

(** An object as [Object.entries] lists it: keys are unique and in
    encounter order. *)
Abbreviation Entries := (list (string * Value)).

(** Property access [obj.key]: [undefined] when the key is absent. *)
Fixpoint get (key : string) (obj : Entries) : Value :=
  match obj with
  | [] => VUndefined
  | (k, v) :: rest => if bool_decide (k = key) then v else get key rest
  end.

(** What [res.json] keeps of an object literal: [JSON.stringify] drops the
    properties whose value is [undefined]. *)
Definition json_object (obj : Entries) : Entries :=
  filter (λ kv, is_defined kv.2 = true) obj.

(** Characters are code units below 256. *)
Definition code (c : ascii) : N := N_of_ascii c.

Definition is_upper (c : ascii) : bool :=
  let n := code c in
  ((65 <=? n) && (n <=? 90) ||
   (192 <=? n) && (n <=? 222) && negb (n =? 215))%N.

(** [String.prototype.toLowerCase] on one code unit: A-Z and the Latin-1
    capitals move up by 32. *)
Definition lower_char (c : ascii) : ascii :=
  if is_upper c then ascii_of_N (code c + 32) else c.

Fixpoint toLowerCase (s : string) : string :=
  match s with
  | EmptyString => EmptyString
  | String c rest => String (lower_char c) (toLowerCase rest)
  end.

(** The character class [a-z0-9]. *)
Definition is_lower_alnum (c : ascii) : bool :=
  let n := code c in
  ((97 <=? n) && (n <=? 122) || (48 <=? n) && (n <=? 57))%N.

(** [s.replace(/[^a-z0-9]/g, '')]. *)
Fixpoint strip_non_alnum (s : string) : string :=
  match s with
  | EmptyString => EmptyString
  | String c rest =>
      if is_lower_alnum c then String c (strip_non_alnum rest)
      else strip_non_alnum rest
  end.

(** White space removed by [String.prototype.trim]. *)
Definition is_trim_space (c : ascii) : bool :=
  let n := code c in
  ((9 <=? n) && (n <=? 13) || (n =? 32) || (n =? 160))%N.

Fixpoint trim_start (s : string) : string :=
  match s with
  | EmptyString => EmptyString
  | String c rest => if is_trim_space c then trim_start rest else s
  end.

Definition trim (s : string) : string :=
  String.rev (trim_start (String.rev (trim_start s))).

(** [s.split(' ')]. *)
Fixpoint split_space_go (cur : string) (s : string) : list string :=
  match s with
  | EmptyString => [String.rev cur]
  | String c rest =>
      if bool_decide (c = " "%char) then String.rev cur :: split_space_go "" rest
      else split_space_go (String c cur) rest
  end.

Definition split_space (s : string) : list string := split_space_go "" s.

(** [parts.join(sep)]. *)
Fixpoint join (sep : string) (parts : list string) : string :=
  match parts with
  | [] => ""
  | [p] => p
  | p :: rest => p +:+ sep +:+ join sep rest
  end.

(** The double quote and the line feed, for the literals that contain them. *)
Definition dq : string := String "034"%char "".
Definition nl : string := String "010"%char "".

End Js.

Import Js.

(** ** The database behind [pool] *)

(** A row is a finite map from column names to values. *)
Abbreviation Row := (gmap string Value).

Record DB : Type := mkDB {
  users : list Row;
  portfolio_sites : list Row;
  portfolio_projects : list Row;
  image_assets : list Row
}.

(** One call of [pool.query(text, values)]. *)
Record Query : Type := mkQuery {
  sql : string;
  params : list Value
}.

(** A ZIP archive written below the storage directory: its path and its
    entries (name and content). *)
Record ZipFile : Type := mkZip {
  zip_path : string;
  zip_entries : list (string * string)
}.

Record World : Type := mkWorld {
  db : DB;
  trace : list Query;
  storage : list ZipFile
}.

(** Handlers run in a state monad over the world. *)
Definition M (A : Type) : Type := World → A * World.

Definition ret {A} (a : A) : M A := λ w, (a, w).

Definition bind {A B} (m : M A) (k : A → M B) : M B :=
  λ w, let (a, w') := m w in k a w'.

Notation "'let*' x ':=' m 'in' k" := (bind m (λ x, k))
  (at level 10, x name, m at level 100, k at level 200).

(** [await pool.query(text, values)]: the statement is recorded, then it
    runs against the tables. *)
Definition pool_query {A} (text : string) (values : list Value)
    (run : DB → A * DB) : M A :=
  λ w, let (a, d) := run (db w) in
       (a, mkWorld d (trace w ++ [mkQuery text values]) (storage w)).

(** A read-only statement. *)
Definition pool_select (text : string) (values : list Value)
    (run : DB → list Row) : M (list Row) :=
  pool_query text values (λ d, (run d, d)).

(** [WHERE col = $n] against a text parameter: SQL equality never holds
    for NULL or for a missing column. *)
Definition col_is (col : string) (s : string) (r : Row) : bool :=
  match r !! col with
  | Some (VStr s') => bool_decide (s' = s)
  | _ => false
  end.

(** The column list of a SELECT or RETURNING clause. *)
Definition select_cols (cols : list string) (r : Row) : Row :=
  filter (λ kv, kv.1 ∈ cols) r.

(** SQL equality of two column values: never true for NULL. *)
Definition sql_eq (a b : Value) : bool :=
  match a with
  | VUndefined | VNull => false
  | _ => bool_decide (a = b)
  end.

(** [row.col] on a result row. *)
Definition field (col : string) (r : Row) : Value :=
  default VUndefined (r !! col).

(** ** generateUniqueSubdomain *)

Definition q_subdomain : string :=
  "SELECT site_id FROM portfolio_sites WHERE subdomain = $1".

Definition select_subdomain (subdomain : string) : M (list Row) :=
  pool_select q_subdomain [VStr subdomain]
    (λ d, select_cols ["site_id"] <$>
          filter (λ r, col_is "subdomain" subdomain r = true) (portfolio_sites d)).

Definition base_subdomain (username : string) : string :=
  strip_non_alnum (toLowerCase username).

(** The body of [while (true)], unrolled at most [fuel] times; [None]
    only when the fuel runs out. *)
Fixpoint subdomain_loop (fuel : nat) (base subdomain : string) (counter : nat)
    : M (option string) :=
  match fuel with
  | O => ret None
  | S fuel' =>
      let* result := select_subdomain subdomain in
      if bool_decide (length result = 0) then ret (Some subdomain)
      else subdomain_loop fuel' base (base +:+ pretty counter) (S counter)
  end.

Definition generateUniqueSubdomain (fuel : nat) (username : string)
    : M (option string) :=
  let base := base_subdomain username in
  subdomain_loop fuel base base 1.

(** ** Responses *)

(** [createErrorResponse(message, error, errorCode)]: [details] is present
    only when an error object is passed; it is represented by the error's
    name.  The [timestamp] property is left out of the model. *)
Record ErrorResponse : Type := mkError {
  success : bool;
  message : string;
  error_code : option string;
  details : option string
}.

Definition createErrorResponse (message : string) (error : option string)
    (errorCode : string) : ErrorResponse :=
  {| success := false;
     message := message;
     error_code := if bool_decide (errorCode = "") then None else Some errorCode;
     details := error |}.

(** The JSON bodies the handlers send. *)
Inductive Body : Type :=
  | BError (e : ErrorResponse)
  | BData (row : option Row)
  | BList (rows : list Row) (total : nat)
  | BAuth (user : Entries) (token : string)
  | BExport (export_zip_url export_path : string)
  | BObject (obj : Entries).

Record Response : Type := mkResponse {
  status : nat;
  body : Body
}.

(** [res.status(code).json(createErrorResponse(...))]. *)
Definition fail (code : nat) (message : string) (error : option string)
    (errorCode : string) : Response :=
  mkResponse code (BError (createErrorResponse message error errorCode)).

Definition internal_error (error : string) : Response :=
  fail 500 "Internal server error" (Some error) "INTERNAL_SERVER_ERROR".

(** ** Tokens *)

(** What [jwt.verify] does with a token: it returns the decoded payload
    or throws. *)
Inductive Verified : Type :=
  | Decoded (user_id : string)
  | JwtThrows (error : string).

(** [authHeader && authHeader.split(' ')[1]]. *)
Definition bearer_token (authHeader : option string) : option string :=
  match authHeader with
  | None => None
  | Some h => if bool_decide (h = "") then Some "" else split_space h !! 1
  end.

(** [!token]. *)
Definition no_token (token : option string) : bool :=
  match token with
  | None => true
  | Some t => bool_decide (t = "")
  end.

(** ** The server *)

Section Server.

(** The token library and the clock formatting are external: [jwt_verify]
    stands for [jwt.verify(token, JWT_SECRET)], [jwt_sign] for
    [jwt.sign({user_id, email}, JWT_SECRET, {expiresIn: '7d'})],
    [toISOString] for [Date.prototype.toISOString] and [dirname] for
    [__dirname]. *)
Variable jwt_verify : string → Verified.
Variable jwt_sign : Value → Value → string.
Variable toISOString : Z → string.
Variable dirname : string.

(** *** authenticateToken *)

Definition q_auth_user : string :=
  "SELECT id, username, email, full_name, created_at FROM users WHERE id = $1".

Definition authenticateToken (authHeader : option string)
    (next : Row → M Response) : M Response :=
  let token := bearer_token authHeader in
  if no_token token then
    ret (fail 401 "Access token required" None "AUTH_TOKEN_MISSING")
  else
    match jwt_verify (default "" token) with
    | Decoded user_id =>
        let* result :=
          pool_select q_auth_user [VStr user_id]
            (λ d, select_cols ["id"; "username"; "email"; "full_name"; "created_at"]
                    <$> filter (λ r, col_is "id" user_id r = true) (users d)) in
        match result with
        | [] => ret (fail 401 "Invalid token - user not found" None "AUTH_USER_NOT_FOUND")
        | user :: _ => next user
        end
    | JwtThrows error =>
        ret (fail 403 "Invalid or expired token" (Some error) "AUTH_TOKEN_INVALID")
    end.

(** [pool.query] can also reject, when the statement fails or the
    connection is lost.  The middleware awaits the lookup inside the [try]
    whose [catch] answers 403, so a rejected lookup is answered like a
    token that does not verify.  [lookup] is the awaited statement: the
    rows ([inr]), or the error thrown ([inl]). *)
Definition authenticateToken_with (lookup : string → M (string + list Row))
    (authHeader : option string) (next : Row → M Response) : M Response :=
  let token := bearer_token authHeader in
  if no_token token then
    ret (fail 401 "Access token required" None "AUTH_TOKEN_MISSING")
  else
    match jwt_verify (default "" token) with
    | Decoded user_id =>
        let* result := lookup user_id in
        match result with
        | inl error =>
            ret (fail 403 "Invalid or expired token" (Some error) "AUTH_TOKEN_INVALID")
        | inr [] =>
            ret (fail 401 "Invalid token - user not found" None "AUTH_USER_NOT_FOUND")
        | inr (user :: _) => next user
        end
    | JwtThrows error =>
        ret (fail 403 "Invalid or expired token" (Some error) "AUTH_TOKEN_INVALID")
    end.

(** The lookup when the database answers, and when it rejects the
    statement with [error]. *)
Definition lookup_user (user_id : string) : M (string + list Row) :=
  let* rows :=
    pool_select q_auth_user [VStr user_id]
      (λ d, select_cols ["id"; "username"; "email"; "full_name"; "created_at"]
              <$> filter (λ r, col_is "id" user_id r = true) (users d)) in
  ret (inr rows).

Definition rejected_lookup (error : string) (user_id : string)
    : M (string + list Row) :=
  λ w, (inl error,
        mkWorld (db w) (trace w ++ [mkQuery q_auth_user [VStr user_id]]) (storage w)).

(** *** POST /api/auth/register *)

(** The credentials forms send strings; [None] is a property that is
    absent or null. *)
Record RegisterBody : Type := mkRegister {
  reg_username : option string;
  reg_email : option string;
  reg_password_hash : option string;
  reg_full_name : option string;
  reg_avatar_url : option string
}.

(** [!s] for a string that may be absent. *)
Definition blank (s : option string) : bool :=
  match s with
  | None => true
  | Some t => bool_decide (t = "")
  end.

(** [s || null] as a query parameter. *)
Definition or_null (s : option string) : Value :=
  match s with
  | None => VNull
  | Some t => if bool_decide (t = "") then VNull else VStr t
  end.

Definition q_existing_user : string :=
  "SELECT id FROM users WHERE username = $1 OR email = $2".

Definition q_insert_user : string :=
  "INSERT INTO users (id, username, email, password_hash, full_name, avatar_url, is_active) VALUES ($1, $2, $3, $4, $5, $6, $7) RETURNING id, username, email, full_name, avatar_url, is_active, created_at".

(** The constraints of the users table: primary key, the two UNIQUE
    columns and the VARCHAR bounds. *)
Definition text_fits (bound : nat) (v : Value) : bool :=
  match v with
  | VStr s => bool_decide (String.length s ≤ bound)%nat
  | _ => true
  end.

Definition users_accepts (new : Row) (table : list Row) : bool :=
  forallb (λ r, bool_decide (field "id" r ≠ field "id" new) &&
                bool_decide (field "username" r ≠ field "username" new) &&
                bool_decide (field "email" r ≠ field "email" new)) table &&
  text_fits 50 (field "username" new) &&
  text_fits 255 (field "email" new) &&
  text_fits 100 (field "full_name" new).

(** The INSERT of a user, with the column defaults filled in; [None]
    when the statement violates a constraint and [pool.query] throws. *)
Definition insert_user (values : list Value) (now : Z) (d : DB)
    : option (list Row) * DB :=
  match values with
  | [id; username; email; password_hash; full_name; avatar_url; is_active] =>
      let new : Row :=
        list_to_map [("id", id); ("username", username); ("email", email);
                     ("password_hash", password_hash); ("full_name", full_name);
                     ("avatar_url", avatar_url); ("is_active", is_active);
                     ("created_at", VDate now)] in
      if users_accepts new (users d) then
        (Some [select_cols ["id"; "username"; "email"; "full_name"; "avatar_url";
                            "is_active"; "created_at"] new],
         mkDB (users d ++ [new]) (portfolio_sites d) (portfolio_projects d)
              (image_assets d))
      else (None, d)
  | _ => (None, d)
  end.

(** The [user] object literal of the register and login responses. *)
Definition user_literal (user : Row) : Entries :=
  [("id", field "id" user);
   ("username", field "username" user);
   ("email", field "email" user);
   ("password_hash", field "password_hash" user);
   ("full_name", field "full_name" user);
   ("avatar_url", field "avatar_url" user);
   ("is_active", field "is_active" user);
   ("created_at", field "created_at" user)].

Definition register (req_body : RegisterBody) (user_id : string) (now : Z)
    : M Response :=
  let username := reg_username req_body in
  let email := reg_email req_body in
  let password_hash := reg_password_hash req_body in
  if blank username || blank email || blank password_hash then
    ret (fail 400 "Username, email and password are required" None
              "MISSING_REQUIRED_FIELDS")
  else if bool_decide (String.length (default "" password_hash) < 6)%nat then
    ret (fail 400 "Password must be at least 6 characters long" None
              "PASSWORD_TOO_SHORT")
  else
    let username := default "" username in
    let email := default "" email in
    let password_hash := default "" password_hash in
    let* existingUser :=
      pool_select q_existing_user [VStr username; VStr email]
        (λ d, select_cols ["id"] <$>
              filter (λ r, col_is "username" username r || col_is "email" email r = true)
                     (users d)) in
    if bool_decide (0 < length existingUser)%nat then
      ret (fail 400 "User with this username or email already exists" None
                "USER_ALREADY_EXISTS")
    else
      let values :=
        [VStr user_id; VStr (trim username); VStr (trim (toLowerCase email));
         VStr password_hash; or_null (trim <$> reg_full_name req_body);
         or_null (reg_avatar_url req_body); VBool true] in
      let* result := pool_query q_insert_user values (insert_user values now) in
      match result with
      | Some (user :: _) =>
          let token := jwt_sign (field "id" user) (field "email" user) in
          ret (mkResponse 201 (BAuth (json_object (user_literal user)) token))
      | _ => ret (internal_error "error")
      end.

(** *** POST /api/auth/login *)

Record LoginBody : Type := mkLogin {
  login_username : option string;
  login_email : option string;
  login_password_hash : option string
}.

Definition q_login_user : string :=
  "SELECT * FROM users WHERE username = $1 OR email = $1".

Definition login (req_body : LoginBody) : M Response :=
  let login_identifier :=
    if blank (login_username req_body) then login_email req_body
    else login_username req_body in
  let password_hash := login_password_hash req_body in
  if blank login_identifier || blank password_hash then
    ret (fail 400 "Username/email and password are required" None
              "MISSING_REQUIRED_FIELDS")
  else
    let identifier := trim (toLowerCase (default "" login_identifier)) in
    let* result :=
      pool_select q_login_user [VStr identifier]
        (λ d, filter (λ r, col_is "username" identifier r ||
                           col_is "email" identifier r = true) (users d)) in
    match result with
    | [] => ret (fail 400 "Invalid credentials" None "INVALID_CREDENTIALS")
    | user :: _ =>
        if bool_decide (VStr (default "" password_hash) ≠ field "password_hash" user)
        then ret (fail 400 "Invalid credentials" None "INVALID_CREDENTIALS")
        else
          let token := jwt_sign (field "id" user) (field "email" user) in
          ret (mkResponse 200 (BAuth (json_object (user_literal user)) token))
    end.

(** *** GET /api/users/:user_id *)

Definition q_public_user : string :=
  "SELECT id, username, full_name, avatar_url, is_active, created_at FROM users WHERE id = $1 AND is_active = true".

Definition getUser (user_id : string) : M Response :=
  let* result :=
    pool_select q_public_user [VStr user_id]
      (λ d, select_cols ["id"; "username"; "full_name"; "avatar_url"; "is_active";
                         "created_at"] <$>
            filter (λ r, col_is "id" user_id r &&
                         bool_decide (r !! "is_active" = Some (VBool true)) = true)
                   (users d)) in
  match result with
  | [] => ret (fail 404 "User not found" None "USER_NOT_FOUND")
  | user :: _ => ret (mkResponse 200 (BData (Some user)))
  end.

(** *** The ownership check of the site handlers *)

Definition q_site_owner : string :=
  "SELECT user_id FROM portfolio_sites WHERE site_id = $1".

(** [a !== b] on the values compared here: strings, or [undefined] for a
    missing property. *)
Definition strict_ne (a b : Value) : bool := bool_decide (a ≠ b).

(** The block every site handler starts with: one lookup, 404 when no
    row comes back, 403 when [rows[0].user_id !== req.user.id], and only
    then the rest of the handler. *)
Definition site_gate (site_id : string) (user : Row) (rest : M Response)
    : M Response :=
  let* siteCheck :=
    pool_select q_site_owner [VStr site_id]
      (λ d, select_cols ["user_id"] <$>
            filter (λ r, col_is "site_id" site_id r = true) (portfolio_sites d)) in
  match siteCheck with
  | [] => ret (fail 404 "Site not found" None "SITE_NOT_FOUND")
  | row :: _ =>
      if strict_ne (field "user_id" row) (field "id" user) then
        ret (fail 403 "Access denied" None "ACCESS_DENIED")
      else rest
  end.

Definition q_project_owner : string :=
  nl +:+ "      SELECT pp.*, ps.user_id " +:+
  nl +:+ "      FROM portfolio_projects pp " +:+
  nl +:+ "      JOIN portfolio_sites ps ON pp.site_id = ps.site_id " +:+
  nl +:+ "      WHERE pp.project_id = $1 AND pp.site_id = $2" +:+
  nl +:+ "    ".

(** The join of a project with the sites that carry its [site_id]: the
    project's columns and the site's [user_id]. *)
Definition join_owner (d : DB) (pp : Row) : list Row :=
  (λ ps : Row, <["user_id" := field "user_id" ps]> pp) <$>
  filter (λ ps : Row, sql_eq (field "site_id" pp) (field "site_id" ps) = true)
         (portfolio_sites d).

(** The block the project handlers start with; the handler goes on with
    the row found. *)
Definition project_gate (site_id project_id : string) (user : Row)
    (rest : Row → M Response) : M Response :=
  let* projectCheck :=
    pool_select q_project_owner [VStr project_id; VStr site_id]
      (λ d, filter (λ r, col_is "project_id" project_id r &&
                         col_is "site_id" site_id r = true) (portfolio_projects d)
            ≫= join_owner d) in
  match projectCheck with
  | [] => ret (fail 404 "Project not found" None "PROJECT_NOT_FOUND")
  | row :: _ =>
      if strict_ne (field "user_id" row) (field "id" user) then
        ret (fail 403 "Access denied" None "ACCESS_DENIED")
      else rest row
  end.

(** *** The dynamic UPDATE of the two update handlers *)

(** One element of [update_fields]: the template string
    [`${key} = $${value_index}`], kept as its two holes. *)
Record Assignment : Type := mkAssign {
  column : string;
  placeholder : nat
}.

(** The string the template evaluates to. *)
Definition render (a : Assignment) : string :=
  column a +:+ " = $" +:+ pretty (placeholder a).

(** The three variables of the loop. *)
Record Builder : Type := mkBuilder {
  update_fields : list Assignment;
  values : list Value;
  value_index : nat
}.

(** One turn of [for (const [key, value] of Object.entries(updates))];
    [protected] lists the keys the condition compares [key] with. *)
Definition build_step (protected : list string) (b : Builder)
    (entry : string * Value) : Builder :=
  let '(key, value) := entry in
  if bool_decide (key ∉ protected) && is_defined value then
    mkBuilder (update_fields b ++ [mkAssign key (value_index b)])
              (values b ++ [value])
              (S (value_index b))
  else b.

Definition build_update (protected : list string) (updates : Entries) : Builder :=
  foldl (build_step protected) (mkBuilder [] [] 1) updates.

(** The statement handed to [pool.query] once the timestamp and the key
    are pushed. *)
Record UpdateStatement : Type := mkUpdate {
  table : string;
  set_list : list Assignment;
  where_column : string;
  where_placeholder : nat;
  parameters : list Value
}.

Definition update_text (u : UpdateStatement) : string :=
  nl +:+ "      UPDATE " +:+ table u +:+ " " +:+
  nl +:+ "      SET " +:+ join ", " (render <$> set_list u) +:+ " " +:+
  nl +:+ "      WHERE " +:+ where_column u +:+ " = $" +:+ pretty (where_placeholder u) +:+
  nl +:+ "      RETURNING *" +:+
  nl +:+ "    ".

(** How the database runs such a statement is kept abstract: the rows
    it returns, or [None] when [pool.query] throws. *)
Variable run_update : UpdateStatement → DB → option (list Row) * DB.

(** The part the two handlers share after the ownership check. *)
Definition dynamic_update (table_name key_column : string)
    (protected : list string) (key : string) (updates : Entries) (now : Z)
    : M Response :=
  let b := build_update protected updates in
  if bool_decide (length (update_fields b) = 0) then
    ret (fail 400 "No valid fields to update" None "NO_UPDATE_FIELDS")
  else
    let update_fields :=
      (update_fields b ++ [mkAssign "updated_at" (value_index b)])%list in
    let values := (values b ++ [VDate now])%list in
    let value_index := S (value_index b) in
    let values := (values ++ [VStr key])%list in
    let stmt := mkUpdate table_name update_fields key_column value_index values in
    let* result := pool_query (update_text stmt) values (run_update stmt) in
    match result with
    | Some rows => ret (mkResponse 200 (BData (rows !! 0)))
    | None => ret (internal_error "error")
    end.

(** PUT /api/sites/:site_id *)
Definition putSite (site_id : string) (user : Row) (updates : Entries) (now : Z)
    : M Response :=
  site_gate site_id user
    (dynamic_update "portfolio_sites" "site_id" ["site_id"] site_id updates now).

(** PUT /api/sites/:site_id/projects/:project_id *)
Definition putProject (site_id project_id : string) (user : Row)
    (updates : Entries) (now : Z) : M Response :=
  project_gate site_id project_id user
    (λ _, dynamic_update "portfolio_projects" "project_id"
            ["id"; "project_id"; "site_id"] project_id updates now).

(** *** Fixed statements on the sites table *)

(** [UPDATE portfolio_sites SET ... WHERE site_id = $n RETURNING *] with
    a fixed SET list [change]: every row with that key is changed and
    returned. *)
Definition update_sites (change : Row → Row) (site_id : string) (d : DB)
    : list Row * DB :=
  (change <$> filter (λ r, col_is "site_id" site_id r = true) (portfolio_sites d),
   mkDB (users d)
        ((λ r, if col_is "site_id" site_id r then change r else r)
           <$> portfolio_sites d)
        (portfolio_projects d) (image_assets d)).

Definition q_publish : string :=
  nl +:+ "      UPDATE portfolio_sites " +:+
  nl +:+ "      SET published_at = CURRENT_TIMESTAMP, updated_at = CURRENT_TIMESTAMP" +:+
  nl +:+ "      WHERE site_id = $1" +:+
  nl +:+ "      RETURNING *" +:+
  nl +:+ "    ".

(** The SET list of the publish statement at time [now]. *)
Definition set_published (now : Z) (r : Row) : Row :=
  <["updated_at" := VDate now]> (<["published_at" := VDate now]> r).

(** PUT /api/sites/:site_id/publish *)
Definition publishSite (site_id : string) (user : Row) (now : Z) : M Response :=
  site_gate site_id user
    (let* result :=
       pool_query q_publish [VStr site_id] (update_sites (set_published now) site_id) in
     ret (mkResponse 200 (BData (result !! 0)))).

(** GET /api/sites/:site_id *)
Definition getSite (site_id : string) : M Response :=
  let* result :=
    pool_select "SELECT * FROM portfolio_sites WHERE site_id = $1" [VStr site_id]
      (λ d, filter (λ r, col_is "site_id" site_id r = true) (portfolio_sites d)) in
  match result with
  | [] => ret (fail 404 "Site not found" None "SITE_NOT_FOUND")
  | row :: _ => ret (mkResponse 200 (BData (Some row)))
  end.

(** *** POST /api/sites *)

(** A parameter as the driver sends it: [undefined] becomes NULL. *)
Definition to_sql (v : Value) : Value :=
  match v with
  | VUndefined => VNull
  | _ => v
  end.

(** A destructuring default [{ name = d }]: used when the property is
    [undefined]. *)
Definition with_default (d v : Value) : Value :=
  if is_defined v then v else d.


Definition site_columns : list string :=
  ["site_id"; "user_id"; "site_title"; "tagline"; "hero_image_url"; "about_text";
   "template_id"; "primary_color"; "font_family"; "is_dark_mode";
   "seo_title"; "seo_description"; "subdomain"].




(** *** generateStaticSiteExport and POST /api/sites/:site_id/export *)

Definition storage_dir : string := dirname +:+ "/storage".

Definition mock_html (now : Z) : string :=
  nl +:+ "<!DOCTYPE html>" +:+
  nl +:+ "<html lang=" +:+ dq +:+ "en" +:+ dq +:+ ">" +:+
  nl +:+ "<head>" +:+
  nl +:+ "    <meta charset=" +:+ dq +:+ "UTF-8" +:+ dq +:+ ">" +:+
  nl +:+ "    <meta name=" +:+ dq +:+ "viewport" +:+ dq +:+ " content=" +:+ dq +:+ "width=device-width, initial-scale=1.0" +:+ dq +:+ ">" +:+
  nl +:+ "    <title>Portfolio Export</title>" +:+
  nl +:+ "    <style>" +:+
  nl +:+ "        body { font-family: Arial, sans-serif; margin: 0; padding: 20px; }" +:+
  nl +:+ "        .hero { background: #f4f4f4; padding: 60px 20px; text-align: center; }" +:+
  nl +:+ "        .projects { padding: 40px 20px; }" +:+
  nl +:+ "        .project { margin-bottom: 30px; padding: 20px; border: 1px solid #ddd; }" +:+
  nl +:+ "    </style>" +:+
  nl +:+ "</head>" +:+
  nl +:+ "<body>" +:+
  nl +:+ "    <div class=" +:+ dq +:+ "hero" +:+ dq +:+ ">" +:+
  nl +:+ "        <h1>Portfolio Site Export</h1>" +:+
  nl +:+ "        <p>Generated on " +:+ toISOString now +:+ "</p>" +:+
  nl +:+ "    </div>" +:+
  nl +:+ "    <div class=" +:+ dq +:+ "projects" +:+ dq +:+ ">" +:+
  nl +:+ "        <h2>Projects</h2>" +:+
  nl +:+ "        <div class=" +:+ dq +:+ "project" +:+ dq +:+ ">" +:+
  nl +:+ "            <h3>Sample Project</h3>" +:+
  nl +:+ "            <p>This is a mock export. In production, this would contain actual portfolio data.</p>" +:+
  nl +:+ "        </div>" +:+
  nl +:+ "    </div>" +:+
  nl +:+ "</body>" +:+
  nl +:+ "</html>".

(** [Date.now()] is read as [t_name] for the file name and [new Date()]
    as [t_html] for the document.  The archive is written with the one
    entry [index.html]; writing is taken to succeed. *)
Definition generateStaticSiteExport (site_id : string) (t_name t_html : Z)
    : M (option string) :=
  λ w,
    let export_filename := "portfolio-" +:+ site_id +:+ "-" +:+ pretty t_name +:+ ".zip" in
    let export_path := storage_dir +:+ "/" +:+ export_filename in
    (Some ("/storage/" +:+ export_filename),
     mkWorld (db w) (trace w)
             (storage w ++ [mkZip export_path [("index.html", mock_html t_html)]])).

Definition q_set_export : string :=
  "UPDATE portfolio_sites SET export_zip_url = $1, updated_at = CURRENT_TIMESTAMP WHERE site_id = $2".

Definition set_export (url : string) (now : Z) (r : Row) : Row :=
  <["updated_at" := VDate now]> (<["export_zip_url" := VStr url]> r).

Definition exportSite (site_id : string) (user : Row) (t_name t_html now : Z)
    : M Response :=
  site_gate site_id user
    (let* export_zip_url := generateStaticSiteExport site_id t_name t_html in
     match export_zip_url with
     | Some url =>
         if bool_decide (url = "") then
           ret (fail 500 "Failed to generate export" None "EXPORT_GENERATION_FAILED")
         else
           let* _ := pool_query q_set_export [VStr url; VStr site_id]
                       (update_sites (set_export url now) site_id) in
           ret (mkResponse 200 (BExport url url))
     | None =>
         ret (fail 500 "Failed to generate export" None "EXPORT_GENERATION_FAILED")
     end).

(** *** POST and GET /api/sites/:site_id/projects *)

Definition q_insert_project : string :=
  nl +:+ "      INSERT INTO portfolio_projects (" +:+
  nl +:+ "        project_id, site_id, title, description, date, tags, demo_url, code_url, images, order_index" +:+
  nl +:+ "      ) VALUES ($1, $2, $3, $4, $5, $6, $7, $8, $9, $10)" +:+
  nl +:+ "      RETURNING *" +:+
  nl +:+ "    ".

Definition project_columns : list string :=
  ["project_id"; "site_id"; "title"; "description"; "date"; "tags"; "demo_url";
   "code_url"; "images"; "order_index"].

(** The types of the columns the INSERT fills: [date] is a DATE, [tags]
    and [images] are TEXT[], [order_index] is an INTEGER, the others are
    TEXT. *)
Inductive ColumnType : Type :=
  | TText
  | TDate
  | TInteger
  | TTextArray.

Definition project_types : list ColumnType :=
  [TText; TText; TText; TText; TDate; TTextArray; TText; TText; TTextArray;
   TInteger].

(** A parameter reaches PostgreSQL as text and is read by the input
    function of the column's type; when a row is returned the driver
    turns each stored value into a JavaScript value.  Where the JSON type
    of the parameter is the type of the column the outcome is fixed: a
    string in a TEXT column, an array of strings in a TEXT[] column and a
    number in an INTEGER column, when it fits into 32 bits, come back as
    they were sent, and a number that does not fit is an error.  Every
    other pairing is left to [pg_convert], which is external: the value
    returned for the stored one, or [None] when PostgreSQL raises an
    error.  A DATE column is always given a text, so what comes back for
    it is decided there; a stored date is returned as a [Date]. *)
Variable pg_convert : ColumnType → Value → option Value.

Definition in_int4 (z : Z) : bool :=
  ((-2147483648 <=? z) && (z <=? 2147483647))%Z.

Definition pg_input (ty : ColumnType) (v : Value) : option Value :=
  match to_sql v, ty with
  | VNull, _ => Some VNull
  | VStr s, TText => Some (VStr s)
  | VArr l, TTextArray => Some (VArr l)
  | VNum z, TInteger => if in_int4 z then Some (VNum z) else None
  | v', _ => pg_convert ty v'
  end.

(** A value as a column of this type holds it: NULL, or a text, a
    [Date], a 32-bit number, an array. *)
Definition has_type (ty : ColumnType) (v : Value) : bool :=
  match v, ty with
  | VNull, _ => true
  | VStr _, TText => true
  | VDate _, TDate => true
  | VNum z, TInteger => in_int4 z
  | VArr _, TTextArray => true
  | _, _ => false
  end.

(** What the table accepts: every column holds a value of its type,
    [project_id] is the primary key, [site_id] references a site, and
    [project_id], [site_id], [title], [description] and [date] are NOT
    NULL. *)
Definition projects_accept (new : Row) (d : DB) : bool :=
  forallb (λ ct : string * ColumnType, has_type ct.2 (field ct.1 new))
          (zip project_columns project_types) &&
  forallb (λ r, negb (sql_eq (field "project_id" r) (field "project_id" new)))
          (portfolio_projects d) &&
  existsb (λ s, sql_eq (field "site_id" s) (field "site_id" new)) (portfolio_sites d) &&
  bool_decide (field "project_id" new ≠ VNull) &&
  bool_decide (field "site_id" new ≠ VNull) &&
  bool_decide (field "title" new ≠ VNull) &&
  bool_decide (field "description" new ≠ VNull) &&
  bool_decide (field "date" new ≠ VNull).

(** The INSERT of a project: each parameter is converted for its
    column, the timestamps take their default, and the row is stored
    when the table accepts it; [None] when a conversion or a constraint
    fails and [pool.query] throws. *)
Definition insert_project (values : list Value) (now : Z) (d : DB)
    : option (list Row) * DB :=
  match mapM (λ tv : ColumnType * Value, pg_input tv.1 tv.2)
             (zip project_types values) with
  | Some stored =>
      let new : Row :=
        <["updated_at" := VDate now]> (<["created_at" := VDate now]>
          (list_to_map (zip project_columns stored))) in
      if bool_decide (length values = length project_columns) && projects_accept new d
      then
        (Some [new],
         mkDB (users d) (portfolio_sites d) (portfolio_projects d ++ [new])
              (image_assets d))
      else (None, d)
  | None => (None, d)
  end.

Definition createProject (site_id : string) (user : Row) (req_body : Entries)
    (project_id : string) (now : Z) : M Response :=
  let title := get "title" req_body in
  let description := get "description" req_body in
  let date := get "date" req_body in
  let tags := with_default (VArr []) (get "tags" req_body) in
  let demo_url := get "demo_url" req_body in
  let code_url := get "code_url" req_body in
  let images := with_default (VArr []) (get "images" req_body) in
  let order_index := with_default (VNum 0) (get "order_index" req_body) in
  if falsy title || falsy description || falsy date then
    ret (fail 400 "Title, description, and date are required" None
              "MISSING_REQUIRED_FIELDS")
  else
    site_gate site_id user
      (let values :=
         [VStr project_id; VStr site_id; title; description; date; tags;
          demo_url; code_url; images; order_index] in
       let* result := pool_query q_insert_project values (insert_project values now) in
       match result with
       | Some rows => ret (mkResponse 201 (BData (rows !! 0)))
       | None => ret (internal_error "error")
       end).

(** The sort key of a numeric or timestamp column; [None] for NULL. *)
Definition sort_key (v : Value) : option Z :=
  match v with
  | VNum z => Some z
  | VDate t => Some t
  | _ => None
  end.

(** [ORDER BY order_index ASC, created_at DESC]: NULL sorts as the
    largest value, so it comes last ascending and first descending. *)
Definition before_asc (a b : option Z) : bool :=
  match a, b with
  | Some x, Some y => (x <? y)%Z
  | Some _, None => true
  | None, _ => false
  end.

Definition project_before (r1 r2 : Row) : bool :=
  let o1 := sort_key (field "order_index" r1) in
  let o2 := sort_key (field "order_index" r2) in
  let c1 := sort_key (field "created_at" r1) in
  let c2 := sort_key (field "created_at" r2) in
  before_asc o1 o2 || (bool_decide (o1 = o2) && before_asc c2 c1).

Fixpoint insert_sorted (r : Row) (sorted : list Row) : list Row :=
  match sorted with
  | [] => [r]
  | r' :: rest =>
      if project_before r' r then r' :: insert_sorted r rest
      else if project_before r r' then r :: sorted
      else r' :: insert_sorted r rest
  end.

Definition order_projects (rows : list Row) : list Row :=
  foldl (λ sorted r, insert_sorted r sorted) [] rows.

Definition q_list_projects : string :=
  "SELECT * FROM portfolio_projects WHERE site_id = $1 ORDER BY order_index ASC, created_at DESC".

Definition listProjects (site_id : string) : M Response :=
  let* result :=
    pool_select q_list_projects [VStr site_id]
      (λ d, order_projects
              (filter (λ r, col_is "site_id" site_id r = true) (portfolio_projects d))) in
  ret (mkResponse 200 (BList result (length result))).

(** *** The route table *)

(** The routes registered under /api. *)
Inductive Endpoint : Type :=
  | POST_auth_register
  | POST_auth_login
  | POST_auth_logout
  | GET_users_id
  | POST_sites
  | GET_sites
  | GET_sites_id
  | PUT_sites_id
  | PUT_sites_id_publish
  | POST_sites_id_export
  | PUT_sites_id_hero
  | PUT_sites_id_about
  | PUT_sites_id_seo
  | PUT_sites_id_theme
  | GET_sites_id_projects
  | POST_sites_id_projects
  | PUT_sites_id_projects_id
  | DELETE_sites_id_projects_id
  | POST_sites_id_projects_id_images
  | POST_sites_id_assets
  | PUT_sites_id_assets_id
  | DELETE_sites_id_assets_id
  | POST_contact_submit
  | GET_dashboard_projects
  | GET_dashboard_submissions
  | GET_dashboard_preview
  | GET_dashboard_export
  | GET_help_docs
  | GET_health.

#[global] Instance Endpoint_eq_dec : EqDecision Endpoint.
Proof. solve_decision. Defined.

(** Whether the route is registered with [authenticateToken] before its
    handler. *)
Definition uses_authenticateToken (e : Endpoint) : bool :=
  match e with
  | POST_auth_register | POST_auth_login | GET_users_id | GET_sites_id
  | GET_sites_id_projects | POST_contact_submit | GET_dashboard_preview
  | GET_help_docs | GET_health => false
  | _ => true
  end.

(** Express runs the middleware of the route, then its handler; the
    handler gets [req.user] only from the middleware. *)
Definition dispatch (handlers : Endpoint → option Row → M Response)
    (e : Endpoint) (authHeader : option string) : M Response :=
  if uses_authenticateToken e then
    authenticateToken authHeader (λ user, handlers e (Some user))
  else handlers e None.

End Server.

(** ** PostgreSQL's execution of the dynamic UPDATE *)

Module Pg.

(** An unquoted identifier: a letter or underscore, then letters, digits,
    underscores or dollar signs. *)
Definition is_letter (c : ascii) : bool :=
  let n := code c in
  ((65 <=? n) && (n <=? 90) || (97 <=? n) && (n <=? 122) || (n =? 95))%N.

Definition is_ident_part (c : ascii) : bool :=
  let n := code c in
  (is_letter c || (48 <=? n) && (n <=? 57) || (n =? 36))%N.

Fixpoint all_chars (p : ascii → bool) (s : string) : bool :=
  match s with
  | EmptyString => true
  | String c rest => p c && all_chars p rest
  end.

Definition plain_identifier (s : string) : bool :=
  match s with
  | EmptyString => false
  | String c rest => is_letter c && all_chars is_ident_part rest
  end.

(** PostgreSQL folds an unquoted identifier to lower case before it
    looks the column up. *)
Definition fold_char (c : ascii) : ascii :=
  let n := code c in
  if ((65 <=? n) && (n <=? 90))%N then ascii_of_N (n + 32) else c.

Fixpoint fold_identifier (s : string) : string :=
  match s with
  | EmptyString => EmptyString
  | String c rest => String (fold_char c) (fold_identifier rest)
  end.

(** The column and the value one SET item assigns.  Only items whose
    left side is a plain identifier are in the fragment modelled here;
    any other text is reported as a statement error. *)
Definition resolve (parameters : list Value) (a : Assignment)
    : option (string * Value) :=
  if plain_identifier (column a) then
    match placeholder a with
    | O => None
    | S i => v ← parameters !! i; Some (fold_identifier (column a), to_sql v)
    end
  else None.

Definition assign (r : Row) (cv : string * Value) : Row := <[cv.1 := cv.2]> r.

Definition sites_schema : list string :=
  ["site_id"; "user_id"; "site_title"; "tagline"; "hero_image_url"; "about_text";
   "template_id"; "primary_color"; "font_family"; "is_dark_mode"; "seo_title";
   "seo_description"; "subdomain"; "published_at"; "export_zip_url"; "created_at";
   "updated_at"].

(** The key constraints of portfolio_sites after an update: the primary
    key and [subdomain] stay unique, the NOT NULL columns stay set, the
    owner exists, and every project and asset still points at a site. *)
Definition non_null (col : string) (rows : list Row) : list Value :=
  filter (λ v, v ≠ VNull ∧ v ≠ VUndefined) (field col <$> rows).

Definition sites_valid (d : DB) (sites : list Row) : bool :=
  bool_decide (NoDup (field "site_id" <$> sites)) &&
  bool_decide (NoDup (non_null "subdomain" sites)) &&
  forallb (λ r, bool_decide (field "site_id" r ≠ VNull) &&
                bool_decide (field "user_id" r ≠ VNull) &&
                bool_decide (field "site_title" r ≠ VNull) &&
                existsb (λ u, sql_eq (field "id" u) (field "user_id" r)) (users d))
          sites &&
  forallb (λ v, existsb (λ s, sql_eq (field "site_id" s) v) sites)
          (non_null "site_id" (portfolio_projects d) ++
           non_null "site_id" (image_assets d)).

(** [UPDATE portfolio_sites SET ... WHERE site_id = $n RETURNING *]. *)
Definition update_sites_dynamic (u : UpdateStatement) (d : DB)
    : option (list Row) * DB :=
  match mapM (resolve (parameters u)) (set_list u),
        parameters u !! pred (where_placeholder u) with
  | Some sets, Some (VStr key) =>
      let change (r : Row) := foldl assign r sets in
      let sites :=
        (λ r, if col_is "site_id" key r then change r else r) <$> portfolio_sites d in
      if forallb (λ cv, bool_decide (cv.1 ∈ sites_schema)) sets &&
         bool_decide (NoDup (sets.*1)) &&
         bool_decide (0 < where_placeholder u)%nat &&
         sites_valid d sites
      then
        (Some (change <$> filter (λ r, col_is "site_id" key r = true) (portfolio_sites d)),
         mkDB (users d) sites (portfolio_projects d) (image_assets d))
      else (None, d)
  | _, _ => (None, d)
  end.

End Pg.

(** ** Vocabulary of the statements *)

(** The [k]-th token the generator probes: the base, then the base with
    the suffixes 1, 2, 3, ... *)
Definition candidate (base : string) (k : nat) : string :=
  match k with
  | O => base
  | S _ => base +:+ pretty k
  end.

(** Some site already has this subdomain. *)
Definition subdomain_taken (d : DB) (s : string) : bool :=
  existsb (col_is "subdomain" s) (portfolio_sites d).

(** The text subdomains stored in the sites table. *)
Definition stored_subdomains (sites : list Row) : list string :=
  omap (λ r : Row, match r !! "subdomain" with
                   | Some (VStr s) => Some s
                   | _ => None
                   end) sites.

(** The world after one more statement was handed to [pool.query]
    without changing the tables. *)
Definition logged (w : World) (q : Query) : World :=
  mkWorld (db w) (trace w ++ [q]) (storage w).

(** The owner column of the first site row with this id, if any. *)
Definition site_owner (d : DB) (site_id : string) : option Value :=
  fmap (field "user_id")
       (head (filter (λ r, col_is "site_id" site_id r = true) (portfolio_sites d))).

Definition site_lookup (site_id : string) : Query :=
  mkQuery q_site_owner [VStr site_id].

(** The first row of the project lookup: the project of this site with
    this id, joined with its site's owner. *)
Definition project_found (d : DB) (site_id project_id : string) : option Row :=
  head (filter (λ r, col_is "project_id" project_id r &&
                     col_is "site_id" site_id r = true) (portfolio_projects d)
        ≫= join_owner d).

Definition project_lookup (site_id project_id : string) : Query :=
  mkQuery q_project_owner [VStr project_id; VStr site_id].

(** The payload entries the specification keeps: the key is not
    protected and the value is not absent; an explicit null stays. *)
Definition keeps (protected : list string) (entry : string * Value) : Prop :=
  (entry.1 ∉ protected) ∧ entry.2 ≠ VUndefined.

#[global] Instance keeps_dec (protected : list string) (entry : string * Value) :
  Decision (keeps protected entry).
Proof. unfold keeps. apply _. Defined.

Definition kept_entries (protected : list string) (updates : Entries) : Entries :=
  filter (keeps protected) updates.

(** One placeholder per kept key, numbered from 1 in encounter order. *)
Definition numbered (kept : Entries) : list Assignment :=
  imap (λ i kv, mkAssign kv.1 (S i)) kept.

(** The statement the specification describes: the kept keys, then the
    trailing timestamp, then the key of the row. *)
Definition expected_update (table_name key_column : string)
    (protected : list string) (key : string) (updates : Entries) (now : Z)
    : UpdateStatement :=
  let kept := kept_entries protected updates in
  mkUpdate table_name
           (numbered kept ++ [mkAssign "updated_at" (S (length kept))])
           key_column
           (S (S (length kept)))
           (kept.*2 ++ [VDate now; VStr key]).

Definition no_update_fields : Response :=
  fail 400 "No valid fields to update" None "NO_UPDATE_FIELDS".

(** The rows the middleware's user lookup returns. *)
Definition token_users (d : DB) (user_id : string) : list Row :=
  select_cols ["id"; "username"; "email"; "full_name"; "created_at"]
    <$> filter (λ r, col_is "id" user_id r = true) (users d).

Definition user_lookup (user_id : string) : Query :=
  mkQuery q_auth_user [VStr user_id].

(** A request carries a valid token when the header has a second,
    non-empty part that the token library accepts for an existing user. *)
Definition valid_token (jwt_verify : string → Verified) (d : DB)
    (authHeader : option string) : Prop :=
  ∃ token user_id,
    bearer_token authHeader = Some token ∧ token ≠ "" ∧
    jwt_verify token = Decoded user_id ∧ token_users d user_id ≠ [].

(** The endpoints registered without the middleware. *)
Definition open_endpoints : list Endpoint :=
  [POST_auth_register; POST_auth_login; GET_users_id; POST_contact_submit;
   GET_help_docs; GET_sites_id; GET_sites_id_projects; GET_dashboard_preview;
   GET_health].

(** The identifier the login handler looks up, and the rows it finds. *)
Definition login_identifier (req_body : LoginBody) : option string :=
  if blank (login_username req_body) then login_email req_body
  else login_username req_body.

Definition login_rows (d : DB) (req_body : LoginBody) : list Row :=
  let identifier := trim (toLowerCase (default "" (login_identifier req_body))) in
  filter (λ r, col_is "username" identifier r || col_is "email" identifier r = true)
         (users d).

Definition invalid_credentials : Response :=
  fail 400 "Invalid credentials" None "INVALID_CREDENTIALS".

(** ** Sample data *)

Module Sample.

Definition user_row (id username email password : string) : Row :=
  list_to_map [("id", VStr id); ("username", VStr username); ("email", VStr email);
               ("password_hash", VStr password); ("full_name", VNull);
               ("avatar_url", VNull); ("is_active", VBool true);
               ("created_at", VDate 0)].

Definition alice : Row := user_row "u_alice" "alice" "alice@example.com" "password123".
Definition bob : Row := user_row "u_bob" "bob" "bob@example.com" "password123".

Definition site_row (site_id user_id title subdomain : string) : Row :=
  list_to_map [("site_id", VStr site_id); ("user_id", VStr user_id);
               ("site_title", VStr title); ("tagline", VNull);
               ("hero_image_url", VNull); ("about_text", VNull);
               ("template_id", VNull); ("primary_color", VNull);
               ("font_family", VNull); ("is_dark_mode", VBool false);
               ("seo_title", VNull); ("seo_description", VNull);
               ("subdomain", VStr subdomain); ("published_at", VNull);
               ("export_zip_url", VNull); ("created_at", VDate 0);
               ("updated_at", VDate 0)].

Definition site1 : Row := site_row "s1" "u_alice" "Alice's work" "alice".
Definition site2 : Row := site_row "s2" "u_alice" "More work" "alice1".
Definition site3 : Row := site_row "s3" "u_bob" "Bob's work" "bob".

Definition project1 : Row :=
  list_to_map [("project_id", VStr "p1"); ("site_id", VStr "s1");
               ("title", VStr "First"); ("description", VStr "A project");
               ("date", VStr "2023-05-01"); ("tags", VArr []);
               ("demo_url", VNull); ("code_url", VNull); ("images", VArr []);
               ("order_index", VNum 0); ("created_at", VDate 0);
               ("updated_at", VDate 0)].

(** The row the project lookup returns for [project1]. *)
Definition project1_owned : Row := <["user_id" := VStr "u_alice"]> project1.

Definition tables : DB := mkDB [alice; bob] [site1; site2; site3] [project1] [].

Definition world : World := mkWorld tables [] [].

(** A token library: two tokens verify, one is expired, every other
    token is malformed. *)
Definition verify (token : string) : Verified :=
  if bool_decide (token = "alice-token") then Decoded "u_alice"
  else if bool_decide (token = "ghost-token") then Decoded "u_ghost"
  else if bool_decide (token = "old-token") then JwtThrows "TokenExpiredError"
  else JwtThrows "JsonWebTokenError".

Definition sign (user_id email : Value) : string := "signed".

(** [req.user] as the middleware attaches it. *)
Definition principal (u : Row) : Row :=
  select_cols ["id"; "username"; "email"; "full_name"; "created_at"] u.

End Sample.

(** ** The rest of the server *)

(** *** Sorting for ORDER BY *)

(** Insertion of a row into a list sorted by [before]; rows that compare
    equal keep their order of arrival. *)
Fixpoint insert_by (before : Row → Row → bool) (r : Row) (sorted : list Row)
    : list Row :=
  match sorted with
  | [] => [r]
  | r' :: rest =>
      if before r' r then r' :: insert_by before r rest
      else if before r r' then r :: sorted
      else r' :: insert_by before r rest
  end.

Definition sort_rows (before : Row → Row → bool) (rows : list Row) : list Row :=
  foldl (λ sorted r, insert_by before r sorted) [] rows.

(** [ORDER BY created_at DESC]. *)
Definition newer (r1 r2 : Row) : bool :=
  before_asc (sort_key (field "created_at" r2)) (sort_key (field "created_at" r1)).

(** *** GET /api/sites *)

Definition q_list_sites : string :=
  "SELECT * FROM portfolio_sites WHERE user_id = $1 ORDER BY created_at DESC".

Definition listSites (user : Row) : M Response :=
  let* result :=
    pool_select q_list_sites [field "id" user]
      (λ d, sort_rows newer
              (filter (λ r, sql_eq (field "user_id" r) (field "id" user) = true)
                      (portfolio_sites d))) in
  ret (mkResponse 200 (BList result (length result))).

(** *** PUT /api/sites/:site_id/hero, about, seo and theme *)

(** A fixed UPDATE of the sites table that may write [site_title]: the
    statement fails, and nothing changes, when a row would get a NULL
    title. *)
Definition update_sites_checked (change : Row → Row) (site_id : string) (d : DB)
    : option (list Row) * DB :=
  if forallb (λ r, bool_decide (field "site_title" (change r) ≠ VNull))
             (filter (λ r, col_is "site_id" site_id r = true) (portfolio_sites d))
  then (Some (update_sites change site_id d).1, (update_sites change site_id d).2)
  else (None, d).

Definition q_hero : string :=
  nl +:+ "      UPDATE portfolio_sites " +:+
  nl +:+ "      SET site_title = $1, tagline = $2, hero_image_url = $3, updated_at = CURRENT_TIMESTAMP" +:+
  nl +:+ "      WHERE site_id = $4" +:+
  nl +:+ "      RETURNING *" +:+
  nl +:+ "    ".

Definition set_hero (title tagline hero_image_url : Value) (now : Z) (r : Row) : Row :=
  <["updated_at" := VDate now]>
    (<["hero_image_url" := to_sql hero_image_url]>
       (<["tagline" := to_sql tagline]> (<["site_title" := to_sql title]> r))).

Definition putHero (site_id : string) (user : Row) (req_body : Entries) (now : Z)
    : M Response :=
  let title := get "title" req_body in
  let tagline := get "tagline" req_body in
  let hero_image_url := get "hero_image_url" req_body in
  site_gate site_id user
    (let* result :=
       pool_query q_hero [title; tagline; hero_image_url; VStr site_id]
         (update_sites_checked (set_hero title tagline hero_image_url now) site_id) in
     match result with
     | Some rows => ret (mkResponse 200 (BData (rows !! 0)))
     | None => ret (internal_error "error")
     end).

Definition q_about : string :=
  nl +:+ "      UPDATE portfolio_sites " +:+
  nl +:+ "      SET about_text = $1, updated_at = CURRENT_TIMESTAMP" +:+
  nl +:+ "      WHERE site_id = $2" +:+
  nl +:+ "      RETURNING *" +:+
  nl +:+ "    ".

Definition set_about (bio : Value) (now : Z) (r : Row) : Row :=
  <["updated_at" := VDate now]> (<["about_text" := to_sql bio]> r).

Definition q_user_avatar : string :=
  "UPDATE users SET avatar_url = $1 WHERE id = $2".

(** [UPDATE users SET avatar_url = $1 WHERE id = $2]. *)
Definition update_avatar (avatar_url user_id : Value) (d : DB) : unit * DB :=
  (tt,
   mkDB ((λ r : Row, if sql_eq (field "id" r) user_id
                     then <["avatar_url" := to_sql avatar_url]> r else r) <$> users d)
        (portfolio_sites d) (portfolio_projects d) (image_assets d)).

Definition putAbout (site_id : string) (user : Row) (req_body : Entries) (now : Z)
    : M Response :=
  let bio := get "bio" req_body in
  let avatar_url := get "avatar_url" req_body in
  site_gate site_id user
    (let* result :=
       pool_query q_about [bio; VStr site_id] (update_sites (set_about bio now) site_id) in
     let* _ :=
       if falsy avatar_url then ret tt
       else pool_query q_user_avatar [avatar_url; field "id" user]
              (update_avatar avatar_url (field "id" user)) in
     ret (mkResponse 200 (BData (result !! 0)))).

Definition q_seo : string :=
  nl +:+ "      UPDATE portfolio_sites " +:+
  nl +:+ "      SET seo_title = $1, seo_description = $2, updated_at = CURRENT_TIMESTAMP" +:+
  nl +:+ "      WHERE site_id = $3" +:+
  nl +:+ "      RETURNING *" +:+
  nl +:+ "    ".

Definition set_seo (seo_title seo_description : Value) (now : Z) (r : Row) : Row :=
  <["updated_at" := VDate now]>
    (<["seo_description" := to_sql seo_description]>
       (<["seo_title" := to_sql seo_title]> r)).

Definition putSeo (site_id : string) (user : Row) (req_body : Entries) (now : Z)
    : M Response :=
  let seo_title := get "seo_title" req_body in
  let seo_description := get "seo_description" req_body in
  site_gate site_id user
    (let* result :=
       pool_query q_seo [seo_title; seo_description; VStr site_id]
         (update_sites (set_seo seo_title seo_description now) site_id) in
     ret (mkResponse 200 (BData (result !! 0)))).

Definition q_theme : string :=
  nl +:+ "      UPDATE portfolio_sites " +:+
  nl +:+ "      SET template_id = $1, primary_color = $2, font_family = $3, is_dark_mode = $4, updated_at = CURRENT_TIMESTAMP" +:+
  nl +:+ "      WHERE site_id = $5" +:+
  nl +:+ "      RETURNING *" +:+
  nl +:+ "    ".

Definition set_theme (template_id primary_color font_family is_dark_mode : Value)
    (now : Z) (r : Row) : Row :=
  <["updated_at" := VDate now]>
    (<["is_dark_mode" := to_sql is_dark_mode]>
       (<["font_family" := to_sql font_family]>
          (<["primary_color" := to_sql primary_color]>
             (<["template_id" := to_sql template_id]> r)))).

Definition putTheme (site_id : string) (user : Row) (req_body : Entries) (now : Z)
    : M Response :=
  let template_id := get "template_id" req_body in
  let primary_color := get "primary_color" req_body in
  let font_family := get "font_family" req_body in
  let is_dark_mode := get "is_dark_mode" req_body in
  site_gate site_id user
    (let* result :=
       pool_query q_theme
         [template_id; primary_color; font_family; is_dark_mode; VStr site_id]
         (update_sites (set_theme template_id primary_color font_family is_dark_mode now)
                       site_id) in
     ret (mkResponse 200 (BData (result !! 0)))).

(** *** DELETE /api/sites/:site_id/projects/:project_id *)

Definition q_delete_project_assets : string :=
  "DELETE FROM image_assets WHERE project_id = $1".

Definition q_delete_project : string :=
  "DELETE FROM portfolio_projects WHERE project_id = $1".

(** The rows a [DELETE ... WHERE project_id = $1] leaves. *)
Definition without_project (project_id : string) (rows : list Row) : list Row :=
  filter (λ r, col_is "project_id" project_id r = false) rows.

Definition delete_project_assets (project_id : string) (d : DB) : unit * DB :=
  (tt, mkDB (users d) (portfolio_sites d) (portfolio_projects d)
            (without_project project_id (image_assets d))).

(** Deleting the project also removes, by ON DELETE CASCADE, the assets
    that still reference it. *)
Definition delete_project_row (project_id : string) (d : DB) : unit * DB :=
  (tt, mkDB (users d) (portfolio_sites d)
            (without_project project_id (portfolio_projects d))
            (without_project project_id (image_assets d))).

Definition deleteProject (site_id project_id : string) (user : Row) : M Response :=
  project_gate site_id project_id user
    (λ project,
       let* _ := pool_query q_delete_project_assets [VStr project_id]
                   (delete_project_assets project_id) in
       let* _ := pool_query q_delete_project [VStr project_id]
                   (delete_project_row project_id) in
       ret (mkResponse 200 (BData (Some project)))).

(** *** POST /api/sites/:site_id/projects/:project_id/images *)

Definition q_insert_image : string :=
  nl +:+ "      INSERT INTO image_assets (image_id, site_id, project_id, url, alt_text)" +:+
  nl +:+ "      VALUES ($1, $2, $3, $4, $5)" +:+
  nl +:+ "      RETURNING *" +:+
  nl +:+ "    ".

Definition q_set_project_images : string :=
  "UPDATE portfolio_projects SET images = $1, updated_at = CURRENT_TIMESTAMP WHERE project_id = $2".

(** [image_id] is the primary key of image_assets; the site and the
    project referenced exist, since the lookup found them. *)
Definition insert_image (values : list Value) (now : Z) (d : DB)
    : option (list Row) * DB :=
  let new : Row :=
    <["uploaded_at" := VDate now]>
      (list_to_map (zip ["image_id"; "site_id"; "project_id"; "url"; "alt_text"]
                        (to_sql <$> values))) in
  if bool_decide (length values = 5) &&
     forallb (λ r, negb (sql_eq (field "image_id" r) (field "image_id" new)))
             (image_assets d)
  then (Some [new],
        mkDB (users d) (portfolio_sites d) (portfolio_projects d)
             (image_assets d ++ [new]))
  else (None, d).

(** [[...current_images, url]] with [current_images = row.images || []]. *)
Definition append_image (images : Value) (url : string) : Value :=
  match images with
  | VArr l => VArr (l ++ [url])
  | _ => VArr [url]
  end.

Definition set_project_images (images : Value) (project_id : string) (now : Z)
    (d : DB) : unit * DB :=
  (tt,
   mkDB (users d) (portfolio_sites d)
        ((λ r : Row, if col_is "project_id" project_id r
                     then <["updated_at" := VDate now]> (<["images" := images]> r)
                     else r) <$> portfolio_projects d)
        (image_assets d)).

(** [file] is [req.file.filename], the name under which the upload
    middleware has stored the image, or [None] when the request has no
    file. *)
Definition uploadProjectImage (site_id project_id : string) (user : Row)
    (req_body : Entries) (file : option string) (image_id : string) (now : Z)
    : M Response :=
  let alt_text := get "alt_text" req_body in
  match file with
  | None => ret (fail 400 "No image file provided" None "NO_IMAGE_FILE")
  | Some filename =>
      project_gate site_id project_id user
        (λ project,
           let url := "/storage/" +:+ filename in
           let values := [VStr image_id; VStr site_id; VStr project_id; VStr url;
                          alt_text] in
           let* result := pool_query q_insert_image values (insert_image values now) in
           match result with
           | Some rows =>
               let updated_images := append_image (field "images" project) url in
               let* _ := pool_query q_set_project_images
                           [updated_images; VStr project_id]
                           (set_project_images updated_images project_id now) in
               ret (mkResponse 201 (BData (rows !! 0)))
           | None => ret (internal_error "error")
           end)
  end.

(** *** PUT /api/sites/:site_id/assets/:asset_id *)

Definition q_asset_owner : string :=
  nl +:+ "      SELECT ia.*, ps.user_id " +:+
  nl +:+ "      FROM image_assets ia " +:+
  nl +:+ "      JOIN portfolio_sites ps ON ia.site_id = ps.site_id " +:+
  nl +:+ "      WHERE ia.image_id = $1 AND ia.site_id = $2" +:+
  nl +:+ "    ".

Definition asset_gate (site_id asset_id : string) (user : Row)
    (rest : Row → M Response) : M Response :=
  let* assetCheck :=
    pool_select q_asset_owner [VStr asset_id; VStr site_id]
      (λ d, filter (λ r, col_is "image_id" asset_id r &&
                         col_is "site_id" site_id r = true) (image_assets d)
            ≫= join_owner d) in
  match assetCheck with
  | [] => ret (fail 404 "Asset not found" None "ASSET_NOT_FOUND")
  | row :: _ =>
      if strict_ne (field "user_id" row) (field "id" user) then
        ret (fail 403 "Access denied" None "ACCESS_DENIED")
      else rest row
  end.

Definition q_update_asset : string :=
  nl +:+ "      UPDATE image_assets " +:+
  nl +:+ "      SET url = COALESCE($1, url), alt_text = COALESCE($2, alt_text)" +:+
  nl +:+ "      WHERE image_id = $3" +:+
  nl +:+ "      RETURNING *" +:+
  nl +:+ "    ".

(** [COALESCE($n, column)]: the parameter unless it is NULL. *)
Definition coalesce (parameter column : Value) : Value :=
  match to_sql parameter with
  | VNull => column
  | v => v
  end.

Definition set_asset (url alt_text : Value) (r : Row) : Row :=
  <["alt_text" := coalesce alt_text (to_sql (field "alt_text" r))]>
    (<["url" := coalesce url (to_sql (field "url" r))]> r).

Definition update_asset_row (url alt_text : Value) (asset_id : string) (d : DB)
    : list Row * DB :=
  (set_asset url alt_text
     <$> filter (λ r, col_is "image_id" asset_id r = true) (image_assets d),
   mkDB (users d) (portfolio_sites d) (portfolio_projects d)
        ((λ r : Row, if col_is "image_id" asset_id r then set_asset url alt_text r else r)
           <$> image_assets d)).

Definition putAsset (site_id asset_id : string) (user : Row) (req_body : Entries)
    : M Response :=
  let url := get "url" req_body in
  let alt_text := get "alt_text" req_body in
  asset_gate site_id asset_id user
    (λ _,
       let* result := pool_query q_update_asset [url; alt_text; VStr asset_id]
                        (update_asset_row url alt_text asset_id) in
       ret (mkResponse 200 (BData (result !! 0)))).

(** *** POST /api/contact/submit and GET /api/dashboard/submissions *)

(** The contact_submissions table, kept beside the other tables. *)
Record Inbox : Type := mkInbox {
  inbox_db : DB;
  contact_submissions : list Row
}.

(** [v || null]. *)
Definition value_or_null (v : Value) : Value := if falsy v then VNull else v.

(** [submission_id] is the primary key and a [site_id] that is not NULL
    references a site. *)
Definition submissions_accept (new : Row) (s : Inbox) : bool :=
  forallb (λ r, negb (sql_eq (field "submission_id" r) (field "submission_id" new)))
          (contact_submissions s) &&
  (bool_decide (field "site_id" new = VNull) ||
   existsb (λ ps, sql_eq (field "site_id" ps) (field "site_id" new))
           (portfolio_sites (inbox_db s))).

Definition submitContact (req_body : Entries) (submission_id : string) (now : Z)
    (s : Inbox) : Response * Inbox :=
  let name := get "name" req_body in
  let email := get "email" req_body in
  let message := get "message" req_body in
  let site_id := get "site_id" req_body in
  if falsy email || falsy message then
    (fail 400 "Email and message are required" None "MISSING_REQUIRED_FIELDS", s)
  else
    let new : Row :=
      list_to_map [("submission_id", VStr submission_id);
                   ("site_id", value_or_null site_id);
                   ("name", value_or_null name);
                   ("email", email); ("message", message);
                   ("created_at", VDate now)] in
    if submissions_accept new s then
      (mkResponse 201 (BData (Some new)),
       mkInbox (inbox_db s) (contact_submissions s ++ [new]))
    else (internal_error "error", s).

(** [contact_submissions cs LEFT JOIN portfolio_sites ps ON cs.site_id =
    ps.site_id]: a submission without a matching site is kept once, with
    no site. *)
Definition left_join_site (d : DB) (cs : Row) : list (Row * option Row) :=
  match filter (λ ps : Row, sql_eq (field "site_id" cs) (field "site_id" ps) = true)
               (portfolio_sites d) with
  | [] => [(cs, None)]
  | sites => (λ ps, (cs, Some ps)) <$> sites
  end.

(** [WHERE ps.user_id = $1 OR cs.site_id IS NULL]. *)
Definition shown_to (user_id : Value) (joined : Row * option Row) : bool :=
  match joined.2 with
  | Some ps => sql_eq (field "user_id" ps) user_id
  | None => false
  end || bool_decide (to_sql (field "site_id" joined.1) = VNull).

Definition dashboardSubmissions (user : Row) (s : Inbox) : Response :=
  let result :=
    sort_rows newer
      (fst <$> filter (λ joined, shown_to (field "id" user) joined = true)
                      (contact_submissions s ≫= left_join_site (inbox_db s))) in
  mkResponse 200 (BList result (length result)).

(** ** The client store *)

Module Store.

(** [list.findIndex(p)]; [None] stands for -1. *)
Fixpoint findIndex {A} (p : A → bool) (l : list A) : option nat :=
  match l with
  | [] => None
  | x :: rest => if p x then Some 0 else S <$> findIndex p rest
  end.

(** [a.key === b.key] on the identifiers of projects and assets. *)
Definition same (key : string) (a b : Row) : bool :=
  bool_decide (field key a = field key b).

Definition add_project (p : Row) (projects : list Row) : list Row :=
  projects ++ [p].

Definition update_project (p : Row) (projects : list Row) : list Row :=
  match findIndex (λ proj, same "project_id" proj p) projects with
  | Some idx => <[idx := p]> projects
  | None => projects
  end.

Definition delete_project (project_id : string) (projects : list Row) : list Row :=
  filter (λ pr, field "project_id" pr ≠ VStr project_id) projects.

Definition upload_asset (a : Row) (assets : list Row) : list Row :=
  assets ++ [a].

Definition update_asset (a : Row) (assets : list Row) : list Row :=
  (λ it, if same "image_id" it a then a else it) <$> assets.

Definition delete_asset (image_id : string) (assets : list Row) : list Row :=
  filter (λ a, field "image_id" a ≠ VStr image_id) assets.

(** The body [login_user] posts to /api/auth/login. *)
Definition login_user_payload (email password : string) : Entries :=
  [("email", VStr email); ("password", VStr password)].

(** The body [register_user] posts to /api/auth/register. *)
Definition register_user_payload (full_name email password : string) : Entries :=
  [("username", VStr full_name); ("email", VStr email);
   ("password_hash", VStr password); ("full_name", VStr full_name);
   ("avatar_url", VStr ""); ("is_active", VBool true)].

End Store.

(** A property of a JSON body as the credentials handlers destructure
    it: a string, or nothing. *)
Definition text_property (key : string) (req_body : Entries) : option string :=
  match get key req_body with
  | VStr s => Some s
  | _ => None
  end.

Definition login_body (req_body : Entries) : LoginBody :=
  mkLogin (text_property "username" req_body) (text_property "email" req_body)
          (text_property "password_hash" req_body).

Definition register_body (req_body : Entries) : RegisterBody :=
  mkRegister (text_property "username" req_body) (text_property "email" req_body)
             (text_property "password_hash" req_body)
             (text_property "full_name" req_body)
             (text_property "avatar_url" req_body).

(** ** Vocabulary of the further properties *)

(** The rows are in the order of [before]: no later row comes before an
    earlier one. *)
Definition in_order (before : Row → Row → bool) : list Row → Prop :=
  StronglySorted (λ a b, before b a = false).

(** The parameters and the row of the INSERT of a registration. *)
Definition register_values (req_body : RegisterBody) (user_id : string)
    : list Value :=
  [VStr user_id; VStr (trim (default "" (reg_username req_body)));
   VStr (trim (toLowerCase (default "" (reg_email req_body))));
   VStr (default "" (reg_password_hash req_body));
   or_null (trim <$> reg_full_name req_body);
   or_null (reg_avatar_url req_body); VBool true].

Definition registered_user (req_body : RegisterBody) (user_id : string) (now : Z)
    : Row :=
  list_to_map [("id", VStr user_id);
               ("username", VStr (trim (default "" (reg_username req_body))));
               ("email", VStr (trim (toLowerCase (default "" (reg_email req_body)))));
               ("password_hash", VStr (default "" (reg_password_hash req_body)));
               ("full_name", or_null (trim <$> reg_full_name req_body));
               ("avatar_url", or_null (reg_avatar_url req_body));
               ("is_active", VBool true);
               ("created_at", VDate now)].

(** The users a registration with this username or email collides with
    in the handler's own check. *)
Definition existing_users (d : DB) (req_body : RegisterBody) : list Row :=
  filter (λ r, col_is "username" (default "" (reg_username req_body)) r ||
               col_is "email" (default "" (reg_email req_body)) r = true) (users d).

(** The tables after one more user. *)
Definition with_user (d : DB) (new : Row) : DB :=
  mkDB (users d ++ [new]) (portfolio_sites d) (portfolio_projects d) (image_assets d).


(** The new row agrees with the old one outside the columns [cols]. *)
Definition same_but (cols : list string) (old new : Row) : Prop :=
  ∀ c, c ∉ cols → new !! c = old !! c.

(** The table after a statement that touched the rows with [key = id]
    only, and there the columns [cols] only: no row added, removed or
    moved. *)
Definition rows_changed (key id : string) (cols : list string)
    (rows rows' : list Row) : Prop :=
  Forall2 (λ old new, if col_is key id old then same_but cols old new else new = old)
          rows rows'.

(** The site rows with this id, in table order. *)
Definition sites_with (d : DB) (site_id : string) : list Row :=
  filter (λ r, col_is "site_id" site_id r = true) (portfolio_sites d).

(** Column types are outside the model: a parameter is stored as it is
    sent.  The statements about stored values are therefore made for
    bodies whose properties have the type of their column: a JSON string
    for a TEXT column, a JSON boolean for a BOOLEAN column, or nothing. *)
Definition text_or_null (v : Value) : bool :=
  match v with
  | VUndefined | VNull | VStr _ => true
  | _ => false
  end.

Definition bool_or_null (v : Value) : bool :=
  match v with
  | VUndefined | VNull | VBool _ => true
  | _ => false
  end.

Definition texts (keys : list string) (req_body : Entries) : Prop :=
  Forall (λ key, text_or_null (get key req_body) = true) keys.

(** A TEXT[] column as a result row holds it: an array or NULL. *)
Definition array_or_null (v : Value) : bool :=
  match v with
  | VNull | VArr _ => true
  | _ => false
  end.

(** The first row of the asset lookup: the asset of this site with this
    id, joined with its site's owner. *)
Definition asset_found (d : DB) (site_id asset_id : string) : option Row :=
  head (filter (λ r, col_is "image_id" asset_id r &&
                     col_is "site_id" site_id r = true) (image_assets d)
        ≫= join_owner d).

Definition asset_lookup (site_id asset_id : string) : Query :=
  mkQuery q_asset_owner [VStr asset_id; VStr site_id].

(** The SET list of the statement that records a project's images. *)
Definition set_images (images : Value) (now : Z) (r : Row) : Row :=
  <["updated_at" := VDate now]> (<["images" := images]> r).

(** ** Sample data with an image *)

Module Gallery.

Definition asset1 : Row :=
  list_to_map [("image_id", VStr "i1"); ("site_id", VStr "s1");
               ("project_id", VStr "p1"); ("url", VStr "/storage/a.png");
               ("alt_text", VStr "A"); ("uploaded_at", VDate 0)].

(** The row the asset lookup returns for [asset1]. *)
Definition asset1_owned : Row := <["user_id" := VStr "u_alice"]> asset1.

Definition tables : DB :=
  mkDB [Sample.alice; Sample.bob] [Sample.site1; Sample.site2; Sample.site3]
       [Sample.project1] [asset1].

Definition world : World := mkWorld tables [] [].

End Gallery.

(** ** A sample of PostgreSQL's conversions *)

Module Dates.

(** One conversion, for the examples: the text 2024-01-01 given to a
    DATE column is read as that day and returned as the [Date] of its
    midnight, here in UTC (in JSON, 2024-01-01T00:00:00.000Z).  The
    examples need no other, so every other pairing is refused here; that
    says nothing about what PostgreSQL does with it. *)
Definition convert (ty : ColumnType) (v : Value) : option Value :=
  match ty, v with
  | TDate, VStr s =>
      if bool_decide (s = "2024-01-01") then Some (VDate 1704067200000) else None
  | _, _ => None
  end.

End Dates.

(** Whom a stored submission is shown to: everybody when it names no
    site, otherwise the users owning a site with its [site_id]. *)
Definition visible_to (d : DB) (user_id : Value) (cs : Row) : Prop :=
  to_sql (field "site_id" cs) = VNull ∨
  ∃ ps, ps ∈ portfolio_sites d ∧
        sql_eq (field "site_id" cs) (field "site_id" ps) = true ∧
        sql_eq (field "user_id" ps) user_id = true.

(** The rows of a list response. *)
Definition listed (r : Response) : list Row :=
  match body r with
  | BList rows _ => rows
  | _ => []
  end.

(** The characters of a string. *)
Fixpoint chars (s : string) : list ascii :=
  match s with
  | EmptyString => []
  | String c rest => c :: chars rest
  end.

Ltac by_decide := apply (bool_decide_unpack _); vm_compute; exact I.

(** Closes an equation between closed terms by evaluating both sides
    in the virtual machine, without writing the normal form of a row into
    the proof. *)
Ltac vm_refl :=
  match goal with
  | |- _ = ?rhs => vm_cast_no_check (@eq_refl _ rhs)
  end.

(** Reads a column off a row written as a list of columns or as a chain
    of inserts. *)
Ltac row_field :=
  unfold field;
  cbn [list_to_map foldr zip zip_with fmap list_fmap site_columns project_columns
       to_sql fst snd];
  repeat (rewrite lookup_insert_ne by discriminate);
  first [ by rewrite lookup_insert_eq | by rewrite lookup_empty ].

(** Proves that a SET list written as nested inserts leaves the other
    columns alone. *)
Ltac frame_cols :=
  let c := fresh "c" in
  let Hc := fresh "Hc" in
  intros c Hc;
  repeat (rewrite lookup_insert_ne; [|intros <-; apply Hc; by_decide]);
  reflexivity.

(** ** Properties of the subdomain generator *)

Section Subdomain.

Lemma pretty_go_length (x : N) :
  ∀ s, String.length s ≤ String.length (pretty_N_go x s).
Proof.
  pattern x. apply (well_founded_induction N.lt_wf_0). clear x.
  intros x IH s.
  destruct (decide (x = 0%N)) as [->|Hx].
  - rewrite pretty_N_go_0. lia.
  - rewrite pretty_N_go_step by lia.
    specialize (IH (x `div` 10)%N).
    etrans; [|apply IH; apply N.div_lt; lia].
    simpl. lia.
Qed.

Lemma pretty_nat_nonempty (n : nat) : pretty n ≠ "".
Proof.
  unfold pretty, pretty_nat, pretty, pretty_N.
  destruct (decide (N.of_nat n = 0%N)) as [|Hn]; [done|].
  rewrite pretty_N_go_step by lia.
  intros Hempty.
  pose proof (pretty_go_length (N.of_nat n `div` 10)
                (String (pretty_N_char (N.of_nat n `mod` 10)) "")) as Hlen.
  rewrite Hempty in Hlen. simpl in Hlen. lia.
Qed.

Lemma app_empty_r (s : string) : s +:+ "" = s.
Proof.
  induction s as [|c s IH]; [done|].
  change (String c (s +:+ "") = String c s). by rewrite IH.
Qed.

Lemma candidate_inj (base : string) : Inj (=) (=) (candidate base).
Proof.
  intros [|j] [|k] Heq; simpl in Heq.
  - done.
  - rewrite <- (app_empty_r base) in Heq at 1.
    apply (inj (String.app base)) in Heq.
    by destruct (pretty_nat_nonempty (S k)).
  - rewrite <- (app_empty_r base) in Heq at 2.
    apply (inj (String.app base)) in Heq.
    by destruct (pretty_nat_nonempty (S j)).
  - apply (inj (String.app base)) in Heq. by apply (inj pretty) in Heq.
Qed.

Lemma subdomain_taken_stored (d : DB) (s : string) :
  subdomain_taken d s = true ↔ s ∈ stored_subdomains (portfolio_sites d).
Proof.
  unfold subdomain_taken, stored_subdomains.
  rewrite existsb_exists, list_elem_of_omap.
  split.
  - intros (r & Hin & Hcol). exists r. split; [by apply list_elem_of_In|].
    unfold col_is in Hcol.
    destruct (r !! "subdomain") as [[]|]; try done.
    by apply bool_decide_eq_true in Hcol as ->.
  - intros (r & Hin & Hcol). exists r. split; [by apply list_elem_of_In|].
    unfold col_is.
    destruct (r !! "subdomain") as [[]|]; try done.
    injection Hcol as ->. by apply bool_decide_eq_true.
Qed.

Lemma stored_subdomains_length (sites : list Row) :
  length (stored_subdomains sites) ≤ length sites.
Proof.
  induction sites as [|r sites IH]; simpl; [done|].
  unfold stored_subdomains in *. simpl.
  destruct (r !! "subdomain") as [[]|]; simpl; lia.
Qed.

(** Pigeonhole: the first [k] candidates cannot all be taken when the
    table has fewer than [k] rows. *)
Lemma candidates_not_all_taken (d : DB) (base : string) (k : nat) :
  (∀ j, j < k → subdomain_taken d (candidate base j) = true) →
  k ≤ length (portfolio_sites d).
Proof.
  intros Htaken.
  assert (candidate base <$> seq 0 k ⊆+ stored_subdomains (portfolio_sites d)) as Hsub.
  { apply NoDup_submseteq.
    - apply (NoDup_fmap_2 _ (Inj0 := candidate_inj base)). apply NoDup_seq.
    - intros s (j & -> & Hj)%list_elem_of_fmap.
      apply subdomain_taken_stored, Htaken.
      apply elem_of_seq in Hj. lia. }
  apply submseteq_length in Hsub.
  rewrite length_fmap, length_seq in Hsub.
  pose proof (stored_subdomains_length (portfolio_sites d)). lia.
Qed.

(** The probe answers whether the token is taken and leaves the tables
    as they were. *)
Lemma select_subdomain_spec (s : string) (w : World) :
  ∃ rows,
    select_subdomain s w =
      (rows, mkWorld (db w) (trace w ++ [mkQuery q_subdomain [VStr s]]) (storage w)) ∧
    (length rows = 0 ↔ subdomain_taken (db w) s = false).
Proof.
  eexists. split; [reflexivity|].
  rewrite length_fmap. unfold subdomain_taken.
  induction (portfolio_sites (db w)) as [|r rows IH]; simpl; [done|].
  rewrite filter_cons.
  destruct (col_is "subdomain" s r) eqn:Hr; simpl.
  - split; [lia|done].
  - exact IH.
Qed.

(** The loop entered at candidate [k], all earlier candidates being
    taken, returns the first free candidate from [k] on. *)
Lemma subdomain_loop_first_free (base : string) (fuel k : nat) (w : World) :
  length (portfolio_sites (db w)) < k + fuel →
  (∀ j, j < k → subdomain_taken (db w) (candidate base j) = true) →
  ∃ n w',
    subdomain_loop fuel base (candidate base k) (S k) w = (Some (candidate base n), w') ∧
    db w' = db w ∧ storage w' = storage w ∧
    subdomain_taken (db w) (candidate base n) = false ∧
    (∀ j, j < n → subdomain_taken (db w) (candidate base j) = true).
Proof.
  revert k w. induction fuel as [|fuel IH]; intros k w Hfuel Hbelow.
  - apply candidates_not_all_taken in Hbelow. lia.
  - simpl. unfold bind.
    destruct (select_subdomain_spec (candidate base k) w) as (rows & -> & Hrows).
    destruct (subdomain_taken (db w) (candidate base k)) eqn:Hk.
    + rewrite bool_decide_eq_false_2 by (intros Hz; apply Hrows in Hz; done).
      set (w1 := mkWorld _ _ _).
      destruct (IH (S k) w1) as (n & w' & Hrun & Hdb & Hst & Hfree & Hall).
      { simpl. lia. }
      { intros j Hj. simpl.
        destruct (decide (j = k)) as [->|]; [done|]. apply Hbelow. lia. }
      exists n, w'. by rewrite <- Hrun.
    + rewrite bool_decide_eq_true_2 by (by apply Hrows).
      by exists k, (mkWorld (db w) (trace w ++ [mkQuery q_subdomain [VStr (candidate base k)]])
                       (storage w)).
Qed.

End Subdomain.



(** ** The ownership check *)

Section Gate.

Lemma field_select_cols (cols : list string) (c : string) (r : Row) :
  c ∈ cols → field c (select_cols cols r) = field c r.
Proof.
  intros Hc. unfold field, select_cols.
  rewrite map_lookup_filter.
  destruct (r !! c) as [v|]; simpl; [|done].
  by rewrite option_guard_True.
Qed.

(** The site check is one lookup; its verdict depends on the first row
    found only. *)
Lemma site_gate_spec (site_id : string) (user : Row) (rest : M Response)
    (w : World) :
  site_gate site_id user rest w =
    let w1 := logged w (site_lookup site_id) in
    match site_owner (db w) site_id with
    | None => (fail 404 "Site not found" None "SITE_NOT_FOUND", w1)
    | Some owner =>
        if bool_decide (owner ≠ field "id" user)
        then (fail 403 "Access denied" None "ACCESS_DENIED", w1)
        else rest w1
    end.
Proof.
  unfold site_gate, site_owner, bind, pool_select, pool_query, logged, site_lookup.
  simpl.
  destruct (filter _ (portfolio_sites (db w))) as [|r rows]; simpl; [done|].
  unfold strict_ne. rewrite field_select_cols by set_solver.
  by destruct (bool_decide _).
Qed.

Lemma project_gate_spec (site_id project_id : string) (user : Row)
    (rest : Row → M Response) (w : World) :
  project_gate site_id project_id user rest w =
    let w1 := logged w (project_lookup site_id project_id) in
    match project_found (db w) site_id project_id with
    | None => (fail 404 "Project not found" None "PROJECT_NOT_FOUND", w1)
    | Some row =>
        if bool_decide (field "user_id" row ≠ field "id" user)
        then (fail 403 "Access denied" None "ACCESS_DENIED", w1)
        else rest row w1
    end.
Proof.
  unfold project_gate, project_found, bind, pool_select, pool_query, logged,
    project_lookup.
  simpl.
  destruct (filter _ (portfolio_projects (db w)) ≫= join_owner (db w))
    as [|r rows]; simpl; [done|].
  unfold strict_ne. by destruct (bool_decide _).
Qed.

End Gate.



(** The handlers that change a site or a project are the ownership
    check followed by their statement, so each of them answers 404 or 403
    as the check does and then issues nothing more. *)
Lemma mutation_handlers_refuse
    (run_update : UpdateStatement → DB → option (list Row) * DB)
    (toISOString : Z → string) (dirname : string)
    (site_id project_id : string) (user : Row) (updates : Entries)
    (now t_name t_html : Z) (w : World) :
  let refused (answer : Response) (q : Query) (out : Response * World) :=
    out = (answer, logged w q) in
  let missing := fail 404 "Site not found" None "SITE_NOT_FOUND" in
  let denied := fail 403 "Access denied" None "ACCESS_DENIED" in
  (site_owner (db w) site_id = None →
   refused missing (site_lookup site_id) (putSite run_update site_id user updates now w) ∧
   refused missing (site_lookup site_id) (publishSite site_id user now w) ∧
   refused missing (site_lookup site_id)
     (exportSite toISOString dirname site_id user t_name t_html now w)) ∧
  (∀ owner,
     site_owner (db w) site_id = Some owner → owner ≠ field "id" user →
     refused denied (site_lookup site_id) (putSite run_update site_id user updates now w) ∧
     refused denied (site_lookup site_id) (publishSite site_id user now w) ∧
     refused denied (site_lookup site_id)
       (exportSite toISOString dirname site_id user t_name t_html now w)) ∧
  (project_found (db w) site_id project_id = None →
   refused (fail 404 "Project not found" None "PROJECT_NOT_FOUND")
     (project_lookup site_id project_id)
     (putProject run_update site_id project_id user updates now w)) ∧
  (∀ row,
     project_found (db w) site_id project_id = Some row →
     field "user_id" row ≠ field "id" user →
     refused denied (project_lookup site_id project_id)
       (putProject run_update site_id project_id user updates now w)).
Proof.
  intros refused missing denied. unfold refused, putSite, publishSite, exportSite,
    putProject.
  split; [|split; [|split]].
  - intros Hnone. repeat split; by rewrite site_gate_spec, Hnone.
  - intros owner Hsome Hne.
    repeat split; rewrite site_gate_spec, Hsome; simpl;
      by rewrite bool_decide_eq_true_2.
  - intros Hnone. by rewrite project_gate_spec, Hnone.
  - intros row Hsome Hne. rewrite project_gate_spec, Hsome. simpl.
    by rewrite bool_decide_eq_true_2.
Qed.

(** ** The dynamic partial update *)

Section PartialUpdate.

Variable run_update : UpdateStatement → DB → option (list Row) * DB.

(** The condition of the loop is the filter of the specification. *)
Lemma build_step_kept (protected : list string) (b : Builder) (key : string)
    (value : Value) :
  build_step protected b (key, value) =
    if decide (keeps protected (key, value))
    then mkBuilder (update_fields b ++ [mkAssign key (value_index b)])
                   (values b ++ [value]) (S (value_index b))
    else b.
Proof.
  unfold build_step, keeps. simpl.
  destruct (decide (key ∉ protected)) as [Hk|Hk].
  - rewrite (bool_decide_eq_true_2 _ Hk). simpl.
    destruct value; simpl;
      first [ by rewrite decide_True by (split; [done|discriminate])
            | by rewrite decide_False by (intros [_ Hv]; by apply Hv) ].
  - rewrite (bool_decide_eq_false_2 _ Hk). simpl.
    by rewrite decide_False by (intros [Hp _]; by apply Hk).
Qed.

(** The loop from any intermediate state: the kept entries are appended
    in encounter order, numbered from the current index. *)
Lemma build_fold (protected : list string) (updates : Entries) (b : Builder) :
  foldl (build_step protected) b updates =
    let kept := kept_entries protected updates in
    mkBuilder (update_fields b ++ imap (λ i kv, mkAssign kv.1 (value_index b + i)) kept)
              (values b ++ kept.*2)
              (value_index b + length kept).
Proof.
  revert b. induction updates as [|[key value] updates IH]; intros b.
  - destruct b. simpl. by rewrite !app_nil_r, Nat.add_0_r.
  - cbn [foldl]. rewrite IH, build_step_kept. unfold kept_entries.
    destruct (decide (keeps protected (key, value))) as [Hkeep|Hskip].
    + rewrite filter_cons_True by done. simpl.
      rewrite <- !app_assoc. simpl. rewrite Nat.add_0_r. f_equal; [|lia].
      do 2 f_equal. apply imap_ext. intros i kv _. simpl. f_equal. lia.
    + by rewrite filter_cons_False by done.
Qed.

Lemma build_update_kept (protected : list string) (updates : Entries) :
  build_update protected updates =
    let kept := kept_entries protected updates in
    mkBuilder (numbered kept) (kept.*2) (S (length kept)).
Proof. unfold build_update. by rewrite build_fold. Qed.

(** After the ownership check: nothing is issued when no key is kept,
    otherwise the statement of the specification is handed to the pool. *)
Lemma dynamic_update_spec (table_name key_column : string)
    (protected : list string) (key : string) (updates : Entries) (now : Z)
    (w : World) :
  let stmt := expected_update table_name key_column protected key updates now in
  (kept_entries protected updates = [] →
   dynamic_update run_update table_name key_column protected key updates now w =
     (no_update_fields, w)) ∧
  (kept_entries protected updates ≠ [] →
   trace (dynamic_update run_update table_name key_column protected key updates now w).2 =
     trace w ++ [mkQuery (update_text stmt) (parameters stmt)]).
Proof.
  unfold dynamic_update. rewrite build_update_kept. simpl.
  unfold numbered. rewrite length_imap. split.
  - intros ->. done.
  - intros Hkept.
    rewrite bool_decide_eq_false_2
      by (destruct (kept_entries protected updates); [done|discriminate]).
    unfold expected_update, numbered, bind, pool_query. simpl.
    rewrite <- !app_assoc. simpl.
    destruct (run_update _ (db w)) as [[rows|] d]; done.
Qed.

End PartialUpdate.

(** C1. After the ownership check the site and the project update
    handlers run the same builder, with site_id, respectively id,
    project_id and site_id, as protected keys.  Its loop keeps, in
    encounter order, exactly the payload entries whose key is not
    protected and whose value is not undefined, an explicit null
    included; the i-th kept key contributes the assignment "key = $i" and
    its value is the i-th parameter; the assignment of updated_at comes
    last in every statement issued, followed by the key of the row as the
    last parameter.  The text handed to the pool is the handler's
    template: UPDATE and the table, SET and the assignments joined by a
    comma and a blank, WHERE with the key column and the last
    placeholder, RETURNING *.  When no entry is kept the handler answers
    400 and hands no statement to the pool. *)
Theorem C1_partial_update_statement
    (run_update : UpdateStatement → DB → option (list Row) * DB)
    (table_name key_column : string) (protected : list string) (key : string)
    (updates : Entries) (now : Z) (w : World) :
  let kept := kept_entries protected updates in
  let stmt := expected_update table_name key_column protected key updates now in
  let run := dynamic_update run_update table_name key_column protected key updates now in
  build_update protected updates =
    mkBuilder (numbered kept) (kept.*2) (S (length kept)) ∧
  (∀ k v, (k, v) ∈ kept ↔ (k, v) ∈ updates ∧ (k ∉ protected) ∧ v ≠ VUndefined) ∧
  (∀ k, k ∉ protected → (k, VNull) ∈ updates → (k, VNull) ∈ kept) ∧
  (∀ i k v, kept !! i = Some (k, v) →
     set_list stmt !! i = Some (mkAssign k (S i)) ∧
     render (mkAssign k (S i)) = k +:+ " = $" +:+ pretty (S i) ∧
     parameters stmt !! i = Some v) ∧
  last (set_list stmt) = Some (mkAssign "updated_at" (S (length kept))) ∧
  parameters stmt !! length kept = Some (VDate now) ∧
  parameters stmt !! S (length kept) = Some (VStr key) ∧
  where_placeholder stmt = S (S (length kept)) ∧
  length (parameters stmt) = S (length (set_list stmt)) ∧
  (kept = [] → run w = (no_update_fields, w)) ∧
  (kept ≠ [] →
   trace (run w).2 = trace w ++
     [mkQuery
        (nl +:+ "      UPDATE " +:+ table_name +:+ " " +:+
         nl +:+ "      SET " +:+
           join ", " ((λ a, column a +:+ " = $" +:+ pretty (placeholder a))
                        <$> (numbered kept ++ [mkAssign "updated_at" (S (length kept))]))
           +:+ " " +:+
         nl +:+ "      WHERE " +:+ key_column +:+ " = $" +:+ pretty (S (S (length kept))) +:+
         nl +:+ "      RETURNING *" +:+
         nl +:+ "    ")
        (kept.*2 ++ [VDate now; VStr key])]) ∧
  (∀ site_id user,
     site_owner (db w) site_id = Some (field "id" user) →
     putSite run_update site_id user updates now w =
       dynamic_update run_update "portfolio_sites" "site_id" ["site_id"]
         site_id updates now (logged w (site_lookup site_id))) ∧
  (∀ site_id project_id user row,
     project_found (db w) site_id project_id = Some row →
     field "user_id" row = field "id" user →
     putProject run_update site_id project_id user updates now w =
       dynamic_update run_update "portfolio_projects" "project_id"
         ["id"; "project_id"; "site_id"] project_id updates now
         (logged w (project_lookup site_id project_id))).
Proof.
  intros kept stmt run.
  assert (length (numbered kept) = length kept) as Hnum
    by (unfold numbered; by rewrite length_imap).
  split; [apply build_update_kept|].
  split.
  { intros k v. unfold kept, kept_entries, keeps.
    rewrite list_elem_of_filter. simpl. tauto. }
  split.
  { intros k Hk Hin. unfold kept, kept_entries, keeps. apply list_elem_of_filter.
    split; [split; [done|discriminate]|done]. }
  split.
  { intros i k v Hi. unfold stmt, expected_update. simpl. fold kept.
    pose proof (lookup_lt_Some _ _ _ Hi) as Hlt.
    split; [|split; [done|]].
    - rewrite lookup_app_l by lia.
      unfold numbered. by rewrite list_lookup_imap, Hi.
    - rewrite lookup_app_l by (by rewrite length_fmap).
      by rewrite list_lookup_fmap, Hi. }
  split.
  { unfold stmt, expected_update. simpl. by rewrite last_snoc. }
  split.
  { unfold stmt, expected_update. simpl. fold kept.
    rewrite lookup_app_r by (by rewrite length_fmap).
    by rewrite length_fmap, Nat.sub_diag. }
  split.
  { unfold stmt, expected_update. simpl. fold kept.
    rewrite lookup_app_r by (rewrite length_fmap; lia).
    rewrite length_fmap. by replace (S (length kept) - length kept) with 1 by lia. }
  split; [done|].
  split.
  { unfold stmt, expected_update. simpl. fold kept.
    rewrite !length_app, length_fmap, Hnum. simpl. lia. }
  split; [apply dynamic_update_spec|].
  split.
  { intros Hkept. unfold run.
    by rewrite (proj2 (dynamic_update_spec run_update table_name key_column protected
                         key updates now w) Hkept). }
  split.
  - intros site_id user Howner. unfold putSite.
    rewrite site_gate_spec, Howner. simpl.
    by rewrite bool_decide_eq_false_2 by (intros Hne; by apply Hne).
  - intros site_id project_id user row Hrow Howner. unfold putProject.
    rewrite project_gate_spec, Hrow. simpl.
    by rewrite bool_decide_eq_false_2 by (intros Hne; by apply Hne).
Qed.

(** Alice updates her site: a payload with only site_id is a no-op, and
    a payload with a null, an undefined and a string keeps the null and
    the string.  She updates her project: id, project_id and site_id are
    skipped, and the statement is handed over whatever the database then
    does with it. *)
Lemma C1_partial_update_statement_witness :
  let alice := Sample.principal Sample.alice in
  let payload := [("site_id", VStr "s9"); ("tagline", VNull);
                  ("seo_title", VUndefined); ("site_title", VStr "New")] in
  let changes := [("id", VStr "p9"); ("title", VStr "Second"); ("site_id", VStr "s9");
                  ("demo_url", VNull); ("project_id", VStr "p9")] in
  trace (putProject (λ _ d, (None, d)) "s1" "p1" alice changes 7 Sample.world).2 =
    [project_lookup "s1" "p1";
     mkQuery (nl +:+ "      UPDATE portfolio_projects " +:+
              nl +:+ "      SET title = $1, demo_url = $2, updated_at = $3 " +:+
              nl +:+ "      WHERE project_id = $4" +:+
              nl +:+ "      RETURNING *" +:+
              nl +:+ "    ")
             [VStr "Second"; VNull; VDate 7; VStr "p1"]] ∧
  (putSite Pg.update_sites_dynamic "s1" alice [("site_id", VStr "s9")] 7 Sample.world).1
    = no_update_fields ∧
  trace (putSite Pg.update_sites_dynamic "s1" alice payload 7 Sample.world).2 =
    [site_lookup "s1";
     mkQuery (nl +:+ "      UPDATE portfolio_sites " +:+
              nl +:+ "      SET tagline = $1, site_title = $2, updated_at = $3 " +:+
              nl +:+ "      WHERE site_id = $4" +:+
              nl +:+ "      RETURNING *" +:+
              nl +:+ "    ")
             [VNull; VStr "New"; VDate 7; VStr "s1"]].
Proof.
  intros alice payload changes.
  split.
  { destruct (C1_partial_update_statement (λ _ d, (None, d)) "portfolio_projects"
                "project_id" ["id"; "project_id"; "site_id"] "p1" changes 7
                (logged Sample.world (project_lookup "s1" "p1")))
      as (_ & _ & _ & _ & _ & _ & _ & _ & _ & _ & Hsome & _ & _).
    destruct (C1_partial_update_statement (λ _ d, (None, d)) "portfolio_projects"
                "project_id" ["id"; "project_id"; "site_id"] "p1" changes 7 Sample.world)
      as (_ & _ & _ & _ & _ & _ & _ & _ & _ & _ & _ & _ & Hproject).
    rewrite (Hproject "s1" "p1" alice Sample.project1_owned ltac:(vm_refl)
               ltac:(vm_compute; reflexivity)).
    rewrite (Hsome ltac:(vm_compute; discriminate)).
    vm_compute. reflexivity. }
  destruct (C1_partial_update_statement Pg.update_sites_dynamic "portfolio_sites"
              "site_id" ["site_id"] "s1" [("site_id", VStr "s9")] 7
              (logged Sample.world (site_lookup "s1")))
    as (_ & _ & _ & _ & _ & _ & _ & _ & _ & Hnone & _ & _ & _).
  destruct (C1_partial_update_statement Pg.update_sites_dynamic "portfolio_sites"
              "site_id" ["site_id"] "s1" [("site_id", VStr "s9")] 7 Sample.world)
    as (_ & _ & _ & _ & _ & _ & _ & _ & _ & _ & _ & Hsite1 & _).
  destruct (C1_partial_update_statement Pg.update_sites_dynamic "portfolio_sites"
              "site_id" ["site_id"] "s1" payload 7
              (logged Sample.world (site_lookup "s1")))
    as (_ & _ & _ & _ & _ & _ & _ & _ & _ & _ & Hsome & _ & _).
  destruct (C1_partial_update_statement Pg.update_sites_dynamic "portfolio_sites"
              "site_id" ["site_id"] "s1" payload 7 Sample.world)
    as (_ & _ & _ & _ & _ & _ & _ & _ & _ & _ & _ & Hsite2 & _).
  assert (site_owner (db Sample.world) "s1" = Some (field "id" alice)) as Howner
    by (vm_compute; reflexivity).
  rewrite (Hsite1 "s1" alice Howner), (Hsite2 "s1" alice Howner).
  rewrite (Hnone ltac:(vm_compute; reflexivity)).
  rewrite (Hsome ltac:(vm_compute; discriminate)).
  split; [reflexivity|]. vm_compute. reflexivity.
Defined.

(** What the loop does guarantee: no assignment it emits has a protected
    key, compared character by character, as its column text. *)
Lemma build_update_skips_protected (protected : list string) (updates : Entries)
    (a : Assignment) :
  a ∈ update_fields (build_update protected updates) → column a ∉ protected.
Proof.
  rewrite build_update_kept. simpl. unfold numbered.
  intros (i & Hi)%list_elem_of_lookup_1.
  rewrite list_lookup_imap in Hi.
  destruct (kept_entries protected updates !! i) as [[k v]|] eqn:Hk; [|done].
  simpl in Hi. injection Hi as <-. simpl.
  apply list_elem_of_lookup_2, list_elem_of_filter in Hk as [[Hp _] _]. done.
Qed.

(** C2. PUT /api/sites/s2 by its owner with the body {SITE_ID: moved}.
    The key is not the string site_id, so the loop keeps it and the
    statement reads SET SITE_ID = $1; PostgreSQL folds the unquoted
    identifier to site_id, and the primary key of the row becomes moved. *)
Theorem C2_site_id_altered :
  let alice := Sample.principal Sample.alice in
  let payload := [("SITE_ID", VStr "moved")] in
  let out := putSite Pg.update_sites_dynamic "s2" alice payload 7 Sample.world in
  build_update ["site_id"] payload =
    mkBuilder [mkAssign "SITE_ID" 1] [VStr "moved"] 2 ∧
  render <$> [mkAssign "SITE_ID" 1; mkAssign "updated_at" 2] =
    ["SITE_ID = $1"; "updated_at = $2"] ∧
  status out.1 = 200 ∧
  field "site_id" <$> portfolio_sites (db Sample.world) =
    [VStr "s1"; VStr "s2"; VStr "s3"] ∧
  field "site_id" <$> portfolio_sites (db out.2) =
    [VStr "s1"; VStr "moved"; VStr "s3"].
Proof. vm_compute. repeat split. Qed.

(** ** Authentication *)

Section Authentication.

Variable jwt_verify : string → Verified.
Variable jwt_sign : Value → Value → string.

(** The middleware, case by case. *)
Lemma authenticateToken_spec (authHeader : option string)
    (next : Row → M Response) (w : World) :
  authenticateToken jwt_verify authHeader next w =
    if no_token (bearer_token authHeader) then
      (fail 401 "Access token required" None "AUTH_TOKEN_MISSING", w)
    else
      match jwt_verify (default "" (bearer_token authHeader)) with
      | JwtThrows error =>
          (fail 403 "Invalid or expired token" (Some error) "AUTH_TOKEN_INVALID", w)
      | Decoded user_id =>
          match token_users (db w) user_id with
          | [] => (fail 401 "Invalid token - user not found" None "AUTH_USER_NOT_FOUND",
                   logged w (user_lookup user_id))
          | user :: _ => next user (logged w (user_lookup user_id))
          end
      end.
Proof.
  unfold authenticateToken.
  destruct (no_token _); [done|].
  destruct (jwt_verify _) as [user_id|error]; [|done].
  unfold bind, pool_select, pool_query, token_users, logged, user_lookup. simpl.
  by destruct (select_cols _ <$> _).
Qed.

(** The login handler, case by case. *)
Lemma login_spec (req_body : LoginBody) (w : World) :
  login jwt_sign req_body w =
    if blank (login_identifier req_body) || blank (login_password_hash req_body) then
      (fail 400 "Username/email and password are required" None
            "MISSING_REQUIRED_FIELDS", w)
    else
      let w1 := logged w (mkQuery q_login_user
                  [VStr (trim (toLowerCase (default "" (login_identifier req_body))))]) in
      match login_rows (db w) req_body with
      | [] => (invalid_credentials, w1)
      | user :: _ =>
          if bool_decide (VStr (default "" (login_password_hash req_body))
                          ≠ field "password_hash" user)
          then (invalid_credentials, w1)
          else (mkResponse 200
                  (BAuth (json_object (user_literal user))
                         (jwt_sign (field "id" user) (field "email" user))), w1)
      end.
Proof.
  unfold login. fold (login_identifier req_body).
  destruct (blank _ || blank _); [done|].
  unfold bind, pool_select, pool_query, login_rows, logged. simpl.
  destruct (filter _ (users (db w))) as [|user rows]; [done|].
  by destruct (bool_decide _).
Qed.

End Authentication.

(** C5, as the code has it. The status of an authentication failure is
    fixed by its kind, whatever the rest of the request, but it is not
    401 for every kind: a missing or empty bearer token gives 401; a
    token that the token library rejects, malformed or expired alike,
    gives 403; a token that verifies for a user that no longer exists
    gives 401; a user lookup that the database rejects inside the
    middleware gives 403 as well, with the code AUTH_TOKEN_INVALID; a
    login whose identifier matches no user, or whose password differs
    from the stored one, gives 400.  The middleware of the routes is the
    one whose lookup is answered. *)
Theorem C5_authentication_statuses
    (jwt_verify : string → Verified) (jwt_sign : Value → Value → string)
    (authHeader : option string) (next : Row → M Response)
    (req_body : LoginBody) (w : World) :
  (no_token (bearer_token authHeader) = true →
   authenticateToken jwt_verify authHeader next w =
     (fail 401 "Access token required" None "AUTH_TOKEN_MISSING", w)) ∧
  (∀ token error,
     bearer_token authHeader = Some token → token ≠ "" →
     jwt_verify token = JwtThrows error →
     authenticateToken jwt_verify authHeader next w =
       (fail 403 "Invalid or expired token" (Some error) "AUTH_TOKEN_INVALID", w)) ∧
  (∀ token user_id,
     bearer_token authHeader = Some token → token ≠ "" →
     jwt_verify token = Decoded user_id → token_users (db w) user_id = [] →
     authenticateToken jwt_verify authHeader next w =
       (fail 401 "Invalid token - user not found" None "AUTH_USER_NOT_FOUND",
        logged w (user_lookup user_id))) ∧
  (blank (login_identifier req_body) = false →
   blank (login_password_hash req_body) = false →
   login_rows (db w) req_body = [] →
   (login jwt_sign req_body w).1 = invalid_credentials) ∧
  (∀ user rows,
     blank (login_identifier req_body) = false →
     blank (login_password_hash req_body) = false →
     login_rows (db w) req_body = user :: rows →
     VStr (default "" (login_password_hash req_body)) ≠ field "password_hash" user →
     (login jwt_sign req_body w).1 = invalid_credentials) ∧
  status invalid_credentials = 400 ∧
  (∀ token user_id error,
     bearer_token authHeader = Some token → token ≠ "" →
     jwt_verify token = Decoded user_id →
     authenticateToken_with jwt_verify (rejected_lookup error) authHeader next w =
       (fail 403 "Invalid or expired token" (Some error) "AUTH_TOKEN_INVALID",
        logged w (user_lookup user_id))) ∧
  authenticateToken jwt_verify authHeader next w =
    authenticateToken_with jwt_verify lookup_user authHeader next w.
Proof.
  split; [|split; [|split; [|split; [|split; [|split; [|split]]]]]].
  - intros Hnone. rewrite authenticateToken_spec. by rewrite Hnone.
  - intros token error Htoken Hne Hthrows. rewrite authenticateToken_spec, Htoken.
    simpl. rewrite bool_decide_eq_false_2 by done. by rewrite Hthrows.
  - intros token user_id Htoken Hne Hdecoded Hnobody.
    rewrite authenticateToken_spec, Htoken.
    simpl. rewrite bool_decide_eq_false_2 by done. by rewrite Hdecoded, Hnobody.
  - intros Hid Hpw Hrows. rewrite login_spec, Hid, Hpw, Hrows. done.
  - intros user rows Hid Hpw Hrows Hdiff. rewrite login_spec, Hid, Hpw, Hrows.
    simpl. by rewrite bool_decide_eq_true_2.
  - done.
  - intros token user_id error Htoken Hne Hverify.
    unfold authenticateToken_with. rewrite Htoken. cbn [no_token].
    rewrite bool_decide_eq_false_2 by done.
    change (default "" (Some token)) with token. by rewrite Hverify.
  - unfold authenticateToken, authenticateToken_with.
    destruct (no_token _); [done|].
    destruct (jwt_verify _) as [user_id|error]; [|done].
    unfold lookup_user, bind, pool_select, pool_query, ret. cbn [fst snd].
    by destruct (select_cols _ <$> _).
Qed.

(** One request of each kind against the sample users. *)
Lemma C5_authentication_statuses_witness :
  let next := λ _ : Row, ret (mkResponse 200 (BObject [])) in
  let wrong := mkLogin (Some "alice") None (Some "letmein") in
  let nobody := mkLogin (Some "zed") None (Some "letmein") in
  status (authenticateToken Sample.verify None next Sample.world).1 = 401 ∧
  status (authenticateToken Sample.verify (Some "Bearer junk") next Sample.world).1 = 403 ∧
  status (authenticateToken Sample.verify (Some "Bearer ghost-token") next
            Sample.world).1 = 401 ∧
  status (login Sample.sign nobody Sample.world).1 = 400 ∧
  status (login Sample.sign wrong Sample.world).1 = 400 ∧
  status (authenticateToken_with Sample.verify (rejected_lookup "ECONNREFUSED")
            (Some "Bearer alice-token") next Sample.world).1 = 403.
Proof.
  intros next wrong nobody.
  destruct (C5_authentication_statuses Sample.verify Sample.sign
              (Some "Bearer alice-token") next wrong Sample.world)
    as (_ & _ & _ & _ & _ & _ & Hrejected & _).
  rewrite (Hrejected "alice-token" "u_alice" "ECONNREFUSED" eq_refl ltac:(discriminate)
             eq_refl).
  destruct (C5_authentication_statuses Sample.verify Sample.sign None next nobody
              Sample.world) as (Hmissing & _ & _ & Hnobody & _).
  destruct (C5_authentication_statuses Sample.verify Sample.sign (Some "Bearer junk")
              next wrong Sample.world) as (_ & Hthrows & _ & _ & Hwrong & _).
  destruct (C5_authentication_statuses Sample.verify Sample.sign
              (Some "Bearer ghost-token") next wrong Sample.world)
    as (_ & _ & Hghost & _).
  rewrite (Hmissing eq_refl).
  rewrite (Hthrows "junk" "JsonWebTokenError" eq_refl ltac:(discriminate) eq_refl).
  rewrite (Hghost "ghost-token" "u_ghost" eq_refl ltac:(discriminate) eq_refl
             ltac:(vm_compute; reflexivity)).
  rewrite (Hnobody eq_refl eq_refl ltac:(vm_compute; reflexivity)).
  rewrite (Hwrong Sample.alice [] eq_refl eq_refl ltac:(vm_refl)
             ltac:(vm_compute; discriminate)).
  repeat split.
Defined.

(** Not every authentication failure is answered with 401: an expired
    token and a malformed token get 403, a wrong password gets 400. *)
Lemma C5_not_always_401 :
  let next := λ _ : Row, ret (mkResponse 200 (BObject [])) in
  status (authenticateToken Sample.verify (Some "Bearer old-token") next
            Sample.world).1 = 403 ∧
  status (authenticateToken Sample.verify (Some "Bearer junk") next
            Sample.world).1 = 403 ∧
  status (login Sample.sign (mkLogin (Some "alice") None (Some "letmein"))
            Sample.world).1 = 400 ∧
  403 ≠ 401 ∧ 400 ≠ 401.
Proof. vm_compute. repeat split; discriminate. Qed.

(** C6, as the code has it. The routes registered without the
    middleware are the public profile, registration, login, contact
    submission and help docs, and also the site fetch by id, the project
    list of a site, the dashboard preview and the health check.  On every
    other route a request without a valid token is answered with 401 or
    403 before the handler runs: the answer is the same whatever the
    handler is, the tables are untouched, and the only statement that may
    be issued is the middleware's own user lookup.  With a valid token the
    handler runs with the user found. *)
Theorem C6_token_required
    (jwt_verify : string → Verified)
    (handlers : Endpoint → option Row → M Response)
    (e : Endpoint) (authHeader : option string) (w : World) :
  uses_authenticateToken e = negb (bool_decide (e ∈ open_endpoints)) ∧
  (uses_authenticateToken e = false →
   dispatch jwt_verify handlers e authHeader w = handlers e None w) ∧
  (uses_authenticateToken e = true →
   ¬ valid_token jwt_verify (db w) authHeader →
   let out := dispatch jwt_verify handlers e authHeader w in
   (status out.1 = 401 ∨ status out.1 = 403) ∧
   (∀ others, dispatch jwt_verify others e authHeader w = out) ∧
   db out.2 = db w ∧ storage out.2 = storage w ∧
   (trace out.2 = trace w ∨ ∃ user_id, trace out.2 = trace w ++ [user_lookup user_id])) ∧
  (uses_authenticateToken e = true →
   ∀ token user_id user rest,
     bearer_token authHeader = Some token → token ≠ "" →
     jwt_verify token = Decoded user_id →
     token_users (db w) user_id = user :: rest →
     dispatch jwt_verify handlers e authHeader w =
       handlers e (Some user) (logged w (user_lookup user_id))).
Proof.
  split.
  { by destruct e. }
  split.
  { intros Hopen. unfold dispatch. by rewrite Hopen. }
  split.
  - intros Hauth Hinvalid. unfold dispatch. rewrite Hauth.
    simpl. setoid_rewrite authenticateToken_spec.
    destruct (no_token (bearer_token authHeader)) eqn:Hnone.
    { simpl. repeat split; auto. }
    destruct (bearer_token authHeader) as [token|] eqn:Htoken; [|done].
    simpl in Hnone. apply bool_decide_eq_false in Hnone. simpl.
    destruct (jwt_verify token) as [user_id|error] eqn:Hverify.
    + destruct (token_users (db w) user_id) as [|user rest] eqn:Husers.
      * simpl. repeat split; eauto.
      * destruct Hinvalid. exists token, user_id.
        repeat split; [done..|]. by rewrite Husers.
    + simpl. repeat split; auto.
  - intros Hauth token user_id user rest Htoken Hne Hverify Husers.
    unfold dispatch. rewrite Hauth, authenticateToken_spec, Htoken. simpl.
    rewrite bool_decide_eq_false_2 by done. by rewrite Hverify, Husers.
Qed.

(** A rejected token, an accepted token and an open route. *)
Lemma C6_token_required_witness :
  let handlers := λ (_ : Endpoint) (_ : option Row), getSite "s1" in
  status (dispatch Sample.verify handlers PUT_sites_id (Some "Bearer junk")
            Sample.world).1 = 403 ∧
  status (dispatch Sample.verify handlers PUT_sites_id (Some "Bearer alice-token")
            Sample.world).1 = 200 ∧
  status (dispatch Sample.verify handlers GET_help_docs None Sample.world).1 = 200.
Proof.
  intros handlers.
  destruct (C6_token_required Sample.verify handlers PUT_sites_id (Some "Bearer junk")
              Sample.world) as (_ & _ & Hreject & _).
  destruct (C6_token_required Sample.verify handlers PUT_sites_id
              (Some "Bearer alice-token") Sample.world) as (_ & _ & _ & Haccept).
  destruct (C6_token_required Sample.verify handlers GET_help_docs None Sample.world)
    as (_ & Hopen & _).
  rewrite (Hopen eq_refl).
  rewrite (Haccept eq_refl "alice-token" "u_alice" (Sample.principal Sample.alice) []
             eq_refl ltac:(discriminate) eq_refl ltac:(vm_refl)).
  destruct Hreject as (_ & Hsame & _); [reflexivity| |].
  { intros (token & user_id & Htoken & _ & Hverify & _).
    injection Htoken as <-. vm_compute in Hverify. discriminate. }
  split; [|split; vm_compute; reflexivity].
  vm_compute. reflexivity.
Defined.

(** The site fetch, the project list and the dashboard preview are
    registered without the middleware: they are served without any
    Authorization header, and the first two read the tables. *)
Lemma C6_open_without_token :
  let handlers := λ (e : Endpoint) (_ : option Row),
    match e with
    | GET_sites_id => getSite "s1"
    | _ => listProjects "s1"
    end in
  let site := dispatch Sample.verify handlers GET_sites_id None Sample.world in
  let projects := dispatch Sample.verify handlers GET_sites_id_projects None
                    Sample.world in
  uses_authenticateToken GET_sites_id = false ∧
  uses_authenticateToken GET_sites_id_projects = false ∧
  uses_authenticateToken GET_dashboard_preview = false ∧
  status site.1 = 200 ∧
  trace site.2 = [mkQuery "SELECT * FROM portfolio_sites WHERE site_id = $1" [VStr "s1"]] ∧
  status projects.1 = 200 ∧
  trace projects.2 = [mkQuery q_list_projects [VStr "s1"]].
Proof. vm_compute. repeat split. Qed.

(** ** Publishing *)

Section Publish.

(** The publish statement writes the two timestamp columns only. *)
Lemma set_published_other (now : Z) (r : Row) (col : string) :
  col ≠ "published_at" → col ≠ "updated_at" →
  set_published now r !! col = r !! col.
Proof.
  intros Hp Hu. unfold set_published.
  rewrite lookup_insert_ne by done. by rewrite lookup_insert_ne.
Qed.

Lemma set_published_at (now : Z) (r : Row) :
  set_published now r !! "published_at" = Some (VDate now).
Proof.
  unfold set_published. rewrite lookup_insert_ne by done.
  by rewrite lookup_insert_eq.
Qed.

Lemma col_is_set_published (now : Z) (site_id : string) (r : Row) :
  col_is "site_id" site_id (set_published now r) = col_is "site_id" site_id r.
Proof. unfold col_is. by rewrite set_published_other. Qed.

(** A fixed update that keeps the key and the owner of every row keeps
    every site's owner. *)
Lemma site_owner_update_sites (change : Row → Row) (target site_id : string) (d : DB) :
  (∀ r, change r !! "site_id" = r !! "site_id") →
  (∀ r, change r !! "user_id" = r !! "user_id") →
  site_owner (update_sites change target d).2 site_id = site_owner d site_id.
Proof.
  intros Hkey Howner. unfold site_owner, update_sites. simpl.
  induction (portfolio_sites d) as [|r sites IH]; [done|].
  rewrite fmap_cons, !filter_cons.
  assert (col_is "site_id" site_id
            (if col_is "site_id" target r then change r else r)
          = col_is "site_id" site_id r) as ->.
  { destruct (col_is "site_id" target r); [|done]. unfold col_is. by rewrite Hkey. }
  destruct (decide (col_is "site_id" site_id r = true)); [|exact IH].
  simpl. unfold field. destruct (col_is "site_id" target r); [|done].
  by rewrite Howner.
Qed.

(** The publish handler for the owner: the lookup, then the one UPDATE. *)
Lemma publishSite_owner (site_id : string) (user : Row) (now : Z) (w : World) :
  site_owner (db w) site_id = Some (field "id" user) →
  publishSite site_id user now w =
    (mkResponse 200
       (BData ((set_published now <$>
                  filter (λ r, col_is "site_id" site_id r = true)
                         (portfolio_sites (db w))) !! 0)),
     mkWorld (update_sites (set_published now) site_id (db w)).2
             (trace w ++ [site_lookup site_id; mkQuery q_publish [VStr site_id]])
             (storage w)).
Proof.
  intros Howner. unfold publishSite.
  rewrite site_gate_spec, Howner. simpl.
  rewrite bool_decide_eq_false_2 by (intros Hne; by apply Hne).
  unfold bind, pool_query, ret, logged. simpl. by rewrite <- app_assoc.
Qed.


End Publish.

(** C7. For a site owned by the principal, every call of the publish
    endpoint answers 200 and sets published_at of the site's row to the
    time of that call, so after two calls it holds the time of the
    second; updated_at apart, every other column of that row, subdomain
    among them, is as before the first call, every other row and table
    is untouched, and each call issues the lookup and the one UPDATE. *)
Theorem C7_publish_twice (site_id : string) (user : Row) (t1 t2 : Z) (w : World) :
  site_owner (db w) site_id = Some (field "id" user) →
  let out1 := publishSite site_id user t1 w in
  let out2 := publishSite site_id user t2 out1.2 in
  status out1.1 = 200 ∧ status out2.1 = 200 ∧
  (∃ row, body out1.1 = BData (Some row) ∧ field "published_at" row = VDate t1) ∧
  (∃ row, body out2.1 = BData (Some row) ∧ field "published_at" row = VDate t2) ∧
  (∀ i r,
     portfolio_sites (db w) !! i = Some r →
     ∃ r1 r2,
       portfolio_sites (db out1.2) !! i = Some r1 ∧
       portfolio_sites (db out2.2) !! i = Some r2 ∧
       (col_is "site_id" site_id r = true →
        r1 !! "published_at" = Some (VDate t1) ∧
        r2 !! "published_at" = Some (VDate t2) ∧
        r2 !! "subdomain" = r !! "subdomain" ∧
        ∀ col, col ≠ "published_at" → col ≠ "updated_at" →
               r1 !! col = r !! col ∧ r2 !! col = r !! col) ∧
       (col_is "site_id" site_id r = false → r1 = r ∧ r2 = r)) ∧
  length (portfolio_sites (db out2.2)) = length (portfolio_sites (db w)) ∧
  users (db out2.2) = users (db w) ∧
  portfolio_projects (db out2.2) = portfolio_projects (db w) ∧
  image_assets (db out2.2) = image_assets (db w) ∧
  trace out2.2 =
    trace w ++ [site_lookup site_id; mkQuery q_publish [VStr site_id];
                site_lookup site_id; mkQuery q_publish [VStr site_id]].
Proof.
  intros Howner out1 out2.
  assert (site_owner (db out1.2) site_id = Some (field "id" user)) as Howner1.
  { unfold out1. rewrite publishSite_owner by done. cbn [snd db].
    rewrite site_owner_update_sites; [done|intros r..];
      by apply set_published_other. }
  unfold out2. rewrite (publishSite_owner site_id user t2 out1.2 Howner1).
  unfold out1. rewrite (publishSite_owner site_id user t1 w Howner). simpl.
  assert (∃ r0 rest, filter (λ r, col_is "site_id" site_id r = true)
                       (portfolio_sites (db w)) = r0 :: rest) as (r0 & rest & Hrows).
  { unfold site_owner in Howner.
    destruct (filter _ (portfolio_sites (db w))) as [|r0 rest]; [done|eauto]. }
  split; [done|]. split; [done|].
  split.
  { rewrite Hrows. simpl. eexists. split; [done|].
    unfold field. by rewrite set_published_at. }
  split.
  { assert (∃ r0' rest',
              filter (λ r, col_is "site_id" site_id r = true)
                ((λ r, if col_is "site_id" site_id r then set_published t1 r else r)
                   <$> portfolio_sites (db w)) = r0' :: rest') as (r0' & rest' & ->).
    { clear Howner1. induction (portfolio_sites (db w)) as [|r sites IH]; [done|].
      rewrite filter_cons in Hrows. rewrite fmap_cons, filter_cons.
      destruct (col_is "site_id" site_id r) eqn:Hr.
      - rewrite col_is_set_published, Hr. simpl. eauto.
      - rewrite Hr. simpl in *. eauto. }
    simpl. eexists. split; [done|]. unfold field. by rewrite set_published_at. }
  split.
  { intros i r Hi. rewrite !list_lookup_fmap, Hi. simpl.
    eexists _, _. split; [done|]. split; [done|].
    destruct (col_is "site_id" site_id r) eqn:Hr.
    - rewrite col_is_set_published, Hr. split; [|done]. intros _.
      split; [apply set_published_at|]. split; [apply set_published_at|].
      split; [by rewrite !set_published_other|].
      intros col Hp Hu. by rewrite !set_published_other.
    - rewrite Hr. split; [done|]. by intros _. }
  split; [by rewrite !length_fmap|].
  split; [done|]. split; [done|]. split; [done|].
  by rewrite <- app_assoc.
Qed.

(** Alice publishes her site twice. *)
Lemma C7_publish_twice_witness :
  let alice := Sample.principal Sample.alice in
  let out1 := publishSite "s1" alice 10 Sample.world in
  let out2 := publishSite "s1" alice 20 out1.2 in
  status out2.1 = 200 ∧
  trace out2.2 = [site_lookup "s1"; mkQuery q_publish [VStr "s1"];
                  site_lookup "s1"; mkQuery q_publish [VStr "s1"]].
Proof.
  intros alice out1 out2.
  destruct (C7_publish_twice "s1" alice 10 20 Sample.world ltac:(vm_refl))
    as (_ & Hstatus & _ & _ & _ & _ & _ & _ & _ & Htrace).
  split; [exact Hstatus|exact Htrace].
Defined.

(** ** Projects *)

Arguments insert_project : simpl never.

Section Projects.

Lemma site_owner_exists (d : DB) (site_id : string) (owner : Value) :
  site_owner d site_id = Some owner →
  existsb (λ s, sql_eq (field "site_id" s) (VStr site_id)) (portfolio_sites d) = true.
Proof.
  unfold site_owner. intros Howner. apply existsb_exists.
  destruct (filter _ (portfolio_sites d)) as [|r rest] eqn:Hrows; [done|].
  assert (r ∈ filter (λ r, col_is "site_id" site_id r = true) (portfolio_sites d))
    as [Hcol Hin]%list_elem_of_filter by (rewrite Hrows; left).
  exists r. split; [by apply list_elem_of_In|].
  unfold col_is in Hcol. unfold field.
  destruct (r !! "site_id") as [[]|]; try done.
  apply bool_decide_eq_true in Hcol as ->. simpl. by apply bool_decide_eq_true.
Qed.

Lemma fresh_project_id (rows : list Row) (project_id : string) :
  Forall (λ r, field "project_id" r ≠ VStr project_id) rows →
  forallb (λ r, negb (sql_eq (field "project_id" r) (VStr project_id))) rows = true.
Proof.
  intros Hfresh. apply forallb_forall. intros r Hin%list_elem_of_In.
  rewrite Forall_forall in Hfresh. specialize (Hfresh r Hin).
  unfold sql_eq. destruct (field "project_id" r); try done;
    by rewrite bool_decide_eq_false_2.
Qed.

(** A row the projects table accepts has a [Date] in its date column. *)
Lemma projects_accept_date (new : Row) (d : DB) :
  projects_accept new d = true → ∃ day, field "date" new = VDate day.
Proof.
  unfold projects_accept. rewrite !andb_true_iff.
  intros [[[[[[[Htypes _] _] _] _] _] _] Hnotnull].
  apply bool_decide_eq_true in Hnotnull.
  rewrite forallb_forall in Htypes.
  specialize (Htypes ("date", TDate)). cbn [fst snd] in Htypes.
  assert (has_type TDate (field "date" new) = true) as Hdate.
  { apply Htypes. cbn. tauto. }
  destruct (field "date" new); try done. eauto.
Qed.

End Projects.

(** C8, as the code has it. For a site of the principal that has no
    project yet, creating a project from {title: T, description: D, date:
    2024-01-01, tags: [x], images: []} with a fresh id has one of two
    outcomes, decided by what PostgreSQL makes of the text 2024-01-01 in
    the DATE column.  When it reads a date, the answer is 201 and the
    project list of the site then answers 200 with exactly one project:
    its title, description, tags and images are those of the input, its
    project_id is the id the server assigned and its order_index is the
    default 0, but its date is not the text that was sent: it is the
    [Date] the driver returns for the stored date.  Otherwise the INSERT
    fails, the answer is 500 and the list stays empty. *)
Theorem C8_create_then_list
    (pg_convert : ColumnType → Value → option Value)
    (site_id project_id : string) (user : Row) (now : Z) (w : World) :
  site_owner (db w) site_id = Some (field "id" user) →
  filter (λ r, col_is "site_id" site_id r = true) (portfolio_projects (db w)) = [] →
  Forall (λ r, field "project_id" r ≠ VStr project_id) (portfolio_projects (db w)) →
  let input := [("title", VStr "T"); ("description", VStr "D");
                ("date", VStr "2024-01-01"); ("tags", VArr ["x"]);
                ("images", VArr [])] in
  let created := createProject pg_convert site_id user input project_id now w in
  let listed := listProjects site_id created.2 in
  match pg_convert TDate (VStr "2024-01-01") with
  | Some (VDate day) =>
      status created.1 = 201 ∧
      ∃ project,
        body created.1 = BData (Some project) ∧
        listed.1 = mkResponse 200 (BList [project] 1) ∧
        field "title" project = VStr "T" ∧
        field "description" project = VStr "D" ∧
        field "tags" project = VArr ["x"] ∧
        field "images" project = VArr [] ∧
        field "project_id" project = VStr project_id ∧
        field "order_index" project = VNum 0 ∧
        field "site_id" project = VStr site_id ∧
        field "date" project = VDate day ∧
        field "date" project ≠ get "date" input
  | _ =>
      created.1 = internal_error "error" ∧
      db created.2 = db w ∧
      listed.1 = mkResponse 200 (BList [] 0)
  end.
Proof.
  intros Howner Hempty Hfresh input created listed.
  set (values := [VStr project_id; VStr site_id; VStr "T"; VStr "D";
                  VStr "2024-01-01"; VArr ["x"]; VUndefined; VUndefined;
                  VArr []; VNum 0]).
  set (stored := λ date : Value,
         [VStr project_id; VStr site_id; VStr "T"; VStr "D"; date; VArr ["x"];
          VNull; VNull; VArr []; VNum 0]).
  set (row := λ date : Value,
         (<["updated_at" := VDate now]> (<["created_at" := VDate now]>
            (list_to_map (zip project_columns (stored date)))) : Row)).
  set (w1 := mkWorld (db w) (trace w ++ [site_lookup site_id;
                                         mkQuery q_insert_project values]) (storage w)).
  assert (∀ date, field "date" (row date) = date) as Hdate
    by (intros date; unfold row, stored; row_field).
  assert (∀ date, field "project_id" (row date) = VStr project_id) as Hid
    by (intros date; unfold row, stored; row_field).
  assert (∀ date, field "site_id" (row date) = VStr site_id) as Hsite
    by (intros date; unfold row, stored; row_field).
  assert (insert_project pg_convert values now (db w) =
            match pg_convert TDate (VStr "2024-01-01") with
            | Some date =>
                if projects_accept (row date) (db w)
                then (Some [row date],
                      mkDB (users (db w)) (portfolio_sites (db w))
                           (portfolio_projects (db w) ++ [row date])
                           (image_assets (db w)))
                else (None, db w)
            | None => (None, db w)
            end) as Hinsert.
  { unfold insert_project, values. cbn.
    by destruct (pg_convert TDate (VStr "2024-01-01")). }
  assert (created =
            let result := insert_project pg_convert values now (db w) in
            (match result.1 with
             | Some rows => mkResponse 201 (BData (rows !! 0))
             | None => internal_error "error"
             end,
             mkWorld result.2 (trace w1) (storage w))) as Hcreated.
  { unfold created, createProject. simpl.
    rewrite site_gate_spec, Howner. cbn zeta.
    rewrite bool_decide_eq_false_2 by (intros Hne; by apply Hne).
    unfold bind, pool_query, logged. cbn [db trace storage].
    cbv [with_default is_defined]. fold values.
    destruct (insert_project pg_convert values now (db w)) as [[rows|] d];
      cbn; by rewrite <- app_assoc. }
  assert (∀ date, (∀ day, date ≠ VDate day) → projects_accept (row date) (db w) = false)
    as Hrefused.
  { intros date Hnodate. apply not_true_is_false. intros Haccept.
    destruct (projects_accept_date _ _ Haccept) as [day Hday].
    rewrite Hdate in Hday. by destruct (Hnodate day). }
  assert (∀ d, listProjects site_id (mkWorld (db w) d (storage w)) =
               (mkResponse 200 (BList [] 0),
                mkWorld (db w) (d ++ [mkQuery q_list_projects [VStr site_id]])
                        (storage w))) as Hnone.
  { intros d. unfold listProjects, bind, pool_select, pool_query, ret.
    cbn [fst snd db trace storage]. by rewrite Hempty. }
  unfold listed. rewrite Hcreated, Hinsert. cbn zeta.
  destruct (pg_convert TDate (VStr "2024-01-01")) as [date|];
    [|cbn [fst snd]; by rewrite Hnone].
  destruct date as [| |b|z|s|day|l];
    try (rewrite Hrefused by (intros day; discriminate);
         cbn [fst snd]; by rewrite Hnone).
  - assert (projects_accept (row (VDate day)) (db w) = true) as ->.
    { unfold projects_accept. rewrite Hid, Hsite, Hdate.
      rewrite (fresh_project_id _ _ Hfresh), (site_owner_exists _ _ _ Howner).
      assert (forallb (λ ct : string * ColumnType,
                         has_type ct.2 (field ct.1 (row (VDate day))))
                      (zip project_columns project_types) = true) as ->
        by (vm_compute; reflexivity).
      assert (field "title" (row (VDate day)) = VStr "T") as ->
        by (unfold row, stored; row_field).
      assert (field "description" (row (VDate day)) = VStr "D") as ->
        by (unfold row, stored; row_field).
      reflexivity. }
    cbn [fst snd status body lookup list_lookup].
    split; [done|]. exists (row (VDate day)).
    split; [done|]. split.
    { unfold listProjects, bind, pool_select, pool_query, ret.
      cbn [fst snd db trace storage portfolio_projects].
      rewrite filter_app, Hempty. cbn [app]. rewrite filter_cons, filter_nil.
      rewrite decide_True; [done|].
      specialize (Hsite (VDate day)). unfold col_is. unfold field in Hsite.
      destruct (row (VDate day) !! "site_id") as [v|]; [|done].
      simpl in Hsite. subst v. by apply bool_decide_eq_true. }
    do 2 (split; [unfold row, stored; row_field|]).
    do 2 (split; [unfold row, stored; row_field|]).
    split; [apply Hid|].
    split; [unfold row, stored; row_field|].
    split; [apply Hsite|].
    split; [apply Hdate|].
    rewrite Hdate. discriminate.
Qed.

(** Bob adds the first project to his site and lists it: the date comes
    back as a [Date], not as the text sent.  A date that PostgreSQL does
    not read is answered with 500. *)
Lemma C8_create_then_list_witness :
  let bob := Sample.principal Sample.bob in
  let input := [("title", VStr "T"); ("description", VStr "D");
                ("date", VStr "2024-01-01"); ("tags", VArr ["x"]);
                ("images", VArr [])] in
  let created := createProject Dates.convert "s3" bob input "p2" 5 Sample.world in
  status created.1 = 201 ∧
  (∃ project,
     (listProjects "s3" created.2).1 = mkResponse 200 (BList [project] 1) ∧
     field "date" project = VDate 1704067200000 ∧
     field "date" project ≠ VStr "2024-01-01") ∧
  status (createProject (λ _ _, None) "s3" bob input "p2" 5 Sample.world).1 = 500.
Proof.
  intros bob input created.
  assert (Forall (λ r, field "project_id" r ≠ VStr "p2")
            (portfolio_projects (db Sample.world))) as Hfresh.
  { apply Forall_cons. split; [vm_compute; discriminate|apply Forall_nil_2]. }
  pose proof (C8_create_then_list Dates.convert "s3" "p2" bob 5 Sample.world
                ltac:(vm_refl) ltac:(vm_refl) Hfresh) as Hread.
  pose proof (C8_create_then_list (λ _ _, None) "s3" "p2" bob 5 Sample.world
                ltac:(vm_refl) ltac:(vm_refl) Hfresh) as Hrefused.
  cbv beta zeta in Hread, Hrefused.
  change (Dates.convert TDate (VStr "2024-01-01")) with (Some (VDate 1704067200000))
    in Hread.
  cbv iota in Hread, Hrefused.
  destruct Hread as (Hstatus & project & _ & Hlisted & _ & _ & _ & _ & _ & _ & _ &
                     Hdate & Hdiffers).
  destruct Hrefused as (Hfailed & _).
  split; [exact Hstatus|]. split.
  - exists project. split; [exact Hlisted|]. split; [exact Hdate|exact Hdiffers].
  - unfold input. rewrite Hfailed. reflexivity.
Defined.

(** ** The export stub *)

Lemma append_assoc (a b c : string) : (a +:+ b) +:+ c = a +:+ (b +:+ c).
Proof.
  induction a as [|x a IH]; [done|].
  change (String x ((a +:+ b) +:+ c) = String x (a +:+ (b +:+ c))). by rewrite IH.
Qed.

(** C9. The export writes one archive, at the path of the storage
    directory that the returned URL names: the URL is /storage/ followed
    by the file name portfolio-<site id>-<milliseconds>.zip, and
    /storage is where the storage directory is served.  The only entry
    of the archive is index.html, and its content is the fixed document
    below, in which nothing but the time of generation varies: two
    exports made at the same instant, for any two sites and whatever the
    tables and the storage hold, carry the same HTML.  The generator
    issues no statement and changes no table.  For the owner of the site
    the handler answers 200 with that URL in both properties and leaves
    that archive in the storage. *)
Theorem C9_export_fixed_document
    (toISOString : Z → string) (dirname : string)
    (site_id other_site : string) (user : Row)
    (t_name other_name t_html now : Z) (w other : World) :
  let out := generateStaticSiteExport toISOString dirname site_id t_name t_html w in
  let out' := generateStaticSiteExport toISOString dirname other_site other_name
                t_html other in
  let export_filename := "portfolio-" +:+ site_id +:+ "-" +:+ pretty t_name +:+ ".zip" in
  let url := "/storage/" +:+ export_filename in
  let document := join nl
    ["";
     "<!DOCTYPE html>";
     "<html lang=" +:+ dq +:+ "en" +:+ dq +:+ ">";
     "<head>";
     "    <meta charset=" +:+ dq +:+ "UTF-8" +:+ dq +:+ ">";
     "    <meta name=" +:+ dq +:+ "viewport" +:+ dq +:+ " content=" +:+ dq +:+
       "width=device-width, initial-scale=1.0" +:+ dq +:+ ">";
     "    <title>Portfolio Export</title>";
     "    <style>";
     "        body { font-family: Arial, sans-serif; margin: 0; padding: 20px; }";
     "        .hero { background: #f4f4f4; padding: 60px 20px; text-align: center; }";
     "        .projects { padding: 40px 20px; }";
     "        .project { margin-bottom: 30px; padding: 20px; border: 1px solid #ddd; }";
     "    </style>";
     "</head>";
     "<body>";
     "    <div class=" +:+ dq +:+ "hero" +:+ dq +:+ ">";
     "        <h1>Portfolio Site Export</h1>";
     "        <p>Generated on " +:+ toISOString t_html +:+ "</p>";
     "    </div>";
     "    <div class=" +:+ dq +:+ "projects" +:+ dq +:+ ">";
     "        <h2>Projects</h2>";
     "        <div class=" +:+ dq +:+ "project" +:+ dq +:+ ">";
     "            <h3>Sample Project</h3>";
     "            <p>This is a mock export. In production, this would contain actual portfolio data.</p>";
     "        </div>";
     "    </div>";
     "</body>";
     "</html>"] in
  let archive :=
    mkZip ((dirname +:+ "/storage") +:+ "/" +:+ export_filename)
          [("index.html", document)] in
  out.1 = Some url ∧
  storage out.2 = storage w ++ [archive] ∧
  db out.2 = db w ∧ trace out.2 = trace w ∧
  zip_entries <$> last (storage out'.2) = Some (zip_entries archive) ∧
  (site_owner (db w) site_id = Some (field "id" user) →
   let served := exportSite toISOString dirname site_id user t_name t_html now w in
   served.1 = mkResponse 200 (BExport url url) ∧
   storage served.2 = storage w ++ [archive]).
Proof.
  intros out out' export_filename url document archive.
  assert (mock_html toISOString t_html = document) as Hdocument.
  { unfold document, mock_html. cbn [join].
    generalize (toISOString t_html). intros generated.
    rewrite !append_assoc. reflexivity. }
  unfold out, out', generateStaticSiteExport. cbn [fst snd db trace storage].
  fold export_filename. fold url. unfold storage_dir. rewrite Hdocument.
  split; [done|]. split; [done|]. split; [done|]. split; [done|].
  split; [by rewrite last_snoc|].
  intros Howner. unfold exportSite.
  rewrite site_gate_spec, Howner. cbn zeta.
  rewrite bool_decide_eq_false_2 by (intros Hne; by apply Hne).
  unfold bind, generateStaticSiteExport, pool_query, logged.
  cbn [fst snd db trace storage]. fold export_filename. fold url.
  assert (bool_decide (url = "") = false) as -> by by apply bool_decide_eq_false.
  unfold storage_dir. rewrite Hdocument. by split.
Qed.

(** Alice exports her site: the answer, and the archive left in the
    storage. *)
Lemma C9_export_fixed_document_witness :
  let alice := Sample.principal Sample.alice in
  let served := exportSite (λ _, "2024-01-01T00:00:00.000Z") "/srv" "s1" alice
                  1704067200000 1704067200000 1704067200001 Sample.world in
  served.1 =
    mkResponse 200 (BExport "/storage/portfolio-s1-1704067200000.zip"
                            "/storage/portfolio-s1-1704067200000.zip") ∧
  storage served.2 =
    [mkZip "/srv/storage/portfolio-s1-1704067200000.zip"
           [("index.html", join nl
    ["";
     "<!DOCTYPE html>";
     "<html lang=" +:+ dq +:+ "en" +:+ dq +:+ ">";
     "<head>";
     "    <meta charset=" +:+ dq +:+ "UTF-8" +:+ dq +:+ ">";
     "    <meta name=" +:+ dq +:+ "viewport" +:+ dq +:+ " content=" +:+ dq +:+
       "width=device-width, initial-scale=1.0" +:+ dq +:+ ">";
     "    <title>Portfolio Export</title>";
     "    <style>";
     "        body { font-family: Arial, sans-serif; margin: 0; padding: 20px; }";
     "        .hero { background: #f4f4f4; padding: 60px 20px; text-align: center; }";
     "        .projects { padding: 40px 20px; }";
     "        .project { margin-bottom: 30px; padding: 20px; border: 1px solid #ddd; }";
     "    </style>";
     "</head>";
     "<body>";
     "    <div class=" +:+ dq +:+ "hero" +:+ dq +:+ ">";
     "        <h1>Portfolio Site Export</h1>";
     "        <p>Generated on " +:+ "2024-01-01T00:00:00.000Z" +:+ "</p>";
     "    </div>";
     "    <div class=" +:+ dq +:+ "projects" +:+ dq +:+ ">";
     "        <h2>Projects</h2>";
     "        <div class=" +:+ dq +:+ "project" +:+ dq +:+ ">";
     "            <h3>Sample Project</h3>";
     "            <p>This is a mock export. In production, this would contain actual portfolio data.</p>";
     "        </div>";
     "    </div>";
     "</body>";
     "</html>"])]].
Proof.
  intros alice served.
  destruct (C9_export_fixed_document (λ _, "2024-01-01T00:00:00.000Z") "/srv"
              "s1" "s2" alice 1704067200000 0 1704067200000 1704067200001
              Sample.world Sample.world) as (_ & _ & _ & _ & _ & Hhandler).
  destruct (Hhandler ltac:(vm_refl)) as [Hresponse Hstorage].
  unfold served. rewrite Hresponse, Hstorage. split; vm_compute; reflexivity.
Defined.

(** ** The user object of the responses *)

Section UserObject.

Variable jwt_sign : Value → Value → string.

Lemma field_not_selected (cols : list string) (c : string) (r : Row) :
  c ∉ cols → field c (select_cols cols r) = VUndefined.
Proof.
  intros Hc. unfold field, select_cols.
  rewrite map_lookup_filter.
  destruct (r !! c) as [v|]; simpl; [|done].
  by rewrite option_guard_False.
Qed.

Lemma get_absent (key : string) (obj : Entries) :
  key ∉ obj.*1 → get key obj = VUndefined.
Proof.
  induction obj as [|[k v] obj IH]; [done|].
  intros Hnot. cbn [get]. rewrite fmap_cons, not_elem_of_cons in Hnot.
  destruct Hnot as [Hne Hnot]. simpl in Hne.
  rewrite bool_decide_eq_false_2 by done. by apply IH.
Qed.

(** Dropping the undefined properties does not change what a property
    access returns, keys being unique. *)
Lemma get_json_object (key : string) (obj : Entries) :
  NoDup obj.*1 → get key (json_object obj) = get key obj.
Proof.
  unfold json_object.
  induction obj as [|[k v] obj IH]; [done|].
  rewrite fmap_cons, NoDup_cons. intros [Hfresh Hnodup].
  rewrite filter_cons. cbn [get snd].
  destruct (decide (is_defined v = true)) as [Hv|Hv].
  - cbn [get]. by rewrite IH.
  - rewrite IH by done.
    destruct (bool_decide (k = key)) eqn:Hk; [|done].
    apply bool_decide_eq_true in Hk as <-.
    destruct v; try done. by apply get_absent.
Qed.

Lemma user_literal_keys (user : Row) : NoDup (user_literal user).*1.
Proof. apply (bool_decide_unpack _). vm_compute. exact I. Qed.

Lemma password_hash_of_literal (user : Row) :
  get "password_hash" (json_object (user_literal user)) = field "password_hash" user.
Proof. rewrite get_json_object by apply user_literal_keys. done. Qed.

(** When the row carries no password_hash, the JSON object has no such
    property. *)
Lemma literal_without_password (user : Row) (v : Value) :
  field "password_hash" user = VUndefined →
  ("password_hash", v) ∉ json_object (user_literal user).
Proof.
  intros Hnone Hin. unfold json_object in Hin.
  apply list_elem_of_filter in Hin as [Hdefined Hin]. simpl in Hdefined.
  unfold user_literal in Hin. rewrite Hnone in Hin.
  repeat (apply elem_of_cons in Hin as [Hin|Hin];
          [first [discriminate | by injection Hin as ->]|]).
  by apply elem_of_nil in Hin.
Qed.

(** A login that succeeds returns the stored password: the row comes from
    [SELECT *] and its password_hash equals the one sent. *)
Lemma login_returns_password_hash (req_body : LoginBody) (w : World) :
  status (login jwt_sign req_body w).1 = 200 →
  ∃ user token password,
    body (login jwt_sign req_body w).1 = BAuth user token ∧
    login_password_hash req_body = Some password ∧
    get "password_hash" user = VStr password ∧
    ∃ row, row ∈ users (db w) ∧ field "password_hash" row = VStr password.
Proof.
  rewrite login_spec.
  destruct (blank (login_identifier req_body) || blank (login_password_hash req_body))
    eqn:Hblank; [done|].
  apply orb_false_elim in Hblank as [_ Hpw].
  destruct (login_password_hash req_body) as [password|]; [|done].
  simpl.
  destruct (login_rows (db w) req_body) as [|row rows] eqn:Hrows; [done|].
  destruct (bool_decide (VStr password ≠ field "password_hash" row)) eqn:Hcmp; [done|].
  apply bool_decide_eq_false in Hcmp. apply dec_stable in Hcmp.
  intros _. simpl. eexists _, _, password. split; [done|]. split; [done|].
  split; [by rewrite password_hash_of_literal|].
  exists row. split; [|done].
  assert (row ∈ login_rows (db w) req_body) as Hin by (rewrite Hrows; left).
  unfold login_rows in Hin. by apply list_elem_of_filter in Hin as [_ ?].
Qed.

(** The public profile selects six columns; password_hash is not one. *)
Lemma getUser_hides_password_hash (user_id : string) (w : World) (row : Row) :
  body (getUser user_id w).1 = BData (Some row) →
  row !! "password_hash" = None.
Proof.
  unfold getUser, bind, pool_select, pool_query. simpl.
  destruct (filter _ (users (db w))) as [|u rest]; simpl; [done|].
  intros [= <-]. unfold select_cols. rewrite map_lookup_filter.
  by destruct (u !! "password_hash").
Qed.

End UserObject.

(** C10. A registration that succeeds stores the password as sent, but
    the user object of its response has no password_hash property: the
    INSERT returns seven columns, password_hash is not among them, so the
    property of the object literal is undefined and is dropped from the
    JSON. *)
Theorem C10_register_omits_password_hash
    (jwt_sign : Value → Value → string) (req_body : RegisterBody)
    (user_id : string) (now : Z) (w : World) :
  let out := register jwt_sign req_body user_id now w in
  status out.1 = 201 →
  ∃ user token password stored,
    body out.1 = BAuth user token ∧
    get "password_hash" user = VUndefined ∧
    (∀ v, ("password_hash", v) ∉ user) ∧
    reg_password_hash req_body = Some password ∧
    users (db out.2) = users (db w) ++ [stored] ∧
    field "password_hash" stored = VStr password.
Proof.
  intros out. unfold out, register.
  destruct (blank (reg_username req_body) || blank (reg_email req_body)
            || blank (reg_password_hash req_body)) eqn:Hblank; [done|].
  destruct (reg_password_hash req_body) as [password|] eqn:Hpw;
    [|by rewrite !orb_true_r in Hblank].
  change (default "" (Some password)) with password.
  destruct (bool_decide (String.length password < 6)); [done|].
  unfold bind, pool_select, pool_query. cbn [fst snd].
  destruct (bool_decide (0 < length _)); [done|].
  unfold insert_user.
  match goal with |- context [users_accepts ?row _] => set (new := row) end.
  destruct (users_accepts new _); [|done].
  cbn [fst snd status body db users ret]. intros _.
  assert ("password_hash" ∉ ["id"; "username"; "email"; "full_name"; "avatar_url";
                             "is_active"; "created_at"]) as Hcolumn by by_decide.
  eexists _, _, password, new. split; [done|].
  split; [by rewrite password_hash_of_literal, field_not_selected|].
  split; [intros v; by apply literal_without_password, field_not_selected|].
  split; [done|]. split; [done|]. vm_compute. reflexivity.
Qed.

(** Carol registers with the password secret1. *)
Lemma C10_register_omits_password_hash_witness :
  let req_body := mkRegister (Some "carol") (Some "c@x.com") (Some "secret1") None None in
  let out := register Sample.sign req_body "u_carol" 5 Sample.world in
  status out.1 = 201 ∧
  ∃ user token, body out.1 = BAuth user token ∧ get "password_hash" user = VUndefined.
Proof.
  intros req_body out.
  assert (status out.1 = 201) as Hstatus by (vm_compute; reflexivity).
  destruct (C10_register_omits_password_hash Sample.sign req_body "u_carol" 5
              Sample.world Hstatus)
    as (user & token & _ & _ & Hbody & Hget & _).
  split; [exact Hstatus|]. exists user, token. by split.
Defined.

(** ** Ordered listings *)

Section Sorting.

Variable before : Row → Row → bool.

Hypothesis before_asym : ∀ a b, before a b = true → before b a = false.
Hypothesis not_before_trans :
  ∀ a b c, before b a = false → before c b = false → before c a = false.

Lemma insert_by_perm (r : Row) (l : list Row) : insert_by before r l ≡ₚ r :: l.
Proof.
  induction l as [|r' l IH]; [done|]. simpl.
  destruct (before r' r); [by rewrite IH, Permutation_swap|].
  destruct (before r r'); [done|]. by rewrite IH, Permutation_swap.
Qed.

Lemma sort_rows_perm (l : list Row) : sort_rows before l ≡ₚ l.
Proof.
  unfold sort_rows.
  assert (∀ acc, foldl (λ sorted r, insert_by before r sorted) acc l ≡ₚ acc ++ l) as H.
  { induction l as [|r l IH]; intros acc; simpl; [by rewrite app_nil_r|].
    rewrite IH, insert_by_perm. simpl. apply Permutation_middle. }
  apply H.
Qed.

Lemma insert_by_in_order (r : Row) (l : list Row) :
  in_order before l → in_order before (insert_by before r l).
Proof.
  unfold in_order. induction l as [|r' l IH]; intros Hl; simpl.
  { repeat constructor. }
  apply StronglySorted_inv in Hl as [Hl Hall].
  destruct (before r' r) eqn:Hr'.
  - constructor; [by apply IH|].
    rewrite insert_by_perm. constructor; [by apply before_asym|done].
  - destruct (before r r') eqn:Hr.
    + constructor; [by constructor|].
      constructor; [done|].
      eapply Forall_impl; [exact Hall|]. intros c Hc. simpl in Hc.
      by apply (not_before_trans r r' c).
    + constructor; [by apply IH|].
      rewrite insert_by_perm. by constructor.
Qed.

Lemma sort_rows_in_order (l : list Row) : in_order before (sort_rows before l).
Proof.
  unfold sort_rows.
  assert (∀ acc, in_order before acc →
                 in_order before (foldl (λ sorted r, insert_by before r sorted) acc l))
    as H.
  { induction l as [|r l IH]; intros acc Hacc; simpl; [done|].
    by apply IH, insert_by_in_order. }
  apply H. constructor.
Qed.

End Sorting.

Section Comparators.

Lemma before_asc_asym (a b : option Z) :
  before_asc a b = true → before_asc b a = false.
Proof.
  destruct a as [x|], b as [y|]; simpl; try done.
  intros H%Z.ltb_lt. apply Z.ltb_ge. lia.
Qed.

Lemma before_asc_trans (a b c : option Z) :
  before_asc b a = false → before_asc c b = false → before_asc c a = false.
Proof.
  destruct a as [x|], b as [y|], c as [z|]; simpl; try done.
  intros H1%Z.ltb_ge H2%Z.ltb_ge. apply Z.ltb_ge. lia.
Qed.

(** Rows with equal keys are those that neither way come before. *)
Lemma before_asc_tie (a b : option Z) :
  before_asc a b = false → before_asc b a = false → a = b.
Proof.
  destruct a as [x|], b as [y|]; simpl; try done.
  intros H1%Z.ltb_ge H2%Z.ltb_ge. f_equal. lia.
Qed.

Lemma newer_asym (a b : Row) : newer a b = true → newer b a = false.
Proof. apply before_asc_asym. Qed.

Lemma newer_trans (a b c : Row) :
  newer b a = false → newer c b = false → newer c a = false.
Proof. unfold newer. intros H1 H2. by eapply before_asc_trans. Qed.

Lemma project_before_asym (a b : Row) :
  project_before a b = true → project_before b a = false.
Proof.
  unfold project_before.
  set (oa := sort_key (field "order_index" a)).
  set (ob := sort_key (field "order_index" b)).
  set (ca := sort_key (field "created_at" a)).
  set (cb := sort_key (field "created_at" b)).
  intros [H|[Heq H]%andb_true_iff]%orb_true_iff; apply orb_false_iff.
  - split; [by apply before_asc_asym|].
    destruct (decide (ob = oa)) as [->|Hne].
    + by rewrite (before_asc_asym _ _ H) in H.
    + by rewrite bool_decide_eq_false_2.
  - apply bool_decide_eq_true in Heq. rewrite Heq in *.
    split.
    + destruct (before_asc ob ob) eqn:Hself; [|done].
      by rewrite (before_asc_asym _ _ Hself) in Hself.
    + apply andb_false_iff. right. by apply before_asc_asym.
Qed.

Lemma project_before_trans (a b c : Row) :
  project_before b a = false → project_before c b = false →
  project_before c a = false.
Proof.
  unfold project_before.
  set (oa := sort_key (field "order_index" a)).
  set (ob := sort_key (field "order_index" b)).
  set (oc := sort_key (field "order_index" c)).
  set (ca := sort_key (field "created_at" a)).
  set (cb := sort_key (field "created_at" b)).
  set (cc := sort_key (field "created_at" c)).
  intros [Hba Hba']%orb_false_iff [Hcb Hcb']%orb_false_iff.
  apply orb_false_iff. split; [by eapply before_asc_trans|].
  destruct (decide (oc = oa)) as [Hca|Hca];
    [|by rewrite bool_decide_eq_false_2].
  rewrite bool_decide_eq_true_2 by done. simpl.
  assert (ob = oa) as Hob.
  { apply before_asc_tie; [exact Hba|]. rewrite <- Hca. exact Hcb. }
  rewrite bool_decide_eq_true_2 in Hba' by done.
  rewrite bool_decide_eq_true_2 in Hcb' by congruence.
  simpl in *. by eapply before_asc_trans.
Qed.

Lemma insert_sorted_by (r : Row) (l : list Row) :
  insert_sorted r l = insert_by project_before r l.
Proof. induction l as [|r' l IH]; [done|]. simpl. by rewrite IH. Qed.

Lemma order_projects_sort (l : list Row) :
  order_projects l = sort_rows project_before l.
Proof.
  unfold order_projects, sort_rows. generalize (@nil Row).
  induction l as [|r l IH]; intros acc; [done|].
  simpl. by rewrite insert_sorted_by, IH.
Qed.

End Comparators.

(** X1. The project list of a site answers 200 with exactly the projects
    stored for that site, each once, ordered by order_index ascending and,
    for equal order_index, by created_at descending, NULL counting as the
    largest value; the total is their number and the tables are not
    changed. *)
Theorem listProjects_sorted_permutation (site_id : string) (w : World) :
  ∃ rows,
    (listProjects site_id w).1 = mkResponse 200 (BList rows (length rows)) ∧
    rows ≡ₚ filter (λ r, col_is "site_id" site_id r = true)
               (portfolio_projects (db w)) ∧
    in_order project_before rows ∧
    db (listProjects site_id w).2 = db w.
Proof.
  eexists. split; [reflexivity|]. rewrite order_projects_sort.
  split; [apply sort_rows_perm|]. split; [|done].
  apply sort_rows_in_order; [apply project_before_asym|apply project_before_trans].
Qed.

(** X2. The site list answers 200 with exactly the sites whose user_id
    is the principal's id, each once, newest first by created_at; the
    total is their number and the tables are not changed. *)
Theorem listSites_sorted_permutation (user : Row) (w : World) :
  ∃ rows,
    (listSites user w).1 = mkResponse 200 (BList rows (length rows)) ∧
    rows ≡ₚ filter (λ r, sql_eq (field "user_id" r) (field "id" user) = true)
               (portfolio_sites (db w)) ∧
    in_order newer rows ∧
    db (listSites user w).2 = db w.
Proof.
  eexists. split; [reflexivity|].
  split; [apply sort_rows_perm|]. split; [|done].
  apply sort_rows_in_order; [apply newer_asym|apply newer_trans].
Qed.

(** ** Registration and login *)

Section Registration.

Variable jwt_sign : Value → Value → string.

(** The registration handler, case by case. *)
Lemma register_spec (req_body : RegisterBody) (user_id : string) (now : Z)
    (w : World) :
  register jwt_sign req_body user_id now w =
    if blank (reg_username req_body) || blank (reg_email req_body)
       || blank (reg_password_hash req_body) then
      (fail 400 "Username, email and password are required" None
            "MISSING_REQUIRED_FIELDS", w)
    else if bool_decide (String.length (default "" (reg_password_hash req_body)) < 6) then
      (fail 400 "Password must be at least 6 characters long" None
            "PASSWORD_TOO_SHORT", w)
    else
      let w1 := logged w (mkQuery q_existing_user
                  [VStr (default "" (reg_username req_body));
                   VStr (default "" (reg_email req_body))]) in
      if bool_decide (0 < length (existing_users (db w) req_body)) then
        (fail 400 "User with this username or email already exists" None
              "USER_ALREADY_EXISTS", w1)
      else
        let new := registered_user req_body user_id now in
        let w2 := logged w1 (mkQuery q_insert_user (register_values req_body user_id)) in
        if users_accepts new (users (db w)) then
          (mkResponse 201
             (BAuth (json_object (user_literal
                       (select_cols ["id"; "username"; "email"; "full_name";
                                     "avatar_url"; "is_active"; "created_at"] new)))
                    (jwt_sign (VStr user_id)
                       (VStr (trim (toLowerCase (default "" (reg_email req_body))))))),
           mkWorld (with_user (db w) new) (trace w2) (storage w))
        else (internal_error "error", w2).
Proof.
  unfold register.
  destruct (blank _ || blank _ || blank _); [done|].
  destruct (bool_decide (String.length _ < 6)); [done|].
  unfold bind, pool_select, pool_query, existing_users, logged. cbn [fst snd db trace storage].
  rewrite length_fmap.
  destruct (bool_decide (0 < length _)); [done|].
  unfold insert_user, register_values.
  change (list_to_map _) with (registered_user req_body user_id now).
  destruct (users_accepts _ _); [|done].
  cbn [fst snd db trace storage ret].
  rewrite !field_select_cols by by_decide.
  assert (field "id" (registered_user req_body user_id now) = VStr user_id) as ->
    by (unfold registered_user; row_field).
  assert (field "email" (registered_user req_body user_id now)
          = VStr (trim (toLowerCase (default "" (reg_email req_body))))) as ->
    by (unfold registered_user; row_field).
  done.
Qed.

End Registration.

Section Accounts.

Variable jwt_sign : Value → Value → string.

Lemma filter_none {A} (P : A → Prop) `{!∀ x, Decision (P x)} (l : list A) :
  Forall (λ x, ¬ P x) l → filter P l = [].
Proof.
  induction 1 as [|x l Hx _ IH]; [done|]. by rewrite filter_cons_False.
Qed.

(** [WHERE col = $n] against a text parameter, read off the column. *)
Lemma col_is_field (col s : string) (r : Row) :
  col_is col s r = bool_decide (field col r = VStr s).
Proof.
  unfold col_is, field.
  destruct (r !! col) as [[]|]; simpl; try done.
  apply bool_decide_ext. split; [by intros ->|congruence].
Qed.

Lemma registered_user_field (req_body : RegisterBody) (user_id : string) (now : Z) :
  let new := registered_user req_body user_id now in
  field "id" new = VStr user_id ∧
  field "username" new = VStr (trim (default "" (reg_username req_body))) ∧
  field "email" new = VStr (trim (toLowerCase (default "" (reg_email req_body)))) ∧
  field "password_hash" new = VStr (default "" (reg_password_hash req_body)).
Proof. unfold registered_user. repeat split; row_field. Qed.

(** The UNIQUE columns: an accepted row shares its email with no stored
    row. *)
Lemma users_accepts_email (new : Row) (table : list Row) (r : Row) :
  users_accepts new table = true → r ∈ table → field "email" r ≠ field "email" new.
Proof.
  unfold users_accepts. rewrite !andb_true_iff.
  intros [[[Hall _] _] _] Hin.
  rewrite forallb_forall in Hall. apply list_elem_of_In, Hall in Hin.
  rewrite !andb_true_iff in Hin. destruct Hin as [_ Hemail].
  by apply bool_decide_eq_true in Hemail.
Qed.

Lemma users_rejects_email (new : Row) (table : list Row) (r : Row) :
  r ∈ table → field "email" r = field "email" new → users_accepts new table = false.
Proof.
  intros Hin Heq. apply not_true_is_false. intros Hacc.
  by apply (users_accepts_email _ _ _ Hacc Hin).
Qed.

End Accounts.

(** X3. A registration stores one row or nothing.  When it is answered
    with 201 the users table has one more row: the id generated, the
    username trimmed, the email in lower case and trimmed, the password as
    sent, and NULL for an empty full name or avatar.  Every other answer
    is 400 or 500 and leaves all tables as they were. *)
Theorem register_stores_one_normalised_row
    (jwt_sign : Value → Value → string) (req_body : RegisterBody)
    (user_id : string) (now : Z) (w : World) :
  let out := register jwt_sign req_body user_id now w in
  (status out.1 = 201 ∧
   db out.2 = with_user (db w) (registered_user req_body user_id now)) ∨
  ((status out.1 = 400 ∨ status out.1 = 500) ∧ db out.2 = db w).
Proof.
  intros out. unfold out. rewrite register_spec.
  destruct (blank _ || blank _ || blank _); [right; split; [left|]; reflexivity|].
  destruct (bool_decide (String.length _ < 6)); [right; split; [left|]; reflexivity|].
  cbn zeta.
  destruct (bool_decide (0 < length _)); [right; split; [left|]; reflexivity|].
  destruct (users_accepts _ _); [left|right]; split; try right; reflexivity.
Qed.

(** X4. Register, then log in.  After a registration answered with 201,
    a login with the same email and password is answered with 200 for the
    account just created, provided no older account uses the normalised
    email as its username. *)
Theorem register_then_login
    (jwt_sign : Value → Value → string) (req_body : RegisterBody)
    (user_id : string) (now : Z) (w : World) :
  let out := register jwt_sign req_body user_id now w in
  let address := trim (toLowerCase (default "" (reg_email req_body))) in
  status out.1 = 201 →
  Forall (λ u, field "username" u ≠ VStr address) (users (db w)) →
  (login jwt_sign (mkLogin None (reg_email req_body) (reg_password_hash req_body))
         out.2).1 =
    mkResponse 200
      (BAuth (json_object (user_literal (registered_user req_body user_id now)))
             (jwt_sign (VStr user_id) (VStr address))).
Proof.
  intros out address. unfold out. rewrite register_spec.
  destruct (blank (reg_username req_body) || blank (reg_email req_body)
            || blank (reg_password_hash req_body)) eqn:Hblank; [done|].
  apply orb_false_elim in Hblank as [[_ Hemail]%orb_false_elim Hpw].
  destruct (bool_decide (String.length _ < 6)); [done|].
  cbn zeta.
  destruct (bool_decide (0 < length _)); [done|].
  destruct (users_accepts _ _) eqn:Hacc; [|done].
  cbn [fst snd]. intros _ Hnames.
  rewrite login_spec. unfold login_identifier. cbn [login_username login_email
    login_password_hash blank]. rewrite Hemail, Hpw. cbn [orb].
  destruct (registered_user_field req_body user_id now) as (Hid & _ & Haddr & Hpass).
  assert (login_rows (with_user (db w) (registered_user req_body user_id now))
            (mkLogin None (reg_email req_body) (reg_password_hash req_body))
          = [registered_user req_body user_id now]) as Hrows.
  { unfold login_rows, login_identifier, with_user.
    cbn [login_username login_email blank users]. fold address.
    rewrite filter_app.
    assert (filter (λ r, col_is "username" address r || col_is "email" address r = true)
              (users (db w)) = []) as ->.
    { apply filter_none, Forall_forall. intros r Hin.
      rewrite Forall_forall in Hnames. rewrite !col_is_field.
      rewrite (bool_decide_eq_false_2 _ (Hnames r Hin)).
      rewrite bool_decide_eq_false_2; [done|].
      fold address in Haddr. rewrite <- Haddr.
      by apply (users_accepts_email _ _ _ Hacc). }
    rewrite filter_cons_True; [done|].
    rewrite !col_is_field. fold address in Haddr. rewrite Haddr.
    rewrite (bool_decide_eq_true_2 (VStr address = VStr address)) by done.
    by rewrite orb_true_r. }
  cbn [db]. rewrite Hrows. cbn zeta.
  rewrite Hpass, Hid, Haddr.
  by rewrite bool_decide_eq_false_2 by (intros Hne; by apply Hne).
Qed.

(** Dora registers against the sample users and logs in. *)
Lemma register_then_login_witness :
  let req_body :=
    mkRegister (Some "Dora") (Some " Dora@Example.com ") (Some "secret1") None None in
  let out := register Sample.sign req_body "u_dora" 7 Sample.world in
  status out.1 = 201 ∧
  status (login Sample.sign (mkLogin None (Some " Dora@Example.com ") (Some "secret1"))
                out.2).1 = 200.
Proof.
  intros req_body out.
  assert (status out.1 = 201) as Hstatus by (vm_compute; reflexivity).
  split; [exact Hstatus|].
  refine (f_equal status
            (register_then_login Sample.sign req_body "u_dora" 7 Sample.world Hstatus _)).
  repeat constructor; vm_compute; discriminate.
Defined.

(** X5. The duplicate check reads the email as sent, the INSERT stores
    it in lower case and trimmed.  A registration whose email differs
    from a stored one only in case or in surrounding blanks therefore
    passes the check and fails at the UNIQUE constraint: the answer is
    500, not 400 USER_ALREADY_EXISTS, and nothing is stored. *)
Theorem register_case_variant_is_500
    (jwt_sign : Value → Value → string) (req_body : RegisterBody)
    (user_id : string) (now : Z) (w : World) (other : Row) :
  blank (reg_username req_body) = false →
  blank (reg_email req_body) = false →
  blank (reg_password_hash req_body) = false →
  6 ≤ String.length (default "" (reg_password_hash req_body)) →
  existing_users (db w) req_body = [] →
  other ∈ users (db w) →
  field "email" other = VStr (trim (toLowerCase (default "" (reg_email req_body)))) →
  let out := register jwt_sign req_body user_id now w in
  out.1 = internal_error "error" ∧ db out.2 = db w ∧
  trace out.2 = trace w ++
    [mkQuery q_existing_user [VStr (default "" (reg_username req_body));
                              VStr (default "" (reg_email req_body))];
     mkQuery q_insert_user (register_values req_body user_id)].
Proof.
  intros Hname Hemail Hpw Hlen Hnone Hin Hsame out. unfold out.
  rewrite register_spec, Hname, Hemail, Hpw. cbn [orb].
  rewrite bool_decide_eq_false_2 by lia.
  cbn zeta. rewrite Hnone. cbn [length].
  rewrite bool_decide_eq_false_2 by lia.
  rewrite (users_rejects_email _ _ other Hin).
  - unfold logged. cbn [fst snd db trace]. by rewrite <- app_assoc.
  - destruct (registered_user_field req_body user_id now) as (_ & _ & -> & _).
    exact Hsame.
Qed.

(** ALICE@example.com against the sample users, where alice@example.com
    is taken. *)
Lemma register_case_variant_is_500_witness :
  let req_body :=
    mkRegister (Some "alice2") (Some "ALICE@example.com") (Some "secret1") None None in
  status (register Sample.sign req_body "u_new" 7 Sample.world).1 = 500 ∧
  db (register Sample.sign req_body "u_new" 7 Sample.world).2 = Sample.tables.
Proof.
  intros req_body.
  destruct (register_case_variant_is_500 Sample.sign req_body "u_new" 7 Sample.world
              Sample.alice) as (Hout & Hdb & _).
  - reflexivity.
  - reflexivity.
  - reflexivity.
  - vm_compute. lia.
  - vm_compute. reflexivity.
  - left.
  - vm_compute. reflexivity.
  - rewrite Hout, Hdb. by split.
Defined.

(** ** Fixed updates of one table *)

Section FixedUpdate.

Lemma bind_pair {A B} (m : M A) (k : A → M B) (w : World) :
  bind m k w = k (m w).1 (m w).2.
Proof. unfold bind. by destruct (m w). Qed.

Lemma pool_query_pair {A} (text : string) (values : list Value)
    (run : DB → A * DB) (w : World) :
  pool_query text values run w =
    ((run (db w)).1,
     mkWorld (run (db w)).2 (trace w ++ [mkQuery text values]) (storage w)).
Proof. unfold pool_query. by destruct (run (db w)). Qed.

Variable key : string.
Variable cols : list string.
Variable change : Row → Row.
Hypothesis key_kept : key ∉ cols.
Hypothesis change_frame : ∀ r, same_but cols r (change r).

Lemma col_is_change (id : string) (r : Row) :
  col_is key id (change r) = col_is key id r.
Proof. unfold col_is. by rewrite change_frame. Qed.

Lemma map_rows_changed (id : string) (rows : list Row) :
  rows_changed key id cols rows
    ((λ r, if col_is key id r then change r else r) <$> rows).
Proof.
  unfold rows_changed. induction rows as [|r rows IH]; [constructor|].
  rewrite fmap_cons. constructor; [|exact IH].
  destruct (col_is key id r); [apply change_frame|done].
Qed.

Lemma filter_map_changed (id : string) (rows : list Row) :
  filter (λ r, col_is key id r = true)
         ((λ r, if col_is key id r then change r else r) <$> rows)
  = change <$> filter (λ r, col_is key id r = true) rows.
Proof.
  induction rows as [|r rows IH]; [done|].
  rewrite fmap_cons, !filter_cons.
  destruct (col_is key id r) eqn:Hr.
  - rewrite col_is_change, Hr. simpl. by rewrite IH.
  - rewrite Hr. simpl. exact IH.
Qed.

End FixedUpdate.

Section SiteSections.

Lemma owner_has_site (d : DB) (site_id : string) (owner : Value) :
  site_owner d site_id = Some owner →
  ∃ r0 rest, sites_with d site_id = r0 :: rest ∧ field "user_id" r0 = owner.
Proof.
  unfold site_owner, sites_with.
  destruct (filter _ (portfolio_sites d)) as [|r0 rest]; [done|].
  simpl. intros [= <-]. eauto.
Qed.

(** The owner passes the check: the handler goes on after the lookup. *)
Lemma site_gate_owner (site_id : string) (user : Row) (rest : M Response)
    (w : World) :
  site_owner (db w) site_id = Some (field "id" user) →
  site_gate site_id user rest w = rest (logged w (site_lookup site_id)).
Proof.
  intros Howner. rewrite site_gate_spec, Howner. cbn zeta.
  by rewrite bool_decide_eq_false_2 by (intros Hne; by apply Hne).
Qed.

(** What a fixed UPDATE of the target site leaves behind, as the site
    fetch shows it. *)
Lemma getSite_after_update (cols : list string) (change : Row → Row)
    (site_id : string) (d : DB) (tr : list Query) (st : list ZipFile)
    (r0 : Row) (rest : list Row) :
  "site_id" ∉ cols → (∀ r, same_but cols r (change r)) →
  sites_with d site_id = r0 :: rest →
  (getSite site_id (mkWorld (update_sites change site_id d).2 tr st)).1 =
    mkResponse 200 (BData (Some (change r0))).
Proof.
  intros Hkey Hframe Hrows. unfold getSite.
  rewrite bind_pair. unfold pool_select. rewrite pool_query_pair.
  cbn [fst snd db update_sites portfolio_sites].
  rewrite (filter_map_changed "site_id" cols change Hkey Hframe).
  unfold sites_with in Hrows. by rewrite Hrows.
Qed.

Lemma update_sites_changed (cols : list string) (change : Row → Row)
    (site_id : string) (d : DB) :
  (∀ r, same_but cols r (change r)) →
  let d' := (update_sites change site_id d).2 in
  rows_changed "site_id" site_id cols (portfolio_sites d) (portfolio_sites d') ∧
  users d' = users d ∧ portfolio_projects d' = portfolio_projects d ∧
  image_assets d' = image_assets d.
Proof.
  intros Hframe. cbn. split; [|done]. by apply map_rows_changed.
Qed.

Lemma set_seo_frame (seo_title seo_description : Value) (now : Z) (r : Row) :
  same_but ["seo_title"; "seo_description"; "updated_at"] r
           (set_seo seo_title seo_description now r).
Proof. unfold set_seo. frame_cols. Qed.

Lemma set_theme_frame (template_id primary_color font_family is_dark_mode : Value)
    (now : Z) (r : Row) :
  same_but ["template_id"; "primary_color"; "font_family"; "is_dark_mode"; "updated_at"]
           r (set_theme template_id primary_color font_family is_dark_mode now r).
Proof. unfold set_theme. frame_cols. Qed.

Lemma set_hero_frame (title tagline hero_image_url : Value) (now : Z) (r : Row) :
  same_but ["site_title"; "tagline"; "hero_image_url"; "updated_at"] r
           (set_hero title tagline hero_image_url now r).
Proof. unfold set_hero. frame_cols. Qed.

Lemma set_about_frame (bio : Value) (now : Z) (r : Row) :
  same_but ["about_text"; "updated_at"] r (set_about bio now r).
Proof. unfold set_about. frame_cols. Qed.

Lemma set_export_frame (url : string) (now : Z) (r : Row) :
  same_but ["export_zip_url"; "updated_at"] r (set_export url now r).
Proof. unfold set_export. frame_cols. Qed.

End SiteSections.


(** ** Login and the middleware *)

Section Sessions.

Variable jwt_verify : string → Verified.

(** The rows the middleware's lookup returns are stored users, cut down
    to the five columns selected. *)
Lemma token_users_stored (d : DB) (user_id : string) (user : Row) :
  user ∈ token_users d user_id →
  ∃ stored, stored ∈ users d ∧ field "id" stored = VStr user_id ∧
            user = select_cols ["id"; "username"; "email"; "full_name"; "created_at"]
                               stored.
Proof.
  unfold token_users. intros (stored & -> & Hin)%list_elem_of_fmap.
  apply list_elem_of_filter in Hin as [Hid Hin].
  exists stored. split; [done|]. split; [|done].
  rewrite col_is_field in Hid. by apply bool_decide_eq_true in Hid.
Qed.

End Sessions.

(** X6. A login is answered with 200 only for a stored user: the
    identifier, in lower case and trimmed, equals the user's username or
    email, and the password sent equals the stored one as it is.  The
    answer carries that user, the stored password included as the
    property password_hash, and a token signed for the user's id and
    email; a login never changes a table. *)
Theorem login_only_for_stored_user
    (jwt_sign : Value → Value → string) (req_body : LoginBody) (w : World) :
  let out := login jwt_sign req_body w in
  let identifier := trim (toLowerCase (default "" (login_identifier req_body))) in
  db out.2 = db w ∧
  (status out.1 = 200 →
   ∃ user password,
     user ∈ users (db w) ∧
     (field "username" user = VStr identifier ∨ field "email" user = VStr identifier) ∧
     login_password_hash req_body = Some password ∧
     field "password_hash" user = VStr password ∧
     out.1 = mkResponse 200
               (BAuth (json_object (user_literal user))
                      (jwt_sign (field "id" user) (field "email" user))) ∧
     get "password_hash" (json_object (user_literal user)) = VStr password).
Proof.
  intros out identifier. unfold out. rewrite login_spec.
  destruct (blank (login_identifier req_body) || blank (login_password_hash req_body))
    eqn:Hblank; [by split|].
  apply orb_false_elim in Hblank as [_ Hpw].
  cbn zeta.
  destruct (login_rows (db w) req_body) as [|user rows] eqn:Hrows; [by split|].
  assert (user ∈ login_rows (db w) req_body) as Hin by (rewrite Hrows; left).
  unfold login_rows in Hin. fold identifier in Hin.
  apply list_elem_of_filter in Hin as [Hmatch Hin].
  destruct (bool_decide (VStr _ ≠ _)) eqn:Hsame; [by split|].
  split; [done|]. intros _.
  apply bool_decide_eq_false in Hsame. apply dec_stable in Hsame.
  destruct (login_password_hash req_body) as [password|]; [|done].
  exists user, password. split; [done|]. split.
  - apply orb_true_iff in Hmatch. rewrite !col_is_field in Hmatch.
    destruct Hmatch as [H|H]; apply bool_decide_eq_true in H; auto.
  - split; [done|]. split; [done|]. split; [done|].
    by rewrite password_hash_of_literal.
Qed.

(** Alice logs in with her email in capitals. *)
Lemma login_only_for_stored_user_witness :
  let req_body := mkLogin None (Some "ALICE@EXAMPLE.COM") (Some "password123") in
  status (login Sample.sign req_body Sample.world).1 = 200 ∧
  ∃ user, user ∈ users Sample.tables ∧ field "email" user = VStr "alice@example.com" ∧
          field "password_hash" user = VStr "password123".
Proof.
  intros req_body.
  assert (status (login Sample.sign req_body Sample.world).1 = 200) as Hstatus
    by (vm_compute; reflexivity).
  split; [exact Hstatus|].
  destruct (login_only_for_stored_user Sample.sign req_body Sample.world) as [_ Hsound].
  destruct (Hsound Hstatus) as (user & password & Hin & Hmatch & Hpw & Hstored & _ & _).
  exists user. split; [exact Hin|].
  injection Hpw as <-. split; [|exact Hstored].
  destruct Hmatch as [Hname|Hmail]; [|exact Hmail].
  exfalso. revert Hname. clear -Hin.
  apply list_elem_of_In in Hin. simpl in Hin.
  destruct Hin as [<-|[<-|[]]]; vm_compute; discriminate.
Defined.

(** X7. The client store posts [{ email, password }] to the login
    route, and the handler reads [password_hash]: whatever the email and
    the password are, the request is answered with 400
    MISSING_REQUIRED_FIELDS before any statement is issued. *)
Theorem store_login_is_always_rejected
    (jwt_sign : Value → Value → string) (email password : string) (w : World) :
  login jwt_sign (login_body (Store.login_user_payload email password)) w =
    (fail 400 "Username/email and password are required" None
          "MISSING_REQUIRED_FIELDS", w).
Proof.
  rewrite login_spec.
  assert (login_password_hash (login_body (Store.login_user_payload email password))
          = None) as -> by reflexivity.
  cbn [blank]. by rewrite orb_true_r.
Qed.

(** X8. The principal the middleware attaches.  Whenever the handler
    behind [authenticateToken] runs, it runs with a stored user whose id
    is the one the token decodes to, cut down to the five columns of the
    lookup, so without the password; otherwise the answer is the
    middleware's own 401 or 403. *)
Theorem authenticateToken_attaches_stored_user
    (jwt_verify : string → Verified) (authHeader : option string)
    (next : Row → M Response) (w : World) :
  let out := authenticateToken jwt_verify authHeader next w in
  ((status out.1 = 401 ∨ status out.1 = 403) ∧ db out.2 = db w) ∨
  (∃ token user_id stored,
     let user := select_cols ["id"; "username"; "email"; "full_name"; "created_at"]
                             stored in
     bearer_token authHeader = Some token ∧
     jwt_verify token = Decoded user_id ∧
     stored ∈ users (db w) ∧ field "id" stored = VStr user_id ∧
     field "id" user = VStr user_id ∧
     user !! "password_hash" = None ∧
     out = next user (logged w (user_lookup user_id))).
Proof.
  intros out. unfold out. rewrite authenticateToken_spec.
  destruct (no_token (bearer_token authHeader)) eqn:Hnone; [left; split; [left|]; reflexivity|].
  destruct (bearer_token authHeader) as [token|]; [|done].
  change (default "" (Some token)) with token.
  destruct (jwt_verify token) as [user_id|error] eqn:Hverify;
    [|left; split; [right|]; reflexivity].
  destruct (token_users (db w) user_id) as [|user rest] eqn:Husers;
    [left; split; [left|]; reflexivity|].
  destruct (token_users_stored (db w) user_id user) as (stored & Hin & Hid & ->).
  { rewrite Husers. left. }
  right. exists token, user_id, stored. cbn zeta.
  split; [done|]. split; [done|]. split; [done|]. split; [done|].
  split; [|split; [|done]].
  - rewrite field_select_cols by by_decide. exact Hid.
  - unfold select_cols. apply map_lookup_filter_None.
    right. intros v _. cbn [fst]. by_decide.
Qed.

(** X9. The public profile.  GET /api/users/:user_id answers 404 when
    no stored user has that id and is active, and otherwise 200 with the
    first such user cut down to id, username, full_name, avatar_url,
    is_active and created_at: the answer has neither the email nor the
    password.  No table changes. *)
Theorem getUser_public_profile (user_id : string) (w : World) :
  let out := getUser user_id w in
  let public := ["id"; "username"; "full_name"; "avatar_url"; "is_active";
                 "created_at"] in
  db out.2 = db w ∧
  ((out.1 = fail 404 "User not found" None "USER_NOT_FOUND" ∧
    Forall (λ u, ¬ (field "id" u = VStr user_id ∧ u !! "is_active" = Some (VBool true)))
           (users (db w))) ∨
   (∃ stored,
      stored ∈ users (db w) ∧ field "id" stored = VStr user_id ∧
      stored !! "is_active" = Some (VBool true) ∧
      out.1 = mkResponse 200 (BData (Some (select_cols public stored))) ∧
      select_cols public stored !! "email" = None ∧
      select_cols public stored !! "password_hash" = None)).
Proof.
  intros out public. unfold out, getUser.
  rewrite bind_pair. unfold pool_select. rewrite pool_query_pair.
  cbn [fst snd db].
  destruct (filter _ (users (db w))) as [|stored rest] eqn:Hrows.
  - split; [done|]. left. split; [done|].
    apply Forall_forall. intros u Hin [Hid Hactive].
    assert (u ∈ filter (λ r, col_is "id" user_id r &&
                             bool_decide (r !! "is_active" = Some (VBool true)) = true)
                  (users (db w))) as Hu.
    { apply list_elem_of_filter. split; [|done].
      rewrite col_is_field, !bool_decide_eq_true_2 by done. done. }
    rewrite Hrows in Hu. by apply elem_of_nil in Hu.
  - split; [done|]. right. exists stored.
    assert (stored ∈ filter (λ r, col_is "id" user_id r &&
                                  bool_decide (r !! "is_active" = Some (VBool true)) = true)
                       (users (db w))) as Hin by (rewrite Hrows; left).
    apply list_elem_of_filter in Hin as [[Hid Hactive]%andb_true_iff Hin].
    rewrite col_is_field in Hid.
    apply bool_decide_eq_true in Hid, Hactive.
    split; [done|]. split; [done|]. split; [done|]. split; [done|].
    split; unfold select_cols; apply map_lookup_filter_None; right; intros v _;
      cbn [fst]; by_decide.
Qed.
(** X10. PUT /api/sites/:site_id/seo by the owner of the site, with a
    body whose two properties are strings or left out, answers 200 with
    the row as stored, which the site fetch then returns.  The update
    is not partial: each of seo_title and seo_description holds the value
    of the body, and NULL when the body leaves the property out.  Nothing
    else changes: the other sites, the other columns of the site apart
    from updated_at, and the other tables are as before. *)
Theorem putSeo_overwrites_both_columns
    (site_id : string) (user : Row) (req_body : Entries) (now : Z) (w : World) :
  site_owner (db w) site_id = Some (field "id" user) →
  texts ["seo_title"; "seo_description"] req_body →
  let out := putSeo site_id user req_body now w in
  ∃ row,
    out.1 = mkResponse 200 (BData (Some row)) ∧
    (getSite site_id out.2).1 = mkResponse 200 (BData (Some row)) ∧
    field "seo_title" row = to_sql (get "seo_title" req_body) ∧
    field "seo_description" row = to_sql (get "seo_description" req_body) ∧
    rows_changed "site_id" site_id ["seo_title"; "seo_description"; "updated_at"]
      (portfolio_sites (db w)) (portfolio_sites (db out.2)) ∧
    users (db out.2) = users (db w) ∧
    portfolio_projects (db out.2) = portfolio_projects (db w) ∧
    image_assets (db out.2) = image_assets (db w).
Proof.
  intros Howner _ out. unfold out, putSeo.
  destruct (owner_has_site _ _ _ Howner) as (r0 & rest & Hrows & _).
  rewrite site_gate_owner by done.
  rewrite bind_pair, pool_query_pair. cbn [fst snd ret logged db trace storage].
  set (change := set_seo (get "seo_title" req_body) (get "seo_description" req_body) now).
  exists (change r0).
  split. { cbn [update_sites fst]. fold (sites_with (db w) site_id). by rewrite Hrows. }
  split.
  { apply (getSite_after_update ["seo_title"; "seo_description"; "updated_at"]
             change site_id _ _ _ r0 rest); [by_decide|apply set_seo_frame|done]. }
  split; [unfold change, set_seo; row_field|].
  split; [unfold change, set_seo; row_field|].
  apply update_sites_changed, set_seo_frame.
Qed.

(** Alice sets the title only: the description becomes NULL. *)
Lemma putSeo_overwrites_both_columns_witness :
  let alice := Sample.principal Sample.alice in
  let out := putSeo "s1" alice [("seo_title", VStr "Work")] 9 Sample.world in
  ∃ row, out.1 = mkResponse 200 (BData (Some row)) ∧
         field "seo_title" row = VStr "Work" ∧ field "seo_description" row = VNull.
Proof.
  intros alice out.
  destruct (putSeo_overwrites_both_columns "s1" alice [("seo_title", VStr "Work")] 9
              Sample.world ltac:(vm_refl) ltac:(by repeat constructor))
    as (row & Hout & _ & Htitle & Hdescription & _).
  exists row. split; [exact Hout|]. split; [exact Htitle|exact Hdescription].
Defined.

(** X11. PUT /api/sites/:site_id/theme by the owner, with a body of
    strings and a boolean is_dark_mode, each possibly left out, answers
    200 with the row as stored, which the site fetch then returns.  The four theme
    columns hold the values of the body, NULL for a property left out;
    updated_at apart, nothing else changes. *)
Theorem putTheme_overwrites_four_columns
    (site_id : string) (user : Row) (req_body : Entries) (now : Z) (w : World) :
  site_owner (db w) site_id = Some (field "id" user) →
  texts ["template_id"; "primary_color"; "font_family"] req_body →
  bool_or_null (get "is_dark_mode" req_body) = true →
  let out := putTheme site_id user req_body now w in
  ∃ row,
    out.1 = mkResponse 200 (BData (Some row)) ∧
    (getSite site_id out.2).1 = mkResponse 200 (BData (Some row)) ∧
    field "template_id" row = to_sql (get "template_id" req_body) ∧
    field "primary_color" row = to_sql (get "primary_color" req_body) ∧
    field "font_family" row = to_sql (get "font_family" req_body) ∧
    field "is_dark_mode" row = to_sql (get "is_dark_mode" req_body) ∧
    rows_changed "site_id" site_id
      ["template_id"; "primary_color"; "font_family"; "is_dark_mode"; "updated_at"]
      (portfolio_sites (db w)) (portfolio_sites (db out.2)) ∧
    users (db out.2) = users (db w) ∧
    portfolio_projects (db out.2) = portfolio_projects (db w) ∧
    image_assets (db out.2) = image_assets (db w).
Proof.
  intros Howner _ _ out. unfold out, putTheme.
  destruct (owner_has_site _ _ _ Howner) as (r0 & rest & Hrows & _).
  rewrite site_gate_owner by done.
  rewrite bind_pair, pool_query_pair. cbn [fst snd ret logged db trace storage].
  set (change := set_theme (get "template_id" req_body) (get "primary_color" req_body)
                   (get "font_family" req_body) (get "is_dark_mode" req_body) now).
  exists (change r0).
  split. { cbn [update_sites fst]. fold (sites_with (db w) site_id). by rewrite Hrows. }
  split.
  { apply (getSite_after_update
             ["template_id"; "primary_color"; "font_family"; "is_dark_mode"; "updated_at"]
             change site_id _ _ _ r0 rest); [by_decide|apply set_theme_frame|done]. }
  do 4 (split; [unfold change, set_theme; row_field|]).
  apply update_sites_changed, set_theme_frame.
Qed.

(** Alice picks a template and nothing else. *)
Lemma putTheme_overwrites_four_columns_witness :
  let alice := Sample.principal Sample.alice in
  let out := putTheme "s1" alice [("template_id", VStr "grid")] 9 Sample.world in
  ∃ row, out.1 = mkResponse 200 (BData (Some row)) ∧
         field "template_id" row = VStr "grid" ∧ field "is_dark_mode" row = VNull.
Proof.
  intros alice out.
  destruct (putTheme_overwrites_four_columns "s1" alice [("template_id", VStr "grid")] 9
              Sample.world ltac:(vm_refl) ltac:(by repeat constructor) eq_refl)
    as (row & Hout & _ & Htemplate & _ & _ & Hdark & _).
  exists row. split; [exact Hout|]. split; [exact Htemplate|exact Hdark].
Defined.

Section Hero.

Lemma hero_title (title tagline hero_image_url : Value) (now : Z) (r : Row) :
  field "site_title" (set_hero title tagline hero_image_url now r) = to_sql title.
Proof. unfold set_hero. row_field. Qed.

Lemma hero_accepted (title tagline hero_image_url : Value) (now : Z)
    (rows : list Row) :
  to_sql title ≠ VNull →
  forallb (λ r, bool_decide (field "site_title"
                               (set_hero title tagline hero_image_url now r) ≠ VNull))
          rows = true.
Proof.
  intros Htitle. apply forallb_forall. intros r _.
  rewrite hero_title. by apply bool_decide_eq_true.
Qed.

Lemma hero_refused (title tagline hero_image_url : Value) (now : Z)
    (r0 : Row) (rows : list Row) :
  to_sql title = VNull →
  forallb (λ r, bool_decide (field "site_title"
                               (set_hero title tagline hero_image_url now r) ≠ VNull))
          (r0 :: rows) = false.
Proof.
  intros Htitle. cbn [forallb]. rewrite hero_title, Htitle.
  by rewrite bool_decide_eq_false_2 by (intros Hne; by apply Hne).
Qed.

End Hero.

(** X12. PUT /api/sites/:site_id/hero by the owner, with a title and
    with a tagline and an image that are strings or left out, answers 200
    with the row as stored, which the site fetch then returns:
    site_title, tagline and hero_image_url hold the values of the body,
    NULL for a tagline or an image left out, and the empty string for an
    empty title; updated_at apart, nothing else changes. *)
Theorem putHero_overwrites_three_columns
    (site_id title : string) (user : Row) (req_body : Entries) (now : Z)
    (w : World) :
  site_owner (db w) site_id = Some (field "id" user) →
  get "title" req_body = VStr title →
  texts ["tagline"; "hero_image_url"] req_body →
  let out := putHero site_id user req_body now w in
  ∃ row,
    out.1 = mkResponse 200 (BData (Some row)) ∧
    (getSite site_id out.2).1 = mkResponse 200 (BData (Some row)) ∧
    field "site_title" row = VStr title ∧
    field "tagline" row = to_sql (get "tagline" req_body) ∧
    field "hero_image_url" row = to_sql (get "hero_image_url" req_body) ∧
    rows_changed "site_id" site_id
      ["site_title"; "tagline"; "hero_image_url"; "updated_at"]
      (portfolio_sites (db w)) (portfolio_sites (db out.2)) ∧
    users (db out.2) = users (db w) ∧
    portfolio_projects (db out.2) = portfolio_projects (db w) ∧
    image_assets (db out.2) = image_assets (db w).
Proof.
  intros Howner Htitle _ out. unfold out, putHero.
  destruct (owner_has_site _ _ _ Howner) as (r0 & rest & Hrows & _).
  rewrite site_gate_owner by done.
  rewrite bind_pair, pool_query_pair. unfold update_sites_checked.
  rewrite hero_accepted by by rewrite Htitle.
  cbn [fst snd ret logged db trace storage].
  set (change := set_hero (get "title" req_body) (get "tagline" req_body)
                   (get "hero_image_url" req_body) now).
  exists (change r0).
  split. { cbn [update_sites fst]. fold (sites_with (db w) site_id). by rewrite Hrows. }
  split.
  { apply (getSite_after_update
             ["site_title"; "tagline"; "hero_image_url"; "updated_at"]
             change site_id _ _ _ r0 rest); [by_decide|apply set_hero_frame|done]. }
  split.
  { unfold change. by rewrite hero_title, Htitle. }
  do 2 (split; [unfold change, set_hero; row_field|]).
  apply update_sites_changed, set_hero_frame.
Qed.

(** Alice renames her site. *)
Lemma putHero_overwrites_three_columns_witness :
  let alice := Sample.principal Sample.alice in
  let out := putHero "s1" alice [("title", VStr "Alice")] 9 Sample.world in
  ∃ row, out.1 = mkResponse 200 (BData (Some row)) ∧
         field "site_title" row = VStr "Alice" ∧ field "tagline" row = VNull.
Proof.
  intros alice out.
  destruct (putHero_overwrites_three_columns "s1" "Alice" alice [("title", VStr "Alice")]
              9 Sample.world ltac:(vm_refl) eq_refl ltac:(by repeat constructor))
    as (row & Hout & _ & Htitle & Htagline & _).
  exists row. split; [exact Hout|]. split; [exact Htitle|exact Htagline].
Defined.

(** X13. The hero handler does not validate its body.  Without a title,
    absent or null, the owner's request reaches the database, where the
    UPDATE would put NULL into site_title, a NOT NULL column: the
    statement fails, the answer is 500, and no table changes. *)
Theorem putHero_without_title_is_500
    (site_id : string) (user : Row) (req_body : Entries) (now : Z) (w : World) :
  site_owner (db w) site_id = Some (field "id" user) →
  to_sql (get "title" req_body) = VNull →
  let out := putHero site_id user req_body now w in
  out.1 = internal_error "error" ∧ db out.2 = db w ∧
  trace out.2 = trace w ++
    [site_lookup site_id;
     mkQuery q_hero [get "title" req_body; get "tagline" req_body;
                     get "hero_image_url" req_body; VStr site_id]].
Proof.
  intros Howner Htitle out. unfold out, putHero.
  destruct (owner_has_site _ _ _ Howner) as (r0 & rest & Hrows & _).
  rewrite site_gate_owner by done.
  rewrite bind_pair, pool_query_pair. unfold update_sites_checked.
  cbn [logged db]. fold (sites_with (db w) site_id). rewrite Hrows.
  rewrite hero_refused by done.
  cbn [fst snd ret logged trace storage db]. by rewrite <- app_assoc.
Qed.

(** Alice sends a tagline without a title. *)
Lemma putHero_without_title_is_500_witness :
  let alice := Sample.principal Sample.alice in
  let out := putHero "s1" alice [("tagline", VStr "Hello")] 9 Sample.world in
  status out.1 = 500 ∧ db out.2 = Sample.tables.
Proof.
  intros alice out.
  destruct (putHero_without_title_is_500 "s1" alice [("tagline", VStr "Hello")] 9
              Sample.world ltac:(vm_refl) eq_refl) as (Hout & Hdb & _).
  unfold out. rewrite Hout, Hdb. by split.
Defined.

Section About.

(** SQL equality with a text parameter is the test of [col_is]. *)
Lemma sql_eq_col_is (col s : string) (r : Row) :
  sql_eq (field col r) (VStr s) = col_is col s r.
Proof.
  unfold sql_eq, col_is, field.
  destruct (r !! col) as [[]|]; simpl; try done.
  apply bool_decide_ext. split; [congruence|by intros ->].
Qed.

Lemma update_avatar_users (avatar_url : Value) (user_id : string) (d : DB) :
  users (update_avatar avatar_url (VStr user_id) d).2 =
    (λ r, if col_is "id" user_id r then <["avatar_url" := to_sql avatar_url]> r else r)
      <$> users d.
Proof.
  cbn. apply list_fmap_ext. intros _ r _. by rewrite sql_eq_col_is.
Qed.

Lemma avatar_frame (v : Value) (r : Row) : same_but ["avatar_url"] r (<["avatar_url" := v]> r).
Proof. frame_cols. Qed.

(** A value that is not falsy is sent as it is. *)
Lemma to_sql_truthy (v : Value) : falsy v = false → to_sql v = v.
Proof. by destruct v. Qed.

End About.

(** X14. PUT /api/sites/:site_id/about by the owner, with a bio and an
    avatar that are strings or left out, answers 200 with the site row as
    stored: about_text holds the bio of the body, NULL when
    it is left out, and updated_at apart no other column and no other
    site changes.  An avatar_url that is not empty is also written to the
    principal's own row of the users table and to no other user; without
    one the users table is untouched.  Projects and assets are as
    before. *)
Theorem putAbout_writes_bio_and_avatar
    (site_id user_id : string) (user : Row) (req_body : Entries) (now : Z)
    (w : World) :
  field "id" user = VStr user_id →
  site_owner (db w) site_id = Some (VStr user_id) →
  texts ["bio"; "avatar_url"] req_body →
  let out := putAbout site_id user req_body now w in
  let avatar_url := get "avatar_url" req_body in
  ∃ row,
    out.1 = mkResponse 200 (BData (Some row)) ∧
    field "about_text" row = to_sql (get "bio" req_body) ∧
    rows_changed "site_id" site_id ["about_text"; "updated_at"]
      (portfolio_sites (db w)) (portfolio_sites (db out.2)) ∧
    portfolio_projects (db out.2) = portfolio_projects (db w) ∧
    image_assets (db out.2) = image_assets (db w) ∧
    if falsy avatar_url then users (db out.2) = users (db w)
    else rows_changed "id" user_id ["avatar_url"] (users (db w)) (users (db out.2)) ∧
         Forall (λ u, col_is "id" user_id u = true → field "avatar_url" u = avatar_url)
                (users (db out.2)).
Proof.
  intros Hid Howner _ out avatar_url. unfold out, putAbout. fold avatar_url.
  rewrite <- Hid in Howner.
  destruct (owner_has_site _ _ _ Howner) as (r0 & rest & Hrows & _).
  rewrite site_gate_owner by done.
  rewrite bind_pair, pool_query_pair, bind_pair.
  cbn [fst snd logged db trace storage].
  set (change := set_about (get "bio" req_body) now).
  exists (change r0).
  destruct (falsy avatar_url) eqn:Havatar.
  - cbn [ret fst snd db].
    split. { cbn [update_sites fst]. fold (sites_with (db w) site_id). by rewrite Hrows. }
    split; [unfold change, set_about; row_field|].
    destruct (update_sites_changed ["about_text"; "updated_at"] change site_id (db w))
      as (Hsites & Husers & Hprojects & Hassets); [apply set_about_frame|].
    by repeat split.
  - rewrite pool_query_pair. cbn [ret fst snd db]. rewrite Hid.
    split. { cbn [update_sites fst]. fold (sites_with (db w) site_id). by rewrite Hrows. }
    split; [unfold change, set_about; row_field|].
    split; [by apply map_rows_changed, set_about_frame|].
    split; [done|]. split; [done|].
    rewrite update_avatar_users. cbn [update_sites snd users].
    split; [apply map_rows_changed; intros r; apply avatar_frame|].
    apply Forall_fmap, Forall_forall. intros r _. simpl.
    destruct (col_is "id" user_id r) eqn:Hr; [|by rewrite Hr].
    intros _. unfold field. rewrite lookup_insert_eq. simpl.
    by apply to_sql_truthy.
Qed.

(** Alice sends a bio and an avatar. *)
Lemma putAbout_writes_bio_and_avatar_witness :
  let alice := Sample.principal Sample.alice in
  let req_body := [("bio", VStr "Hi"); ("avatar_url", VStr "/a.png")] in
  let out := putAbout "s1" alice req_body 9 Sample.world in
  status out.1 = 200 ∧
  Forall (λ u, col_is "id" "u_alice" u = true → field "avatar_url" u = VStr "/a.png")
         (users (db out.2)).
Proof.
  intros alice req_body out.
  destruct (putAbout_writes_bio_and_avatar "s1" "u_alice" alice req_body 9 Sample.world
              ltac:(vm_compute; reflexivity) ltac:(vm_refl) ltac:(by repeat constructor))
    as (row & Hout & _ & _ & _ & _ & _ & Havatar).
  unfold out. rewrite Hout. split; [reflexivity|exact Havatar].
Defined.

Section ExportArchive.

Variable toISOString : Z → string.
Variable dirname : string.

(** The export handler for the owner: the lookup, the archive, then the
    one UPDATE. *)
Lemma exportSite_owner (site_id : string) (user : Row) (t_name t_html now : Z)
    (w : World) :
  site_owner (db w) site_id = Some (field "id" user) →
  let filename := "portfolio-" +:+ site_id +:+ "-" +:+ pretty t_name +:+ ".zip" in
  let url := "/storage/" +:+ filename in
  exportSite toISOString dirname site_id user t_name t_html now w =
    (mkResponse 200 (BExport url url),
     mkWorld (update_sites (set_export url now) site_id (db w)).2
             (trace w ++ [site_lookup site_id;
                          mkQuery q_set_export [VStr url; VStr site_id]])
             (storage w ++ [mkZip (storage_dir dirname +:+ "/" +:+ filename)
                                  [("index.html", mock_html toISOString t_html)]])).
Proof.
  intros Howner filename url. unfold exportSite.
  rewrite site_gate_owner by done.
  rewrite bind_pair. unfold generateStaticSiteExport at 1 2.
  cbn [fst snd]. fold filename url.
  assert (bool_decide (url = "") = false) as -> by by apply bool_decide_eq_false.
  rewrite bind_pair, pool_query_pair.
  cbn [fst snd ret logged db trace storage]. by rewrite <- app_assoc.
Qed.

End ExportArchive.

(** X15. POST /api/sites/:site_id/export by the owner writes one
    archive and records its URL: the site fetch then shows the URL in
    export_zip_url.  updated_at apart, no other column, no other site and
    no other table changes, and the statements issued are the ownership
    lookup and the one UPDATE. *)
Theorem exportSite_records_url
    (toISOString : Z → string) (dirname : string)
    (site_id : string) (user : Row) (t_name t_html now : Z) (w : World) :
  site_owner (db w) site_id = Some (field "id" user) →
  let out := exportSite toISOString dirname site_id user t_name t_html now w in
  let url := "/storage/" +:+ "portfolio-" +:+ site_id +:+ "-" +:+ pretty t_name +:+ ".zip" in
  (∃ row, (getSite site_id out.2).1 = mkResponse 200 (BData (Some row)) ∧
          field "export_zip_url" row = VStr url) ∧
  rows_changed "site_id" site_id ["export_zip_url"; "updated_at"]
    (portfolio_sites (db w)) (portfolio_sites (db out.2)) ∧
  users (db out.2) = users (db w) ∧
  portfolio_projects (db out.2) = portfolio_projects (db w) ∧
  image_assets (db out.2) = image_assets (db w) ∧
  length (storage out.2) = S (length (storage w)) ∧
  trace out.2 = trace w ++
    [site_lookup site_id; mkQuery q_set_export [VStr url; VStr site_id]].
Proof.
  intros Howner out url. unfold out.
  destruct (owner_has_site _ _ _ Howner) as (r0 & rest & Hrows & _).
  rewrite exportSite_owner by done. fold url. cbn [fst snd db trace storage].
  split.
  { exists (set_export url now r0). split.
    - apply (getSite_after_update ["export_zip_url"; "updated_at"]
               (set_export url now) site_id _ _ _ r0 rest);
        [by_decide|intros r; apply set_export_frame|done].
    - unfold set_export. row_field. }
  split; [apply map_rows_changed; intros r; apply set_export_frame|].
  split; [done|]. split; [done|]. split; [done|].
  split; [rewrite length_app; simpl; lia|done].
Qed.

(** Alice exports her site. *)
Lemma exportSite_records_url_witness :
  let alice := Sample.principal Sample.alice in
  let out := exportSite (λ _, "now") "/srv" "s1" alice 17 17 18 Sample.world in
  ∃ row, (getSite "s1" out.2).1 = mkResponse 200 (BData (Some row)) ∧
         field "export_zip_url" row = VStr "/storage/portfolio-s1-17.zip".
Proof.
  intros alice out.
  destruct (exportSite_records_url (λ _, "now") "/srv" "s1" alice 17 17 18 Sample.world
              ltac:(vm_refl)) as ((row & Hget & Hurl) & _).
  exists row. split; [exact Hget|exact Hurl].
Defined.

(** ** Creating a site *)

Section CreateSite.

Lemma sql_eq_ne (a b : Value) : a ≠ b → sql_eq a b = false.
Proof.
  intros Hne. unfold sql_eq. destruct a; try done; by apply bool_decide_eq_false.
Qed.




End CreateSite.



(** ** Deleting a project *)

Section DeleteProject.

Lemma project_gate_owner (site_id project_id : string) (user : Row)
    (rest : Row → M Response) (w : World) (row : Row) :
  project_found (db w) site_id project_id = Some row →
  field "user_id" row = field "id" user →
  project_gate site_id project_id user rest w =
    rest row (logged w (project_lookup site_id project_id)).
Proof.
  intros Hfound Howner. rewrite project_gate_spec, Hfound. cbn zeta.
  by rewrite bool_decide_eq_false_2 by (intros Hne; by apply Hne).
Qed.

Lemma without_project_none (project_id : string) (rows : list Row) :
  Forall (λ r, col_is "project_id" project_id r = false)
         (without_project project_id rows).
Proof.
  apply Forall_forall. intros r Hin.
  by apply list_elem_of_filter in Hin as [Hcol _].
Qed.

Lemma without_project_twice (project_id : string) (rows : list Row) :
  without_project project_id (without_project project_id rows)
  = without_project project_id rows.
Proof.
  unfold without_project. induction rows as [|r rows IH]; [done|].
  rewrite filter_cons. destruct (decide (col_is "project_id" project_id r = false)).
  - rewrite filter_cons_True by done. by rewrite IH.
  - exact IH.
Qed.

(** Once the rows with this id are gone, the lookup of the project
    handlers finds nothing, whatever the site. *)
Lemma project_found_deleted (d : DB) (site_id project_id : string) :
  Forall (λ r, col_is "project_id" project_id r = false) (portfolio_projects d) →
  project_found d site_id project_id = None.
Proof.
  intros Hgone. unfold project_found.
  rewrite filter_none; [done|].
  eapply Forall_impl; [exact Hgone|]. intros r Hr. cbn beta. by rewrite Hr.
Qed.

End DeleteProject.

(** X17. DELETE /api/sites/:site_id/projects/:project_id by the owner
    answers 200 with the project found.  Afterwards no project and no
    image asset carries that project id, every other project and asset is
    still there in its place, users and sites are untouched, and the same
    request sent again is answered with 404. *)
Theorem deleteProject_then_gone
    (site_id project_id : string) (user : Row) (w : World) (row : Row) :
  project_found (db w) site_id project_id = Some row →
  field "user_id" row = field "id" user →
  let out := deleteProject site_id project_id user w in
  out.1 = mkResponse 200 (BData (Some row)) ∧
  portfolio_projects (db out.2)
    = filter (λ r, col_is "project_id" project_id r = false) (portfolio_projects (db w)) ∧
  image_assets (db out.2)
    = filter (λ r, col_is "project_id" project_id r = false) (image_assets (db w)) ∧
  users (db out.2) = users (db w) ∧
  portfolio_sites (db out.2) = portfolio_sites (db w) ∧
  (deleteProject site_id project_id user out.2).1 =
    fail 404 "Project not found" None "PROJECT_NOT_FOUND".
Proof.
  intros Hfound Howner out. unfold out, deleteProject.
  rewrite (project_gate_owner _ _ _ _ _ row) by done.
  rewrite bind_pair, pool_query_pair, bind_pair, pool_query_pair.
  cbn [fst snd ret logged db trace storage delete_project_assets delete_project_row
       users portfolio_sites portfolio_projects image_assets].
  rewrite without_project_twice.
  split; [done|]. split; [done|]. split; [done|]. split; [done|]. split; [done|].
  rewrite project_gate_spec. cbn [db].
  rewrite project_found_deleted; [done|].
  apply without_project_none.
Qed.

(** Alice deletes her project. *)
Lemma deleteProject_then_gone_witness :
  let alice := Sample.principal Sample.alice in
  let out := deleteProject "s1" "p1" alice Sample.world in
  status out.1 = 200 ∧ portfolio_projects (db out.2) = [] ∧
  status (deleteProject "s1" "p1" alice out.2).1 = 404.
Proof.
  intros alice out.
  destruct (deleteProject_then_gone "s1" "p1" alice Sample.world Sample.project1_owned
              ltac:(vm_refl) ltac:(vm_compute; reflexivity))
    as (Hout & Hprojects & _ & _ & _ & Hagain).
  unfold out. rewrite Hagain, Hout, Hprojects. by repeat split.
Defined.

(** ** Images and assets *)

Section Assets.

Lemma fresh_key_sql (key id : string) (rows : list Row) :
  Forall (λ r, field key r ≠ VStr id) rows →
  forallb (λ r, negb (sql_eq (field key r) (VStr id))) rows = true.
Proof.
  intros Hfresh. apply forallb_forall. intros r Hin%list_elem_of_In.
  rewrite Forall_forall in Hfresh. by rewrite sql_eq_ne by auto.
Qed.

Lemma set_images_frame (images : Value) (now : Z) (r : Row) :
  same_but ["images"; "updated_at"] r (set_images images now r).
Proof. unfold set_images. frame_cols. Qed.

Lemma set_project_images_rows (images : Value) (project_id : string) (now : Z)
    (d : DB) :
  portfolio_projects (set_project_images images project_id now d).2 =
    (λ r, if col_is "project_id" project_id r then set_images images now r else r)
      <$> portfolio_projects d.
Proof. done. Qed.

Lemma asset_gate_spec (site_id asset_id : string) (user : Row)
    (rest : Row → M Response) (w : World) :
  asset_gate site_id asset_id user rest w =
    let w1 := logged w (asset_lookup site_id asset_id) in
    match asset_found (db w) site_id asset_id with
    | None => (fail 404 "Asset not found" None "ASSET_NOT_FOUND", w1)
    | Some row =>
        if bool_decide (field "user_id" row ≠ field "id" user)
        then (fail 403 "Access denied" None "ACCESS_DENIED", w1)
        else rest row w1
    end.
Proof.
  unfold asset_gate, asset_found, bind, pool_select, pool_query, logged, asset_lookup.
  simpl.
  destruct (filter _ (image_assets (db w)) ≫= join_owner (db w))
    as [|r rows]; simpl; [done|].
  unfold strict_ne. by destruct (bool_decide _).
Qed.

(** An asset the lookup finds is stored under that id. *)
Lemma asset_found_stored (d : DB) (site_id asset_id : string) (row : Row) :
  asset_found d site_id asset_id = Some row →
  ∃ old rest,
    filter (λ r, col_is "image_id" asset_id r = true) (image_assets d) = old :: rest.
Proof.
  unfold asset_found. intros Hfound.
  destruct (filter (λ r, col_is "image_id" asset_id r = true) (image_assets d))
    as [|old rest] eqn:Hrows; [|eauto].
  exfalso.
  assert (filter (λ r, col_is "image_id" asset_id r && col_is "site_id" site_id r = true)
            (image_assets d) = []) as Hnone.
  { apply filter_none, Forall_forall. intros r Hin [Hid _]%andb_true_iff.
    assert (r ∈ filter (λ r, col_is "image_id" asset_id r = true) (image_assets d))
      as Hr by by apply list_elem_of_filter.
    rewrite Hrows in Hr. by apply elem_of_nil in Hr. }
  by rewrite Hnone in Hfound.
Qed.

Lemma set_asset_frame (url alt_text : Value) (r : Row) :
  same_but ["url"; "alt_text"] r (set_asset url alt_text r).
Proof. unfold set_asset. frame_cols. Qed.

End Assets.

(** X18. POST /api/sites/:site_id/projects/:project_id/images by the
    owner, with a file, answers 201 with a new asset row whose url is
    /storage/ followed by the stored file name.  The asset is appended to
    the assets table, and the image list of the project becomes the list
    the lookup returned with that url appended at the end, or the url
    alone when the project had none.  updated_at apart, no other column
    of the project and no other project, site or user changes. *)
Theorem uploadProjectImage_appends_url
    (site_id project_id filename image_id : string) (user : Row)
    (req_body : Entries) (now : Z) (w : World) (row : Row) :
  project_found (db w) site_id project_id = Some row →
  field "user_id" row = field "id" user →
  array_or_null (field "images" row) = true →
  texts ["alt_text"] req_body →
  Forall (λ r, field "image_id" r ≠ VStr image_id) (image_assets (db w)) →
  let out := uploadProjectImage site_id project_id user req_body (Some filename)
               image_id now w in
  let url := "/storage/" +:+ filename in
  let images := match field "images" row with
                | VArr l => VArr (l ++ [url])
                | _ => VArr [url]
                end in
  ∃ asset,
    out.1 = mkResponse 201 (BData (Some asset)) ∧
    image_assets (db out.2) = image_assets (db w) ++ [asset] ∧
    field "image_id" asset = VStr image_id ∧
    field "site_id" asset = VStr site_id ∧
    field "project_id" asset = VStr project_id ∧
    field "url" asset = VStr url ∧
    field "alt_text" asset = to_sql (get "alt_text" req_body) ∧
    rows_changed "project_id" project_id ["images"; "updated_at"]
      (portfolio_projects (db w)) (portfolio_projects (db out.2)) ∧
    Forall (λ r, col_is "project_id" project_id r = true → field "images" r = images)
           (portfolio_projects (db out.2)) ∧
    users (db out.2) = users (db w) ∧
    portfolio_sites (db out.2) = portfolio_sites (db w).
Proof.
  intros Hfound Howner _ _ Hfresh out url images. unfold out, uploadProjectImage.
  rewrite (project_gate_owner _ _ _ _ _ row) by done. fold url.
  rewrite bind_pair, pool_query_pair. unfold insert_image.
  match goal with |- context [field "image_id" ?r] =>
    match r with <[_ := _]> _ => set (asset := r) end end.
  assert (field "image_id" asset = VStr image_id) as Hid by (unfold asset; row_field).
  rewrite Hid, fresh_key_sql by done.
  assert (bool_decide (length [VStr image_id; VStr site_id; VStr project_id; VStr url;
                               get "alt_text" req_body] = 5) = true) as -> by reflexivity.
  cbn [andb fst snd logged db trace storage].
  rewrite bind_pair, pool_query_pair.
  cbn [fst snd ret db trace storage].
  exists asset.
  split; [done|]. split; [done|]. split; [done|].
  do 4 (split; [unfold asset; row_field|]).
  rewrite set_project_images_rows. cbn [portfolio_projects].
  split; [apply map_rows_changed; intros r; apply set_images_frame|].
  split; [|done].
  apply Forall_fmap, Forall_forall. intros r _. simpl.
  destruct (col_is "project_id" project_id r) eqn:Hr; [|by rewrite Hr].
  intros _. unfold set_images. row_field.
Qed.

(** Alice uploads a first image to her project. *)
Lemma uploadProjectImage_appends_url_witness :
  let alice := Sample.principal Sample.alice in
  let out := uploadProjectImage "s1" "p1" alice [] (Some "a.png") "i1" 9 Sample.world in
  status out.1 = 201 ∧
  Forall (λ r, col_is "project_id" "p1" r = true →
               field "images" r = VArr ["/storage/a.png"])
         (portfolio_projects (db out.2)).
Proof.
  intros alice out.
  destruct (uploadProjectImage_appends_url "s1" "p1" "a.png" "i1" alice [] 9 Sample.world
              Sample.project1_owned ltac:(vm_refl) ltac:(vm_compute; reflexivity)
              ltac:(vm_compute; reflexivity) ltac:(by repeat constructor)
              ltac:(by constructor))
    as (asset & Hout & _ & _ & _ & _ & _ & _ & _ & Himages & _).
  unfold out. rewrite Hout. split; [reflexivity|exact Himages].
Defined.

(** X19. PUT /api/sites/:site_id/assets/:asset_id by the owner, with a
    url and an alt text that are strings or left out, answers 200 with the
    asset as stored: a property that is sent replaces the stored value, a
    property that is left out or null keeps it, so a stored value cannot
    be set back to NULL through this route.  No other column, no other asset and no
    other table changes. *)
Theorem putAsset_keeps_what_is_left_out
    (site_id asset_id : string) (user : Row) (req_body : Entries) (w : World)
    (row : Row) :
  asset_found (db w) site_id asset_id = Some row →
  field "user_id" row = field "id" user →
  texts ["url"; "alt_text"] req_body →
  let out := putAsset site_id asset_id user req_body w in
  let kept key old :=
    match get key req_body with
    | VStr s => VStr s
    | _ => to_sql (field key old)
    end in
  ∃ old new,
    head (filter (λ r, col_is "image_id" asset_id r = true) (image_assets (db w)))
      = Some old ∧
    out.1 = mkResponse 200 (BData (Some new)) ∧
    field "url" new = kept "url" old ∧
    field "alt_text" new = kept "alt_text" old ∧
    rows_changed "image_id" asset_id ["url"; "alt_text"]
      (image_assets (db w)) (image_assets (db out.2)) ∧
    users (db out.2) = users (db w) ∧
    portfolio_sites (db out.2) = portfolio_sites (db w) ∧
    portfolio_projects (db out.2) = portfolio_projects (db w).
Proof.
  intros Hfound Howner Htexts out kept. unfold out, putAsset.
  destruct (asset_found_stored _ _ _ _ Hfound) as (old & rest & Hrows).
  rewrite asset_gate_spec, Hfound. cbn zeta.
  rewrite bool_decide_eq_false_2 by (intros Hne; by apply Hne).
  rewrite bind_pair, pool_query_pair.
  cbn [fst snd ret logged db trace storage update_asset_row image_assets users
       portfolio_sites portfolio_projects].
  rewrite Hrows. cbn [fmap list_fmap lookup list_lookup].
  exists old, (set_asset (get "url" req_body) (get "alt_text" req_body) old).
  split; [done|]. split; [done|].
  apply Forall_cons in Htexts as [Hurl [Halt _]%Forall_cons].
  split.
  { unfold kept, set_asset, coalesce.
    destruct (get "url" req_body); try done; row_field. }
  split.
  { unfold kept, set_asset, coalesce.
    destruct (get "alt_text" req_body); try done; row_field. }
  split; [apply map_rows_changed; intros r; apply set_asset_frame|done].
Qed.

(** Alice replaces the url of her image and sends no alt text. *)
Lemma putAsset_keeps_what_is_left_out_witness :
  let alice := Sample.principal Sample.alice in
  let out := putAsset "s1" "i1" alice [("url", VStr "/storage/b.png")] Gallery.world in
  ∃ new, out.1 = mkResponse 200 (BData (Some new)) ∧
         field "url" new = VStr "/storage/b.png" ∧ field "alt_text" new = VStr "A".
Proof.
  intros alice out.
  destruct (putAsset_keeps_what_is_left_out "s1" "i1" alice
              [("url", VStr "/storage/b.png")] Gallery.world Gallery.asset1_owned
              ltac:(vm_refl) ltac:(vm_compute; reflexivity) ltac:(by repeat constructor))
    as (old & new & Hold & Hout & Hurl & Halt & _).
  exists new. split; [exact Hout|]. split; [exact Hurl|].
  rewrite Halt. injection Hold as <-. vm_compute. reflexivity.
Defined.

(** ** Contact submissions *)

Section Submissions.

Lemma left_join_site_elem (d : DB) (cs : Row) (joined : Row * option Row) :
  joined ∈ left_join_site d cs ↔
  joined.1 = cs ∧
  match joined.2 with
  | Some ps => ps ∈ portfolio_sites d ∧
               sql_eq (field "site_id" cs) (field "site_id" ps) = true
  | None => ∀ ps, ps ∈ portfolio_sites d →
                  sql_eq (field "site_id" cs) (field "site_id" ps) = false
  end.
Proof.
  unfold left_join_site. destruct joined as [cs' o]. cbn [fst snd].
  destruct (filter _ (portfolio_sites d)) as [|ps0 sites] eqn:Hsites.
  - rewrite list_elem_of_singleton. split.
    + intros [= -> ->]. split; [done|]. intros ps Hin.
      apply not_true_is_false. intros Heq.
      assert (ps ∈ filter (λ ps : Row, sql_eq (field "site_id" cs) (field "site_id" ps)
                                       = true) (portfolio_sites d)) as Hps
        by by apply list_elem_of_filter.
      rewrite Hsites in Hps. by apply elem_of_nil in Hps.
    + intros [-> Ho]. destruct o as [ps|]; [|done].
      destruct Ho as [Hin Heq].
      assert (ps ∈ filter (λ ps : Row, sql_eq (field "site_id" cs) (field "site_id" ps)
                                       = true) (portfolio_sites d)) as Hps
        by by apply list_elem_of_filter.
      rewrite Hsites in Hps. by apply elem_of_nil in Hps.
  - rewrite <- Hsites. rewrite list_elem_of_fmap. split.
    + intros (ps & [= -> ->] & [Heq Hin]%list_elem_of_filter). by split.
    + intros [-> Ho]. destruct o as [ps|].
      * destruct Ho as [Hin Heq]. exists ps. split; [done|].
        by apply list_elem_of_filter.
      * exfalso.
        assert (ps0 ∈ filter (λ ps : Row, sql_eq (field "site_id" cs)
                                            (field "site_id" ps) = true)
                        (portfolio_sites d)) as Hps by (rewrite Hsites; left).
        apply list_elem_of_filter in Hps as [Heq Hin].
        by rewrite (Ho ps0 Hin) in Heq.
Qed.

(** A submission is never lost in the join. *)
Lemma left_join_site_nonempty (d : DB) (cs : Row) :
  ∃ o, (cs, o) ∈ left_join_site d cs.
Proof.
  unfold left_join_site.
  destruct (filter _ (portfolio_sites d)) as [|ps0 sites].
  - exists None. left.
  - exists (Some ps0). left.
Qed.

(** The rows of the dashboard listing. *)
Lemma dashboard_rows (user : Row) (s : Inbox) (cs : Row) :
  cs ∈ listed (dashboardSubmissions user s) ↔
  cs ∈ contact_submissions s ∧ visible_to (inbox_db s) (field "id" user) cs.
Proof.
  unfold dashboardSubmissions, listed. cbn [body].
  rewrite (sort_rows_perm newer), list_elem_of_fmap.
  split.
  - intros ([cs' o] & -> & [Hshown Hin]%list_elem_of_filter). cbn [fst].
    apply list_elem_of_bind in Hin as (cs0 & Hjoin & Hcs0).
    apply left_join_site_elem in Hjoin as [Hsame Ho]. cbn [fst snd] in Hsame, Ho.
    subst cs0. split; [done|].
    unfold shown_to in Hshown. cbn [fst snd] in Hshown.
    apply orb_true_iff in Hshown as [Howner|Hnull].
    + destruct o as [ps|]; [|done]. right. exists ps. by destruct Ho.
    + left. by apply bool_decide_eq_true in Hnull.
  - intros [Hin [Hnull|(ps & Hps & Hsite & Howner)]].
    + destruct (left_join_site_nonempty (inbox_db s) cs) as [o Ho].
      exists (cs, o). split; [done|]. apply list_elem_of_filter. split.
      * unfold shown_to. cbn [fst snd]. rewrite (bool_decide_eq_true_2 _ Hnull).
        by rewrite orb_true_r.
      * apply list_elem_of_bind. by exists cs.
    + exists (cs, Some ps). split; [done|]. apply list_elem_of_filter. split.
      * unfold shown_to. cbn [fst snd]. by rewrite Howner.
      * apply list_elem_of_bind. exists cs. split; [|done].
        apply left_join_site_elem. by split.
Qed.

End Submissions.

(** X20. The submissions dashboard answers 200 with the stored
    submissions the principal may see, newest first, and their number: a
    submission that names a site is listed exactly for the users owning a
    site with that id, and a submission that names no site is listed for
    every user. *)
Theorem dashboardSubmissions_visibility (user : Row) (s : Inbox) :
  ∃ rows,
    dashboardSubmissions user s = mkResponse 200 (BList rows (length rows)) ∧
    in_order newer rows ∧
    (∀ cs, cs ∈ rows ↔
           cs ∈ contact_submissions s ∧
           (to_sql (field "site_id" cs) = VNull ∨
            ∃ ps, ps ∈ portfolio_sites (inbox_db s) ∧
                  sql_eq (field "site_id" cs) (field "site_id" ps) = true ∧
                  sql_eq (field "user_id" ps) (field "id" user) = true)).
Proof.
  eexists. split; [reflexivity|].
  split; [apply sort_rows_in_order; [apply newer_asym|apply newer_trans]|].
  intros cs. apply (dashboard_rows user s cs).
Qed.

(** X21. A contact form sent without a site reaches every dashboard.
    For a body with an email and a message, strings all, and no site_id,
    and a fresh submission id, POST /api/contact/submit answers 201 with
    the stored row, whose site_id is NULL, and the submissions dashboard
    of every user then lists that row. *)
Theorem submitContact_without_site_reaches_every_dashboard
    (req_body : Entries) (submission_id : string) (now : Z) (s : Inbox) :
  falsy (get "email" req_body) = false →
  falsy (get "message" req_body) = false →
  falsy (get "site_id" req_body) = true →
  texts ["name"; "email"; "message"; "site_id"] req_body →
  Forall (λ r, field "submission_id" r ≠ VStr submission_id) (contact_submissions s) →
  let out := submitContact req_body submission_id now s in
  ∃ row,
    out.1 = mkResponse 201 (BData (Some row)) ∧
    contact_submissions out.2 = contact_submissions s ++ [row] ∧
    field "email" row = get "email" req_body ∧
    field "message" row = get "message" req_body ∧
    field "site_id" row = VNull ∧
    ∀ user, row ∈ listed (dashboardSubmissions user out.2).
Proof.
  intros Hemail Hmessage Hsite _ Hfresh out. unfold out, submitContact.
  rewrite Hemail, Hmessage. cbn [orb].
  match goal with |- context [submissions_accept ?r _] => set (row := r) end.
  assert (field "submission_id" row = VStr submission_id) as Hid
    by (unfold row; row_field).
  assert (field "site_id" row = VNull) as Hnull.
  { unfold row, value_or_null. rewrite Hsite. row_field. }
  assert (submissions_accept row s = true) as ->.
  { unfold submissions_accept. rewrite Hid, Hnull, fresh_key_sql by done. done. }
  cbn [fst snd contact_submissions].
  exists row. split; [done|]. split; [done|].
  split; [unfold row; row_field|]. split; [unfold row; row_field|].
  split; [done|].
  intros user. apply dashboard_rows. cbn [contact_submissions inbox_db].
  split; [apply elem_of_app; right; left|].
  left. by rewrite Hnull.
Qed.

(** A visitor writes without naming a site; Bob sees the message. *)
Lemma submitContact_without_site_reaches_every_dashboard_witness :
  let req_body := [("email", VStr "v@x.com"); ("message", VStr "Hello")] in
  let out := submitContact req_body "m1" 9 (mkInbox Sample.tables []) in
  ∃ row, out.1 = mkResponse 201 (BData (Some row)) ∧
         row ∈ listed (dashboardSubmissions (Sample.principal Sample.bob) out.2).
Proof.
  intros req_body out.
  destruct (submitContact_without_site_reaches_every_dashboard req_body "m1" 9
              (mkInbox Sample.tables []) eq_refl eq_refl eq_refl
              ltac:(by repeat constructor) ltac:(by constructor))
    as (row & Hout & _ & _ & _ & _ & Hseen).
  exists row. split; [exact Hout|apply Hseen].
Defined.

(** ** Tokens and owners *)

(** X22. The token decides who the principal is, and the ownership
    check compares the site's owner with that principal.  A request that
    carries a token valid for one user and targets a site owned by
    another is answered with 403 ACCESS_DENIED by every handler that
    starts with the ownership check, whatever the rest of the handler is;
    the only statements issued are the two lookups and no table
    changes. *)
Theorem token_of_another_user_is_denied
    (jwt_verify : string → Verified) (authHeader : option string)
    (token user_id site_id : string) (owner : Value)
    (rest : Row → M Response) (w : World) :
  bearer_token authHeader = Some token → token ≠ "" →
  jwt_verify token = Decoded user_id →
  token_users (db w) user_id ≠ [] →
  site_owner (db w) site_id = Some owner →
  owner ≠ VStr user_id →
  authenticateToken jwt_verify authHeader
    (λ user, site_gate site_id user (rest user)) w =
    (fail 403 "Access denied" None "ACCESS_DENIED",
     mkWorld (db w) (trace w ++ [user_lookup user_id; site_lookup site_id])
             (storage w)).
Proof.
  intros Htoken Hne Hverify Husers Howner Hother.
  rewrite authenticateToken_spec, Htoken. cbn [no_token].
  rewrite bool_decide_eq_false_2 by done.
  change (default "" (Some token)) with token. rewrite Hverify.
  destruct (token_users (db w) user_id) as [|user others] eqn:Hrows; [done|].
  destruct (token_users_stored (db w) user_id user) as (stored & _ & Hid & ->).
  { rewrite Hrows. left. }
  rewrite site_gate_spec. cbn [logged db]. rewrite Howner. cbn zeta.
  rewrite field_select_cols by by_decide. rewrite Hid.
  rewrite bool_decide_eq_true_2 by done.
  unfold logged. cbn [db trace storage]. by rewrite <- app_assoc.
Qed.

(** Alice's token against Bob's site, with the publish handler behind
    the check. *)
Lemma token_of_another_user_is_denied_witness :
  status (authenticateToken Sample.verify (Some "Bearer alice-token")
            (λ user, publishSite "s3" user 9) Sample.world).1 = 403 ∧
  db (authenticateToken Sample.verify (Some "Bearer alice-token")
        (λ user, publishSite "s3" user 9) Sample.world).2 = Sample.tables.
Proof.
  pose proof (token_of_another_user_is_denied Sample.verify (Some "Bearer alice-token")
                "alice-token" "u_alice" "s3" (VStr "u_bob")
                (λ _, let* result :=
                        pool_query q_publish [VStr "s3"]
                          (update_sites (set_published 9) "s3") in
                      ret (mkResponse 200 (BData (result !! 0))))
                Sample.world eq_refl ltac:(discriminate) eq_refl
                ltac:(intros H; apply (f_equal length) in H; vm_compute in H;
                      discriminate)
                ltac:(vm_refl) ltac:(discriminate))
    as Hdenied.
  change (authenticateToken Sample.verify (Some "Bearer alice-token")
            (λ user, publishSite "s3" user 9) Sample.world
          = (fail 403 "Access denied" None "ACCESS_DENIED",
             mkWorld (db Sample.world)
                     (trace Sample.world ++ [user_lookup "u_alice"; site_lookup "s3"])
                     (storage Sample.world))) in Hdenied.
  rewrite Hdenied. by split.
Defined.

(** ** The update of a site that sends updated_at back *)

Section DuplicateColumn.

(** A SET item on a plain identifier assigns the folded column. *)
Lemma resolve_column (vals : list Value) (a : Assignment) (cv : string * Value) :
  Pg.resolve vals a = Some cv → cv.1 = Pg.fold_identifier (column a).
Proof.
  unfold Pg.resolve. destruct (Pg.plain_identifier (column a)); [|done].
  destruct (placeholder a) as [|i]; [done|].
  destruct (vals !! i) as [v|]; [|done]. simpl. by intros [= <-].
Qed.

(** A SET list that assigns the column of its last item before is
    refused: nothing is returned and no table changes. *)
Lemma update_sites_dynamic_duplicate (table_name key_column : string)
    (items : list Assignment) (a last : Assignment) (n : nat)
    (vals : list Value) (d : DB) :
  a ∈ items → Pg.fold_identifier (column a) = Pg.fold_identifier (column last) →
  Pg.update_sites_dynamic
    (mkUpdate table_name (items ++ [last]) key_column n vals) d = (None, d).
Proof.
  intros Hin Hsame. unfold Pg.update_sites_dynamic.
  cbn [set_list parameters where_placeholder].
  destruct (mapM _ (items ++ [last])) as [sets|] eqn:Hsets; [|done].
  destruct (vals !! pred n) as [[]|]; try done.
  apply mapM_Some_1, Forall2_app_inv_l in Hsets
    as (sets1 & sets2 & Hitems & Hlast & ->).
  apply Forall2_cons_inv_l in Hlast as (cv & tail & Hcv & Htail & ->).
  apply Forall2_nil_inv_l in Htail as ->.
  apply list_elem_of_lookup in Hin as [i Hi].
  destruct (Forall2_lookup_l _ _ _ _ _ Hitems Hi) as (cv' & Hcv'i & Hcv').
  apply resolve_column in Hcv, Hcv'.
  assert (bool_decide (NoDup (sets1 ++ [cv]).*1) = false) as Hdup.
  { apply bool_decide_eq_false. rewrite fmap_app. intros Hnodup.
    apply NoDup_app in Hnodup as (_ & Hdisjoint & _).
    apply (Hdisjoint cv.1).
    - apply list_elem_of_fmap. exists cv'. split; [congruence|].
      by eapply list_elem_of_lookup_2.
    - left. }
  rewrite Hdup. by rewrite andb_false_r.
Qed.

End DuplicateColumn.

(** X23. A body that carries updated_at cannot update a site.  The
    handler appends its own updated_at to the SET list without looking at
    the keys it kept, so for a body whose keys are plain identifiers, one
    of them updated_at in any letter case with a value, the statement
    assigns the column twice, PostgreSQL refuses it, and the owner gets
    500 with no table changed. *)
Theorem putSite_with_updated_at_is_500
    (site_id : string) (user : Row) (updates : Entries) (key : string) (v : Value)
    (now : Z) (w : World) :
  site_owner (db w) site_id = Some (field "id" user) →
  Forall (λ entry, Pg.plain_identifier entry.1 = true) updates →
  (key, v) ∈ updates → Pg.fold_identifier key = "updated_at" → v ≠ VUndefined →
  let out := putSite Pg.update_sites_dynamic site_id user updates now w in
  out.1 = internal_error "error" ∧ db out.2 = db w.
Proof.
  intros Howner _ Hin Hkey Hdefined out. unfold out, putSite.
  rewrite site_gate_owner by done. unfold dynamic_update.
  rewrite build_update_kept. cbn zeta. cbn [update_fields values value_index].
  assert ((key, v) ∈ kept_entries ["site_id"] updates) as Hkept.
  { apply list_elem_of_filter. split; [|done]. split; [|done].
    cbn [fst]. intros ->%list_elem_of_singleton. vm_compute in Hkey. discriminate. }
  assert (mkAssign key 0 ∈
            (λ a, mkAssign (column a) 0) <$> numbered (kept_entries ["site_id"] updates))
    as Hitem.
  { unfold numbered. apply list_elem_of_lookup in Hkept as [i Hi].
    apply list_elem_of_fmap. exists (mkAssign key (S i)). split; [done|].
    apply (list_elem_of_lookup_2 _ i). by rewrite list_lookup_imap, Hi. }
  apply list_elem_of_fmap in Hitem as (a & Hcolumn & Ha).
  injection Hcolumn as Hcolumn.
  rewrite bool_decide_eq_false_2.
  2: { intros Hlen. apply nil_length_inv in Hlen. rewrite Hlen in Ha.
       by apply elem_of_nil in Ha. }
  rewrite bind_pair, pool_query_pair.
  rewrite (update_sites_dynamic_duplicate _ _ _ a); [by split|done|].
  cbn [column]. by rewrite <- Hcolumn, Hkey.
Qed.

(** Alice sends the tagline together with the updated_at she read. *)
Lemma putSite_with_updated_at_is_500_witness :
  let alice := Sample.principal Sample.alice in
  let updates := [("tagline", VStr "Hi"); ("updated_at", VStr "2024-01-01")] in
  let out := putSite Pg.update_sites_dynamic "s1" alice updates 9 Sample.world in
  status out.1 = 500 ∧ db out.2 = Sample.tables.
Proof.
  intros alice updates out.
  destruct (putSite_with_updated_at_is_500 "s1" alice updates "updated_at"
              (VStr "2024-01-01") 9 Sample.world ltac:(vm_refl)
              ltac:(by repeat constructor) ltac:(right; left) eq_refl
              ltac:(discriminate))
    as [Hout Hdb].
  unfold out. rewrite Hout, Hdb. by split.
Defined.

(** ** The characters of a subdomain *)

Section Charset.

Lemma chars_app (s t : string) : chars (s +:+ t) = chars s ++ chars t.
Proof.
  induction s as [|c s IH]; [done|].
  change (c :: chars (s +:+ t) = c :: chars s ++ chars t). by rewrite IH.
Qed.

Lemma strip_non_alnum_chars (s : string) :
  Forall (λ c, is_lower_alnum c = true) (chars (strip_non_alnum s)).
Proof.
  induction s as [|c s IH]; simpl; [constructor|].
  destruct (is_lower_alnum c) eqn:Hc; [|exact IH].
  simpl. by constructor.
Qed.

Lemma pretty_N_char_alnum (x : N) : is_lower_alnum (pretty_N_char x) = true.
Proof.
  destruct x as [|p]; [reflexivity|].
  do 5 (try (destruct p as [p|p|]); try reflexivity).
Qed.

Lemma pretty_N_go_chars (x : N) :
  ∀ s, Forall (λ c, is_lower_alnum c = true) (chars s) →
       Forall (λ c, is_lower_alnum c = true) (chars (pretty_N_go x s)).
Proof.
  pattern x. apply (well_founded_induction N.lt_wf_0). clear x.
  intros x IH s Hs.
  destruct (decide (x = 0%N)) as [->|Hx].
  - by rewrite pretty_N_go_0.
  - rewrite pretty_N_go_step by lia.
    apply IH; [apply N.div_lt; lia|].
    simpl. constructor; [apply pretty_N_char_alnum|done].
Qed.

Lemma pretty_nat_chars (n : nat) :
  Forall (λ c, is_lower_alnum c = true) (chars (pretty n)).
Proof.
  unfold pretty, pretty_nat, pretty, pretty_N.
  destruct (decide (N.of_nat n = 0%N)); [by repeat constructor|].
  apply pretty_N_go_chars. constructor.
Qed.

Lemma candidate_chars (username : string) (n : nat) :
  Forall (λ c, is_lower_alnum c = true)
         (chars (candidate (base_subdomain username) n)).
Proof.
  unfold candidate, base_subdomain.
  destruct n as [|n]; [apply strip_non_alnum_chars|].
  rewrite chars_app. apply Forall_app.
  split; [apply strip_non_alnum_chars|apply pretty_nat_chars].
Qed.

End Charset.

(** X24. With more turns than there are sites the subdomain generator
    returns a token made of the characters a to z and 0 to 9 only,
    whatever the username is, and leaves the tables as they were. *)
Theorem generateUniqueSubdomain_charset (fuel : nat) (username : string) (w : World) :
  length (portfolio_sites (db w)) < fuel →
  ∃ s w',
    generateUniqueSubdomain fuel username w = (Some s, w') ∧
    Forall (λ c, is_lower_alnum c = true) (chars s) ∧
    db w' = db w.
Proof.
  intros Hfuel.
  destruct (subdomain_loop_first_free (base_subdomain username) fuel 0 w)
    as (n & w' & Hrun & Hdb & _); [lia|lia|].
  exists (candidate (base_subdomain username) n), w'.
  split; [exact Hrun|]. split; [apply candidate_chars|exact Hdb].
Qed.

(** The username J. R. Bob against the sample sites, where bob is
    taken. *)
Lemma generateUniqueSubdomain_charset_witness :
  ∃ s w', generateUniqueSubdomain 4 "J. R. Bob" Sample.world = (Some s, w') ∧
          Forall (λ c, is_lower_alnum c = true) (chars s).
Proof.
  destruct (generateUniqueSubdomain_charset 4 "J. R. Bob" Sample.world)
    as (s & w' & Hrun & Hchars & _); [simpl; lia|].
  exists s, w'. split; [exact Hrun|exact Hchars].
Defined.

(** ** The client store *)

Section StoreReducers.

Lemma replace_none (p : Row) (l : list Row) :
  Forall (λ x, Store.same "project_id" x p = false) l →
  (λ proj, if Store.same "project_id" proj p then p else proj) <$> l = l.
Proof.
  induction 1 as [|x l Hx _ IH]; [done|]. rewrite fmap_cons, Hx. by rewrite IH.
Qed.

End StoreReducers.

(** X25. The two update reducers of the store agree when identifiers
    are unique.  [update_project] overwrites the first project with the
    identifier of its argument and no other; when no two projects of the
    list share an identifier that is the list in which every project with
    that identifier is replaced, which is how [update_asset] is written.
    The list keeps its length, and without a match it is returned as it
    is. *)
Theorem store_update_project_replaces_matches (p : Row) (projects : list Row) :
  NoDup (field "project_id" <$> projects) →
  Store.update_project p projects =
    (λ proj, if Store.same "project_id" proj p then p else proj) <$> projects ∧
  length (Store.update_project p projects) = length projects.
Proof.
  intros Hnodup.
  assert (Store.update_project p projects =
            (λ proj, if Store.same "project_id" proj p then p else proj) <$> projects)
    as Heq; [|split; [exact Heq|by rewrite Heq, length_fmap]].
  unfold Store.update_project.
  induction projects as [|x rest IH]; [done|].
  rewrite fmap_cons in Hnodup. apply NoDup_cons in Hnodup as [Hx Hrest].
  cbn [Store.findIndex]. rewrite fmap_cons.
  destruct (Store.same "project_id" x p) eqn:Hsame.
  - cbn. f_equal. symmetry. apply replace_none, Forall_forall. intros y Hy.
    unfold Store.same in *. apply bool_decide_eq_true in Hsame.
    apply bool_decide_eq_false. intros Heq. apply Hx.
    apply list_elem_of_fmap. exists y. split; [congruence|done].
  - specialize (IH Hrest).
    destruct (Store.findIndex _ rest) as [idx|]; cbn in *; f_equal; exact IH.
Qed.

(** The second of three projects is replaced. *)
Lemma store_update_project_replaces_matches_witness :
  let a : Row := {["project_id" := VStr "a"]} in
  let b : Row := {["project_id" := VStr "b"]} in
  let b' : Row := <["title" := VStr "B"]> b in
  let c : Row := {["project_id" := VStr "c"]} in
  Store.update_project b' [a; b; c] =
    (λ proj, if Store.same "project_id" proj b' then b' else proj) <$> [a; b; c].
Proof.
  intros a b b' c.
  apply (store_update_project_replaces_matches b' [a; b; c]).
  apply (bool_decide_unpack _). vm_compute. exact I.
Defined.

(** X26. Adding a project to the store and deleting it by its
    identifier gives the list back, when no project of the list has that
    identifier. *)
Theorem store_add_then_delete (p : Row) (project_id : string) (projects : list Row) :
  field "project_id" p = VStr project_id →
  Forall (λ r, field "project_id" r ≠ VStr project_id) projects →
  Store.delete_project project_id (Store.add_project p projects) = projects.
Proof.
  intros Hid Hfresh. unfold Store.delete_project, Store.add_project.
  rewrite filter_app, filter_cons_False, filter_nil, app_nil_r by (by intros Hne).
  induction Hfresh as [|r rest Hr _ IH]; [done|].
  by rewrite filter_cons_True, IH.
Qed.

(** A project is added to a list of one and removed again. *)
Lemma store_add_then_delete_witness :
  let a : Row := {["project_id" := VStr "a"]} in
  let b : Row := {["project_id" := VStr "b"]} in
  Store.delete_project "b" (Store.add_project b [a]) = [a].
Proof.
  intros a b.
  apply (store_add_then_delete b "b" [a]); [vm_compute; reflexivity|].
  repeat constructor. vm_compute. discriminate.
Defined.
